(** * Fluid Resource Mapper: a shallow embedding of the mapping pipeline

    The development follows the Go packages of the repository:
    - [gostd]  : the few Go runtime and standard-library operations the
                 mapper relies on (string slicing, [%d] formatting,
                 [time.Duration] conversions);
    - [types]  : pkg/types/graph.go, the output data model;
    - [k8s]    : pkg/k8s/client.go, the query interface and the objects it
                 returns;
    - [mapper] : pkg/mapper/{mapper,dataset,runtime,resources}.go.

    Go strings are byte sequences and are modelled by [string]; Go maps with
    string keys by [gmap string _]; machine integers that are only compared
    and printed by [Z]; [float64] by the primitive binary64 floats. *)

From Stdlib Require Import ZArith String Ascii List Floats Uint63 DecimalString DecimalPos Lia.
From stdpp Require Import base strings gmap list.

#[local] Set Warnings "-register-all".
#[local] Open Scope string_scope.
#[local] Open Scope Z_scope.

(* ===================================================================== *)
(** ** Go runtime and standard library                                    *)
(* ===================================================================== *)

Module gostd.

(** [len(s)] of a Go string: its number of bytes. *)
Definition len (s : string) : nat := String.length s.

(** [s[a:b]]; Go panics unless [0 <= a <= b <= len(s)], and every use
    below is guarded accordingly. *)
Definition slice (s : string) (a b : nat) : string :=
  String.substring a (b - a) s.

(** [fmt.Sprintf("%d", n)]: decimal digits with a leading [-] for
    negative numbers. *)
Definition fmt_d (n : Z) : string := NilZero.string_of_int (Z.to_int n).

(** *** int64 and float64 *)

Definition MinInt64 : Z := - 2 ^ 63.
Definition MaxInt64 : Z := 2 ^ 63 - 1.

(** [float64(n)] for an integer [n] with [|n| < 2^63] (round to nearest
    even, as the hardware conversion does). *)
Definition float64_of_int (n : Z) : float :=
  if n <? 0 then PrimFloat.opp (PrimFloat.of_uint63 (Uint63.of_Z (- n)))
  else PrimFloat.of_uint63 (Uint63.of_Z n).

(** [int64(f)]: truncation toward zero. For NaN, infinities and values
    out of range Go leaves the result to the implementation; amd64
    yields the smallest int64. *)
Definition int64_of_float (f : float) : Z :=
  match Prim2SF f with
  | S754_zero _ => 0
  | S754_finite s m e =>
      let a := if 0 <=? e then Z.pos m * 2 ^ e
               else Z.quot (Z.pos m) (2 ^ (- e)) in
      let r := if s then - a else a in
      if (MinInt64 <=? r) && (r <=? MaxInt64) then r else MinInt64
  | _ => MinInt64
  end.

(** *** package time

    A [time.Time] is an instant in nanoseconds since the epoch and a
    [time.Duration] a signed 64-bit count of nanoseconds. *)

Definition Time := Z.
Definition Duration := Z.

Definition Nanosecond : Duration := 1.
Definition Second : Duration := 1000000000.
Definition Minute : Duration := 60 * Second.
Definition Hour : Duration := 60 * Minute.

(** [t.Sub(u)]: the difference, saturated to the range of Duration. *)
Definition Sub (t u : Time) : Duration :=
  let d := t - u in
  if d <? MinInt64 then MinInt64
  else if MaxInt64 <? d then MaxInt64
  else d.

(** [d.Seconds()], [d.Minutes()], [d.Hours()]: the integral part and the
    remainder are converted separately and added as float64. Go's [/]
    and [%] on integers truncate toward zero. *)
Definition Seconds (d : Duration) : float :=
  PrimFloat.add (float64_of_int (Z.quot d Second))
    (PrimFloat.div (float64_of_int (Z.rem d Second)) (float64_of_int 1000000000)).

Definition Minutes (d : Duration) : float :=
  PrimFloat.add (float64_of_int (Z.quot d Minute))
    (PrimFloat.div (float64_of_int (Z.rem d Minute)) (float64_of_int 60000000000)).

Definition Hours (d : Duration) : float :=
  PrimFloat.add (float64_of_int (Z.quot d Hour))
    (PrimFloat.div (float64_of_int (Z.rem d Hour)) (float64_of_int 3600000000000)).

(** *** package strings

    Strings and cutsets are taken byte by byte, which is what the
    library does on ASCII text. *)

(** [strings.HasPrefix(s, prefix)] *)
Definition HasPrefix (s prefix : string) : bool :=
  (len prefix <=? len s)%nat && String.eqb (slice s 0 (len prefix)) prefix.

(** [strings.Contains(s, substr)]: [substr] starts at some position of
    [s]. *)
Fixpoint Contains (s substr : string) : bool :=
  HasPrefix s substr
  || match s with
     | EmptyString => false
     | String _ s' => Contains s' substr
     end.

Fixpoint inCutset (c : ascii) (cutset : string) : bool :=
  match cutset with
  | EmptyString => false
  | String c' rest => Ascii.eqb c c' || inCutset c rest
  end.

(** [strings.TrimLeft(s, cutset)]: [s] without its leading bytes that
    belong to [cutset]. *)
Fixpoint TrimLeft (s cutset : string) : string :=
  match s with
  | EmptyString => EmptyString
  | String c s' => if inCutset c cutset then TrimLeft s' cutset else s
  end.

(** *** Runes

    [rune(n)] for an [int] keeps the low 32 bits, read as a signed
    number. *)
Definition rune_of_int (n : Z) : Z :=
  let m := n mod 2 ^ 32 in
  if m <? 2 ^ 31 then m else m - 2 ^ 32.

Definition byte_of (n : Z) : ascii := ascii_of_N (Z.to_N n).

(** [string(r)] for a rune [r]: its UTF-8 encoding, and the encoding of
    U+FFFD when [r] is no valid code point (negative, above U+10FFFF or a
    surrogate). *)
Definition string_of_rune (r : Z) : string :=
  if (r <? 0) || (1114111 <? r) || ((55296 <=? r) && (r <=? 57343)) then
    String (byte_of 239) (String (byte_of 191) (String (byte_of 189) EmptyString))
  else if r <? 128 then
    String (byte_of r) EmptyString
  else if r <? 2048 then
    String (byte_of (Z.lor 192 (Z.shiftr r 6)))
      (String (byte_of (Z.lor 128 (Z.land r 63))) EmptyString)
  else if r <? 65536 then
    String (byte_of (Z.lor 224 (Z.shiftr r 12)))
      (String (byte_of (Z.lor 128 (Z.land (Z.shiftr r 6) 63)))
         (String (byte_of (Z.lor 128 (Z.land r 63))) EmptyString))
  else
    String (byte_of (Z.lor 240 (Z.shiftr r 18)))
      (String (byte_of (Z.lor 128 (Z.land (Z.shiftr r 12) 63)))
         (String (byte_of (Z.lor 128 (Z.land (Z.shiftr r 6) 63)))
            (String (byte_of (Z.lor 128 (Z.land r 63))) EmptyString))).

End gostd.

(* ===================================================================== *)
(** ** pkg/types/graph.go                                                 *)
(* ===================================================================== *)

Module types.

(** [type RuntimeType string] *)
Definition RuntimeType := string.
Definition RuntimeTypeAlluxio : RuntimeType := "alluxio".
Definition RuntimeTypeJindo : RuntimeType := "jindo".
Definition RuntimeTypeJuiceFS : RuntimeType := "juicefs".
Definition RuntimeTypeGooseFS : RuntimeType := "goosefs".
Definition RuntimeTypeVineyard : RuntimeType := "vineyard".
Definition RuntimeTypeEFC : RuntimeType := "efc".
Definition RuntimeTypeThin : RuntimeType := "thin".
Definition RuntimeTypeUnknown : RuntimeType := "unknown".

(** [type ComponentType string] *)
Definition ComponentType := string.
Definition ComponentMaster : ComponentType := "master".
Definition ComponentWorker : ComponentType := "worker".
Definition ComponentFuse : ComponentType := "fuse".
Definition ComponentStorage : ComponentType := "storage".
Definition ComponentConfig : ComponentType := "config".

(** [type WarningLevel string] *)
Definition WarningLevel := string.
Definition WarningLevelError : WarningLevel := "error".
Definition WarningLevelWarning : WarningLevel := "warning".
Definition WarningLevelInfo : WarningLevel := "info".

(** [type ResourcePhase string] *)
Definition ResourcePhase := string.
Definition PhaseReady : ResourcePhase := "Ready".
Definition PhaseNotReady : ResourcePhase := "NotReady".
Definition PhasePending : ResourcePhase := "Pending".
Definition PhaseFailed : ResourcePhase := "Failed".
Definition PhaseUnknown : ResourcePhase := "Unknown".
Definition PhaseBound : ResourcePhase := "Bound".
Definition PhaseNotBound : ResourcePhase := "NotBound".

Module ConditionBrief.
Record t := mk {
  Type_ : string;
  Status : string;
  Reason : string;
  Message : string;
  LastTransitionTime : string
}.
End ConditionBrief.

Module DatasetNode.
Record t := mk {
  Name : string;
  Namespace : string;
  Phase : string;
  UfsTotal : string;
  Cached : string;
  CachedPercentage : string;
  Conditions : list ConditionBrief.t;
  MountPoints : list string
}.
(** The zero value of the struct. *)
Definition zero : t := mk "" "" "" "" "" "" [] [].
End DatasetNode.

Module RuntimeNode.
Record t := mk {
  Name : string;
  Namespace : string;
  Type_ : RuntimeType;
  MasterPhase : string;
  WorkerPhase : string;
  FusePhase : string;
  MasterReady : string;
  WorkerReady : string;
  FuseReady : string;
  Conditions : list ConditionBrief.t
}.
End RuntimeNode.

Module ResourceStatus.
Record t := mk {
  Phase : ResourcePhase;
  Ready : string;
  Message : string;
  Age : string
}.
End ResourceStatus.

Module OwnerInfo.
Record t := mk {
  Kind : string;
  Name : string;
  UID : string
}.
End OwnerInfo.

Module K8sResourceNode.
(** [Owner] is a pointer that may be nil; [Children] holds nodes of the
    same type. *)
Inductive t := mk {
  Kind : string;
  APIVersion : string;
  Name : string;
  Namespace : string;
  Component : ComponentType;
  Status : ResourceStatus.t;
  Owner : option OwnerInfo.t;
  Labels : gmap string string;
  Details : gmap string string;
  Children : list t
}.
End K8sResourceNode.

Module MappingWarning.
Record t := mk {
  Level : WarningLevel;
  Code : string;
  Message : string;
  Resource : string;
  Suggestion : string
}.
End MappingWarning.

Module GraphMetadata.
(** [Duration] holds [time.Since(startTime).String()]; the model keeps
    the elapsed nanoseconds that string renders. *)
Record t := mk {
  MappedAt : gostd.Time;
  Duration : gostd.Duration;
  ClusterName : string;
  Version : string;
  MockMode : bool
}.
End GraphMetadata.

Module ResourceGraph.
Record t := mk {
  Dataset : DatasetNode.t;
  Runtime : option RuntimeNode.t;
  Resources : list K8sResourceNode.t;
  Warnings : list MappingWarning.t;
  Metadata : GraphMetadata.t
}.
End ResourceGraph.

Module WarningCodes.
Definition DatasetNotFound := "DATASET_NOT_FOUND".
Definition RuntimeNotBound := "RUNTIME_NOT_BOUND".
Definition RuntimeNotFound := "RUNTIME_NOT_FOUND".
Definition MasterMissing := "MASTER_MISSING".
Definition WorkerMissing := "WORKER_MISSING".
Definition FuseMissing := "FUSE_MISSING".
Definition PodsNotReady := "PODS_NOT_READY".
Definition PVCMissing := "PVC_MISSING".
Definition PVNotBound := "PV_NOT_BOUND".
Definition ConfigMapMissing := "CONFIGMAP_MISSING".
Definition OrphanedResource := "ORPHANED_RESOURCE".
Definition UnknownRuntimeType := "UNKNOWN_RUNTIME_TYPE".
Definition PartialCreation := "PARTIAL_CREATION".
Definition ScalingInProgress := "SCALING_IN_PROGRESS".
Definition DeletionInProgress := "DELETION_IN_PROGRESS".
End WarningCodes.

(** [IsHealthy]: the loop returns false at the first warning of level
    error and true when the range is exhausted. *)
Fixpoint IsHealthy_range (ws : list MappingWarning.t) : bool :=
  match ws with
  | [] => true
  | w :: ws' =>
      if String.eqb (MappingWarning.Level w) WarningLevelError then false
      else IsHealthy_range ws'
  end.

Definition IsHealthy (g : ResourceGraph.t) : bool :=
  IsHealthy_range (ResourceGraph.Warnings g).

Definition HasWarnings (g : ResourceGraph.t) : bool :=
  (0 <? length (ResourceGraph.Warnings g))%nat.

(** [GetResourcesByKind] and [GetResourcesByComponent] append, in order,
    the top-level resources that match. *)
Fixpoint GetResourcesByKind_range (rs : list K8sResourceNode.t) (kind : string)
  : list K8sResourceNode.t :=
  match rs with
  | [] => []
  | r :: rs' =>
      if String.eqb (K8sResourceNode.Kind r) kind
      then r :: GetResourcesByKind_range rs' kind
      else GetResourcesByKind_range rs' kind
  end.

Definition GetResourcesByKind (g : ResourceGraph.t) (kind : string) :=
  GetResourcesByKind_range (ResourceGraph.Resources g) kind.

Fixpoint GetResourcesByComponent_range (rs : list K8sResourceNode.t)
  (component : ComponentType) : list K8sResourceNode.t :=
  match rs with
  | [] => []
  | r :: rs' =>
      if String.eqb (K8sResourceNode.Component r) component
      then r :: GetResourcesByComponent_range rs' component
      else GetResourcesByComponent_range rs' component
  end.

Definition GetResourcesByComponent (g : ResourceGraph.t) (component : ComponentType) :=
  GetResourcesByComponent_range (ResourceGraph.Resources g) component.

End types.

(* ===================================================================== *)
(** ** pkg/k8s/client.go: the query interface                             *)
(* ===================================================================== *)

Module k8s.

(** An [error] is represented by the text of its [Error()] method, which
    is all the mapper uses (through the [%v] verb). *)
Definition error := string.

(** The outcome of a client call, [(value, nil)] or [(nil, err)]. *)
Inductive result (A : Type) : Type :=
| Ok (a : A)
| Err (e : error).
Arguments Ok {A} a.
Arguments Err {A} e.

(** The dynamic values found in an [unstructured.Unstructured]: the
    [interface{}] contents of decoded JSON, which are nil, [bool],
    [int64], [float64], [string], [[]interface{}] and
    [map[string]interface{}]. *)
Inductive Value :=
| VNil
| VBool (b : bool)
| VInt64 (n : Z)
| VFloat64 (f : float)
| VString (s : string)
| VList (l : list Value)
| VMap (m : gmap string Value).

(** [Unstructured.Object], a [map[string]interface{}]. *)
Definition Unstructured := gmap string Value.

(** [unstructured.NestedFieldNoCopy]: follow [fields] through nested maps. *)
Fixpoint NestedFieldNoCopy (val : Value) (fields : list string) : option Value :=
  match fields with
  | [] => Some val
  | field :: rest =>
      match val with
      | VMap m =>
          match m !! field with
          | Some v => NestedFieldNoCopy v rest
          | None => None
          end
      | _ => None
      end
  end.

(** [unstructured.NestedString]; the empty string when the field is
    missing or not a string, as [GetName] and [GetNamespace] use it. *)
Definition getNestedString (obj : Unstructured) (fields : list string) : string :=
  match NestedFieldNoCopy (VMap obj) fields with
  | Some (VString s) => s
  | _ => ""
  end.

Definition GetName (obj : Unstructured) : string :=
  getNestedString obj ["metadata"; "name"].

Definition GetNamespace (obj : Unstructured) : string :=
  getNestedString obj ["metadata"; "namespace"].

(** [unstructured.NestedMap]: [None] stands for the nil map returned when
    the field is missing or is not a map. *)
Definition NestedMap (obj : Unstructured) (fields : list string)
  : option (gmap string Value) :=
  match NestedFieldNoCopy (VMap obj) fields with
  | Some (VMap m) => Some m
  | _ => None
  end.

(** *** Typed API objects (the fields the mapper reads) *)

Module OwnerReference.
Record t := mk {
  Kind : string;
  Name : string;
  UID : string
}.
End OwnerReference.

Module ObjectMeta.
Record t := mk {
  Name : string;
  Namespace : string;
  Labels : gmap string string;
  CreationTimestamp : gostd.Time;
  OwnerReferences : list OwnerReference.t
}.
End ObjectMeta.

Module StatefulSet.
(** [Spec.Replicas] is a [*int32] which the API server always fills in
    (it defaults to 1); objects are modelled after that defaulting, so
    the field holds the number the mapper reads through the pointer. *)
Record t := mk {
  Meta : ObjectMeta.t;
  Spec_Replicas : Z;
  Status_ReadyReplicas : Z
}.
End StatefulSet.

Module DaemonSet.
Record t := mk {
  Meta : ObjectMeta.t;
  Status_NumberReady : Z;
  Status_DesiredNumberScheduled : Z
}.
End DaemonSet.

Module Pod.
Record t := mk {
  Meta : ObjectMeta.t;
  Status_Phase : string
}.
End Pod.

Module PersistentVolumeClaim.
Record t := mk {
  Meta : ObjectMeta.t;
  Spec_VolumeName : string;
  Status_Phase : string
}.
End PersistentVolumeClaim.

Module PersistentVolume.
Record t := mk {
  Meta : ObjectMeta.t;
  Status_Phase : string
}.
End PersistentVolume.

Module ConfigMap.
Record t := mk {
  Meta : ObjectMeta.t;
  Data : gmap string string
}.
End ConfigMap.

Module Secret.
Record t := mk {
  Meta : ObjectMeta.t;
  Type_ : string;
  Data : gmap string string
}.
End Secret.

(** *** Fluid resources and the real client *)

Module GroupVersionResource.
Record t := mk {
  Group : string;
  Version : string;
  Resource : string
}.
End GroupVersionResource.

Definition FluidAPIGroup := "data.fluid.io".
Definition FluidAPIVersion := "v1alpha1".

Definition FluidGVR (resource : string) : GroupVersionResource.t :=
  GroupVersionResource.mk FluidAPIGroup FluidAPIVersion resource.

Definition DatasetGVR := FluidGVR "datasets".
Definition AlluxioRuntimeGVR := FluidGVR "alluxioruntimes".
Definition JindoRuntimeGVR := FluidGVR "jindoruntimes".
Definition JuiceFSRuntimeGVR := FluidGVR "juicefsruntimes".
Definition GooseFSRuntimeGVR := FluidGVR "goosefsruntimes".
Definition VineyardRuntimeGVR := FluidGVR "vineyardruntimes".
Definition EFCRuntimeGVR := FluidGVR "efcruntimes".
Definition ThinRuntimeGVR := FluidGVR "thinruntimes".

(** [RuntimeTypeToGVR]: the map from runtime type strings to their
    resources; [None] when the key is absent. *)
Definition RuntimeTypeToGVR : gmap string GroupVersionResource.t :=
  <[ "alluxio" := AlluxioRuntimeGVR ]>
  (<[ "jindo" := JindoRuntimeGVR ]>
  (<[ "juicefs" := JuiceFSRuntimeGVR ]>
  (<[ "goosefs" := GooseFSRuntimeGVR ]>
  (<[ "vineyard" := VineyardRuntimeGVR ]>
  (<[ "efc" := EFCRuntimeGVR ]>
    {[ "thin" := ThinRuntimeGVR ]}))))).

(** [RealClient.GetRuntime]. The dynamic client of client-go is outside
    the repository: [dynamicGet gvr namespace name] stands for
    [dynamicClient.Resource(gvr).Namespace(namespace).Get(ctx, name, ...)]. *)
Definition RealClient_GetRuntime
  (dynamicGet : GroupVersionResource.t -> string -> string -> result Unstructured)
  (runtimeType name namespace : string) : result Unstructured :=
  match RuntimeTypeToGVR !! runtimeType with
  | None => Err ("unknown runtime type: " ++ runtimeType)
  | Some gvr => dynamicGet gvr namespace name
  end.

(** The requests a mapper run sends to its client. *)
Module Call.
Inductive t :=
| GetClusterName
| GetDataset (name namespace : string)
| GetRuntime (runtimeType name namespace : string)
| ListStatefulSets (namespace labelSelector : string)
| ListDaemonSets (namespace labelSelector : string)
| ListPods (namespace labelSelector : string)
| ListPVCs (namespace labelSelector : string)
| GetPV (name : string)
| ListConfigMaps (namespace labelSelector : string)
| ListSecrets (namespace labelSelector : string).
End Call.

(** *** [type Client interface]

    A method may answer differently from one call to the next: its first
    argument is the sequence of requests the client has received so far,
    which stands for the state of the client and of the cluster behind it.
    The context argument carries no data and is omitted; [ListDatasets]
    and [ListPVs] are never called by the mapper. *)
Module Client.
Record t := mk {
  GetDataset : list Call.t -> string -> string -> result Unstructured;
  GetRuntime : list Call.t -> string -> string -> string -> result Unstructured;
  ListStatefulSets : list Call.t -> string -> string -> result (list StatefulSet.t);
  ListDaemonSets : list Call.t -> string -> string -> result (list DaemonSet.t);
  ListPods : list Call.t -> string -> string -> result (list Pod.t);
  ListPVCs : list Call.t -> string -> string -> result (list PersistentVolumeClaim.t);
  GetPV : list Call.t -> string -> result PersistentVolume.t;
  ListConfigMaps : list Call.t -> string -> string -> result (list ConfigMap.t);
  ListSecrets : list Call.t -> string -> string -> result (list Secret.t);
  GetClusterName : list Call.t -> string
}.
End Client.

End k8s.

(* ===================================================================== *)
(** ** pkg/mapper                                                         *)
(* ===================================================================== *)

Module mapper.
Import types k8s.

(** *** dataset.go *)

(** [getStringField]: the field when it is a string, else the empty
    string. *)
Definition getStringField (m : gmap string Value) (key : string) : string :=
  match m !! key with
  | Some (VString v) => v
  | _ => ""
  end.

(** The loop over [status["conditions"]]: entries that are not maps are
    skipped. *)
Fixpoint parseConditions (conditions : list Value) : list ConditionBrief.t :=
  match conditions with
  | [] => []
  | VMap cond :: rest =>
      ConditionBrief.mk
        (getStringField cond "type")
        (getStringField cond "status")
        (getStringField cond "reason")
        (getStringField cond "message")
        (getStringField cond "lastTransitionTime")
      :: parseConditions rest
  | _ :: rest => parseConditions rest
  end.

(** The loop over [spec["mounts"]]. *)
Fixpoint parseMounts (mounts : list Value) : list string :=
  match mounts with
  | [] => []
  | VMap mount :: rest =>
      match mount !! "mountPoint" with
      | Some (VString mp) => mp :: parseMounts rest
      | _ => parseMounts rest
      end
  | _ :: rest => parseMounts rest
  end.

(** [parseDataset]; its error result is always nil, so only the node is
    returned. Fields that are not assigned keep their zero value. *)
Definition parseDataset (obj : Unstructured) : DatasetNode.t :=
  let status := NestedMap obj ["status"] in
  let spec := NestedMap obj ["spec"] in
  let str (m : option (gmap string Value)) (key : string) :=
    match m with Some m => getStringField m key | None => "" end in
  let cacheStates :=
    match status with
    | Some status =>
        match status !! "cacheStates" with
        | Some (VMap cs) => Some cs
        | _ => None
        end
    | None => None
    end in
  DatasetNode.mk
    (GetName obj)
    (GetNamespace obj)
    (str status "phase")
    (str status "ufsTotal")
    (str cacheStates "cached")
    (str cacheStates "cachedPercentage")
    (match status with
     | Some status =>
         match status !! "conditions" with
         | Some (VList conditions) => parseConditions conditions
         | _ => []
         end
     | None => []
     end)
    (match spec with
     | Some spec =>
         match spec !! "mounts" with
         | Some (VList mounts) => parseMounts mounts
         | _ => []
         end
     | None => []
     end).

(** [getRuntimeTypeFromDataset]: type, name and namespace of the first
    entry of [status.runtimes]; three empty strings when there is none.
    Its error result is always nil. *)
Definition getRuntimeTypeFromDataset (obj : Unstructured) : string * string * string :=
  match NestedMap obj ["status"] with
  | None => ("", "", "")
  | Some status =>
      match status !! "runtimes" with
      | Some (VList (VMap runtime :: _)) =>
          (getStringField runtime "type",
           getStringField runtime "name",
           getStringField runtime "namespace")
      | _ => ("", "", "")
      end
  end.

(** *** runtime.go *)

Definition getInt64Field (m : gmap string Value) (key : string) : Z :=
  match m !! key with
  | Some (VInt64 v) => v
  | Some (VFloat64 v) => gostd.int64_of_float v
  | _ => 0
  end.

(** ["%d/%d"] when the desired count is positive. *)
Definition readyString (current desired : Z) : string :=
  if 0 <? desired then gostd.fmt_d current ++ "/" ++ gostd.fmt_d desired
  else "".

(** [parseRuntime]; its error result is always nil. *)
Definition parseRuntime (obj : Unstructured) (runtimeType : RuntimeType) : RuntimeNode.t :=
  match NestedMap obj ["status"] with
  | None =>
      RuntimeNode.mk (GetName obj) (GetNamespace obj) runtimeType
        "" "" "" "" "" "" []
  | Some status =>
      RuntimeNode.mk (GetName obj) (GetNamespace obj) runtimeType
        (getStringField status "masterPhase")
        (getStringField status "workerPhase")
        (getStringField status "fusePhase")
        (readyString (getInt64Field status "currentMasterNumberScheduled")
                     (getInt64Field status "desiredMasterNumberScheduled"))
        (readyString (getInt64Field status "currentWorkerNumberScheduled")
                     (getInt64Field status "desiredWorkerNumberScheduled"))
        (readyString (getInt64Field status "currentFuseNumberScheduled")
                     (getInt64Field status "desiredFuseNumberScheduled"))
        (match status !! "conditions" with
         | Some (VList conditions) => parseConditions conditions
         | _ => []
         end)
  end.

Record RuntimeComponents := mkRuntimeComponents {
  HasMaster : bool;
  HasWorker : bool;
  HasFuse : bool
}.

(** [GetRuntimeComponents]: the switch over the runtime type. *)
Definition GetRuntimeComponents (runtimeType : RuntimeType) : RuntimeComponents :=
  if String.eqb runtimeType RuntimeTypeAlluxio
     || String.eqb runtimeType RuntimeTypeJindo
     || String.eqb runtimeType RuntimeTypeGooseFS
     || String.eqb runtimeType RuntimeTypeVineyard
     || String.eqb runtimeType RuntimeTypeEFC
  then mkRuntimeComponents true true true
  else if String.eqb runtimeType RuntimeTypeJuiceFS
  then mkRuntimeComponents false true true
  else if String.eqb runtimeType RuntimeTypeThin
  then mkRuntimeComponents false false true
  else mkRuntimeComponents true true true.

(** *** resources.go *)

Module LabelSelectors.
Definition Release (name : string) : string := "release=" ++ name.
Definition RuntimeType (runtimeType : string) : string := "app=" ++ runtimeType.
Definition Role (role : string) : string := "role=" ++ role.
End LabelSelectors.

Module FluidLabels.
Definition Release := "release".
Definition App := "app".
Definition Role := "role".
Definition Component := "component".
End FluidLabels.

Module NamingConventions.
Definition MasterStatefulSet (name : string) : string := name ++ "-master".
Definition WorkerStatefulSet (name : string) : string := name ++ "-worker".
Definition FuseDaemonSet (name : string) : string := name ++ "-fuse".
(** [name + "-master-" + string(rune('0'+ordinal))]; ['0'] is 48. *)
Definition MasterPod (name : string) (ordinal : Z) : string :=
  name ++ "-master-" ++ gostd.string_of_rune (gostd.rune_of_int (48 + ordinal)).
Definition WorkerPod (name : string) (ordinal : Z) : string :=
  name ++ "-worker-" ++ gostd.string_of_rune (gostd.rune_of_int (48 + ordinal)).
Definition PVC (name : string) : string := name.
Definition MasterConfig (name : string) : string := name ++ "-master-config".
Definition WorkerConfig (name : string) : string := name ++ "-worker-config".
Definition FuseConfig (name : string) : string := name ++ "-fuse-config".
End NamingConventions.

Module ResourceKinds.
Definition StatefulSet := "StatefulSet".
Definition DaemonSet := "DaemonSet".
Definition Pod := "Pod".
Definition PersistentVolumeClaim := "PersistentVolumeClaim".
Definition PersistentVolume := "PersistentVolume".
Definition ConfigMap := "ConfigMap".
Definition Secret := "Secret".
Definition Service := "Service".
End ResourceKinds.

(** [ComponentRoles]: the role-label values expected for the master,
    worker and fuse components; other keys are absent from the map. *)
Definition ComponentRoles (c : ComponentType) : list string :=
  if String.eqb c ComponentMaster then
    ["alluxio-master"; "jindo-master"; "juicefs-master"; "goosefs-master";
     "vineyard-master"; "efc-master"]
  else if String.eqb c ComponentWorker then
    ["alluxio-worker"; "jindo-worker"; "juicefs-worker"; "goosefs-worker";
     "vineyard-worker"; "efc-worker"]
  else if String.eqb c ComponentFuse then
    ["alluxio-fuse"; "jindo-fuse"; "juicefs-fuse"; "goosefs-fuse";
     "vineyard-fuse"; "efc-fuse"]
  else [].

(** *** mapper.go: helper functions *)

Definition MapperVersion := "1.0.0".

Record Options := mkOptions {
  IncludePods : bool;
  IncludeConfigs : bool;
  IncludeStorage : bool
}.

Definition DefaultOptions : Options := mkOptions true true true.

(** The loop of [findSubstring] runs for [i = 0 .. len(s)-len(substr)],
    that is [len(s)-len(substr)+1] times, and not at all when that
    bound is negative; [n] counts the iterations left. *)
Fixpoint findSubstring_from (s substr : string) (i n : nat) : bool :=
  match n with
  | O => false
  | S n' =>
      if String.eqb (gostd.slice s i (i + gostd.len substr)) substr then true
      else findSubstring_from s substr (S i) n'
  end.

Definition findSubstring (s substr : string) : bool :=
  findSubstring_from s substr 0
    (Z.to_nat (Z.of_nat (gostd.len s) - Z.of_nat (gostd.len substr) + 1)).

Definition contains (s substr : string) : bool :=
  (gostd.len substr <=? gostd.len s)%nat
  && (String.eqb s substr
      || ((gostd.len substr <? gostd.len s)%nat
          && String.eqb (gostd.slice s (gostd.len s - gostd.len substr) (gostd.len s)) substr)
      || String.eqb (gostd.slice s 0 (gostd.len substr)) substr
      || findSubstring s substr).

(** The component returned by the default arm of [determineComponent],
    [types.ComponentType("")]. *)
Definition ComponentUnknown : ComponentType := "".

Definition determineComponent (labels : gmap string string) : ComponentType :=
  let role := default "" (labels !! "role") in
  if contains role "master" then ComponentMaster
  else if contains role "worker" then ComponentWorker
  else if contains role "fuse" then ComponentFuse
  else ComponentUnknown.

(** [filterLabels] keeps the four relevant keys. *)
Definition filterLabels (labels : gmap string string) : gmap string string :=
  filter (fun kv : string * string =>
            kv.1 = "release" \/ kv.1 = "app" \/ kv.1 = "role" \/ kv.1 = "component")
         labels.

(** The switch of [formatAge] over the duration [d = time.Since(t)]. *)
Definition formatAge_switch (d : gostd.Duration) : string :=
  if d <? gostd.Minute then
    gostd.fmt_d (gostd.int64_of_float (gostd.Seconds d)) ++ "s"
  else if d <? gostd.Hour then
    gostd.fmt_d (gostd.int64_of_float (gostd.Minutes d)) ++ "m"
  else if d <? 24 * gostd.Hour then
    gostd.fmt_d (gostd.int64_of_float (gostd.Hours d)) ++ "h"
  else
    gostd.fmt_d (gostd.int64_of_float
                   (PrimFloat.div (gostd.Hours d) (gostd.float64_of_int 24))) ++ "d".

(** *** Effects of a mapper run

    A run reads the wall clock and queries its client. The state threaded
    through a run counts the clock readings taken so far and records the
    requests sent to the client. *)

Record World := mkWorld {
  ticks : nat;
  calls : list Call.t
}.

Definition World0 : World := mkWorld 0 [].

Definition M (A : Type) : Type := World -> A * World.

Definition ret {A : Type} (a : A) : M A := fun w => (a, w).

Definition bind {A B : Type} (m : M A) (k : A -> M B) : M B :=
  fun w => let (a, w') := m w in k a w'.

Notation "'let*' x := m 'in' k" := (bind m (fun x => k))
  (at level 10, x name, m at level 100, k at level 200).
Notation "'let*' ' pat := m 'in' k" := (bind m (fun x => match x with pat => k end))
  (at level 10, pat pattern, m at level 100, k at level 200).

(** A [for _, x := range items] loop whose body updates the variable
    [acc]. *)
Fixpoint rangeM {A S : Type} (body : S -> A -> M S) (acc : S) (items : list A) : M S :=
  match items with
  | [] => ret acc
  | x :: rest => let* acc' := body acc x in rangeM body acc' rest
  end.

(** The pure loop of [discoverPodsForWorkload] over the owner references,
    which stops at the first reference named [workloadName]. *)
Fixpoint ownerNamed (refs : list OwnerReference.t) (workloadName : string) : bool :=
  match refs with
  | [] => false
  | ref :: rest =>
      if String.eqb (OwnerReference.Name ref) workloadName then true
      else ownerNamed rest workloadName
  end.

(** [node.Owner], set from the first owner reference when there is one. *)
Definition ownerInfo (refs : list OwnerReference.t) : option OwnerInfo.t :=
  match refs with
  | ref :: _ =>
      Some (OwnerInfo.mk (OwnerReference.Kind ref) (OwnerReference.Name ref)
              (OwnerReference.UID ref))
  | [] => None
  end.

(** [append(warnings, w)] and [append(resources, node)]. *)
Definition append {A : Type} (l : list A) (x : A) : list A := (l ++ [x])%list.

(** [p != nil] for a pointer [p]. *)
Definition notNil {A : Type} (p : option A) : bool :=
  match p with
  | Some _ => true
  | None => false
  end.

(** The last loop of [detectWarnings], over the top-level resources. *)
Fixpoint detectWarnings_unhealthy (warnings : list MappingWarning.t)
  (rs : list K8sResourceNode.t) : list MappingWarning.t :=
  match rs with
  | [] => warnings
  | res :: rest =>
      let phase := ResourceStatus.Phase (K8sResourceNode.Status res) in
      if String.eqb phase PhaseNotReady || String.eqb phase PhaseFailed then
        detectWarnings_unhealthy
          (append warnings
             (MappingWarning.mk WarningLevelWarning WarningCodes.PodsNotReady
                (K8sResourceNode.Kind res ++ " " ++ K8sResourceNode.Name res
                 ++ " is not ready ("
                 ++ ResourceStatus.Ready (K8sResourceNode.Status res) ++ ")")
                (K8sResourceNode.Name res) ""))
          rest
      else detectWarnings_unhealthy warnings rest
  end.

(** [detectWarnings]; [runtime] is the pointer, [None] when nil. *)
Definition detectWarnings (graph : ResourceGraph.t) (runtime : option RuntimeNode.t)
  : list MappingWarning.t :=
  let warnings : list MappingWarning.t := [] in
  let masters := GetResourcesByComponent graph ComponentMaster in
  let warnings :=
    if (length masters =? 0)%nat && notNil runtime then
      append warnings
        (MappingWarning.mk WarningLevelError WarningCodes.MasterMissing
           "No Master StatefulSet found" ""
           "Check if the runtime controller is running correctly")
    else warnings in
  let workers := GetResourcesByComponent graph ComponentWorker in
  let warnings :=
    if (length workers =? 0)%nat && notNil runtime then
      append warnings
        (MappingWarning.mk WarningLevelError WarningCodes.WorkerMissing
           "No Worker StatefulSet found" ""
           "Check if the runtime controller is running correctly")
    else warnings in
  let fuseResources := GetResourcesByComponent graph ComponentFuse in
  let warnings :=
    if (length fuseResources =? 0)%nat && notNil runtime then
      append warnings
        (MappingWarning.mk WarningLevelWarning WarningCodes.FuseMissing
           "No Fuse DaemonSet found" ""
           "Fuse pods are created on-demand when data is accessed")
    else warnings in
  detectWarnings_unhealthy warnings (ResourceGraph.Resources graph).

Section Mapper.

(** [type Mapper struct { client k8s.Client }], and the clock of the
    process: [clock k] is the instant returned by the [k]-th reading
    (counted from 0) of [time.Now()]. *)
Variable client : Client.t.
Variable clock : nat -> gostd.Time.

(** [time.Now()] *)
Definition Now : M gostd.Time :=
  fun w => (clock (ticks w), mkWorld (S (ticks w)) (calls w)).

(** [time.Since(t)] is [time.Now().Sub(t)]. *)
Definition Since (t : gostd.Time) : M gostd.Duration :=
  let* now := Now in ret (gostd.Sub now t).

(** A request to the client: it is answered, given the requests received
    before it, and recorded. *)
Definition request {A : Type} (c : Call.t) (answer : list Call.t -> A) : M A :=
  fun w => (answer (calls w), mkWorld (ticks w) (append (calls w) c)).

Definition formatAge (t : gostd.Time) : M string :=
  let* d := Since t in ret (formatAge_switch d).

(** [resolveDataset] *)
Definition resolveDataset (name namespace : string) : M (result DatasetNode.t) :=
  let* r := request (Call.GetDataset name namespace)
              (fun h => Client.GetDataset client h name namespace) in
  match r with
  | Err err => ret (Err err)
  | Ok obj => ret (Ok (parseDataset obj))
  end.

(** [resolveRuntime] *)
Definition resolveRuntime (dataset : DatasetNode.t) : M (result RuntimeNode.t) :=
  if negb (String.eqb (DatasetNode.Phase dataset) "Bound") then
    ret (Err ("dataset is not bound (phase: " ++ DatasetNode.Phase dataset ++ ")"))
  else
    let runtimeType := "alluxio" in
    let* r := request
                (Call.GetRuntime runtimeType (DatasetNode.Name dataset)
                   (DatasetNode.Namespace dataset))
                (fun h => Client.GetRuntime client h runtimeType (DatasetNode.Name dataset)
                   (DatasetNode.Namespace dataset)) in
    match r with
    | Err err => ret (Err err)
    | Ok obj => ret (Ok (parseRuntime obj runtimeType))
    end.

(** The body of the loop of [discoverPodsForWorkload]. *)
Definition podNode (workloadName : string) (resources : list K8sResourceNode.t)
  (pod : Pod.t) : M (list K8sResourceNode.t) :=
  let meta := Pod.Meta pod in
  let isOwned := ownerNamed (ObjectMeta.OwnerReferences meta) workloadName in
  let isOwned :=
    if negb isOwned
       && (gostd.len workloadName <? gostd.len (ObjectMeta.Name meta))%nat
       && String.eqb (gostd.slice (ObjectMeta.Name meta) 0 (gostd.len workloadName))
            workloadName
    then true else isOwned in
  if negb isOwned then ret resources
  else
    let phase :=
      if negb (String.eqb (Pod.Status_Phase pod) "Running")
      then Pod.Status_Phase pod else PhaseReady in
    let* age := formatAge (ObjectMeta.CreationTimestamp meta) in
    let node :=
      K8sResourceNode.mk "Pod" "v1"
        (ObjectMeta.Name meta) (ObjectMeta.Namespace meta)
        (determineComponent (ObjectMeta.Labels meta))
        (ResourceStatus.mk phase "" (Pod.Status_Phase pod) age)
        None
        (filterLabels (ObjectMeta.Labels meta))
        ∅ [] in
    ret (append resources node).

(** [discoverPodsForWorkload] *)
Definition discoverPodsForWorkload (namespace workloadName : string)
  : M (list K8sResourceNode.t * list MappingWarning.t) :=
  let resources : list K8sResourceNode.t := [] in
  let warnings : list MappingWarning.t := [] in
  let* r := request (Call.ListPods namespace "")
              (fun h => Client.ListPods client h namespace "") in
  match r with
  | Err _ => ret (resources, warnings)
  | Ok items =>
      let* resources := rangeM (podNode workloadName) resources items in
      ret (resources, warnings)
  end.

(** The body of the loop of [discoverStatefulSets]. *)
Definition statefulSetNode (namespace : string) (opts : Options)
  (resources : list K8sResourceNode.t) (sts : StatefulSet.t)
  : M (list K8sResourceNode.t) :=
  let meta := StatefulSet.Meta sts in
  let component := determineComponent (ObjectMeta.Labels meta) in
  let phase :=
    if StatefulSet.Status_ReadyReplicas sts <? StatefulSet.Spec_Replicas sts
    then PhaseNotReady else PhaseReady in
  let* age := formatAge (ObjectMeta.CreationTimestamp meta) in
  let owner := ownerInfo (ObjectMeta.OwnerReferences meta) in
  let* children :=
    (if IncludePods opts then
       let* ' (pods, _) := discoverPodsForWorkload namespace (ObjectMeta.Name meta) in
       ret pods
     else ret []) in
  let node :=
    K8sResourceNode.mk "StatefulSet" "apps/v1"
      (ObjectMeta.Name meta) (ObjectMeta.Namespace meta)
      component
      (ResourceStatus.mk phase
         (gostd.fmt_d (StatefulSet.Status_ReadyReplicas sts) ++ "/"
          ++ gostd.fmt_d (StatefulSet.Spec_Replicas sts))
         "" age)
      owner
      (filterLabels (ObjectMeta.Labels meta))
      ∅ children in
  ret (append resources node).

(** [discoverStatefulSets] *)
Definition discoverStatefulSets (namespace labelSelector : string) (opts : Options)
  : M (list K8sResourceNode.t * list MappingWarning.t) :=
  let resources : list K8sResourceNode.t := [] in
  let warnings : list MappingWarning.t := [] in
  let* r := request (Call.ListStatefulSets namespace labelSelector)
              (fun h => Client.ListStatefulSets client h namespace labelSelector) in
  match r with
  | Err err =>
      let warnings :=
        append warnings
          (MappingWarning.mk WarningLevelWarning "STS_LIST_FAILED"
             ("Failed to list StatefulSets: " ++ err) "" "") in
      ret (resources, warnings)
  | Ok items =>
      let* resources := rangeM (statefulSetNode namespace opts) resources items in
      ret (resources, warnings)
  end.

(** The body of the loop of [discoverDaemonSets]. *)
Definition daemonSetNode (resources : list K8sResourceNode.t) (ds : DaemonSet.t)
  : M (list K8sResourceNode.t) :=
  let meta := DaemonSet.Meta ds in
  let phase :=
    if DaemonSet.Status_NumberReady ds <? DaemonSet.Status_DesiredNumberScheduled ds
    then PhaseNotReady else PhaseReady in
  let* age := formatAge (ObjectMeta.CreationTimestamp meta) in
  let node :=
    K8sResourceNode.mk "DaemonSet" "apps/v1"
      (ObjectMeta.Name meta) (ObjectMeta.Namespace meta)
      ComponentFuse
      (ResourceStatus.mk phase
         (gostd.fmt_d (DaemonSet.Status_NumberReady ds) ++ "/"
          ++ gostd.fmt_d (DaemonSet.Status_DesiredNumberScheduled ds))
         "" age)
      (ownerInfo (ObjectMeta.OwnerReferences meta))
      (filterLabels (ObjectMeta.Labels meta))
      ∅ [] in
  ret (append resources node).

(** [discoverDaemonSets] *)
Definition discoverDaemonSets (namespace labelSelector : string) (opts : Options)
  : M (list K8sResourceNode.t * list MappingWarning.t) :=
  let resources : list K8sResourceNode.t := [] in
  let warnings : list MappingWarning.t := [] in
  let* r := request (Call.ListDaemonSets namespace labelSelector)
              (fun h => Client.ListDaemonSets client h namespace labelSelector) in
  match r with
  | Err err =>
      let warnings :=
        append warnings
          (MappingWarning.mk WarningLevelWarning "DS_LIST_FAILED"
             ("Failed to list DaemonSets: " ++ err) "" "") in
      ret (resources, warnings)
  | Ok items =>
      let* resources := rangeM daemonSetNode resources items in
      ret (resources, warnings)
  end.

(** The body of the loop of [discoverStorage]: the claim node, then the
    volume node when the claim names a volume and the volume is fetched
    without error. *)
Definition storageNodes (resources : list K8sResourceNode.t)
  (pvc : PersistentVolumeClaim.t) : M (list K8sResourceNode.t) :=
  let meta := PersistentVolumeClaim.Meta pvc in
  let phase :=
    if negb (String.eqb (PersistentVolumeClaim.Status_Phase pvc) "Bound")
    then PhaseNotBound else PhaseBound in
  let* age := formatAge (ObjectMeta.CreationTimestamp meta) in
  let node :=
    K8sResourceNode.mk "PersistentVolumeClaim" "v1"
      (ObjectMeta.Name meta) (ObjectMeta.Namespace meta)
      ComponentStorage
      (ResourceStatus.mk phase "" "" age)
      None ∅
      {[ "volumeName" := PersistentVolumeClaim.Spec_VolumeName pvc ]}
      [] in
  let resources := append resources node in
  if negb (String.eqb (PersistentVolumeClaim.Spec_VolumeName pvc) "") then
    let* r := request (Call.GetPV (PersistentVolumeClaim.Spec_VolumeName pvc))
                (fun h => Client.GetPV client h (PersistentVolumeClaim.Spec_VolumeName pvc)) in
    match r with
    | Ok pv =>
        let pvmeta := PersistentVolume.Meta pv in
        let* pvAge := formatAge (ObjectMeta.CreationTimestamp pvmeta) in
        let pvNode :=
          K8sResourceNode.mk "PersistentVolume" "v1"
            (ObjectMeta.Name pvmeta) ""
            ComponentStorage
            (ResourceStatus.mk (PersistentVolume.Status_Phase pv) "" "" pvAge)
            (Some (OwnerInfo.mk "PersistentVolumeClaim" (ObjectMeta.Name meta) ""))
            ∅ ∅ [] in
        ret (append resources pvNode)
    | Err _ => ret resources
    end
  else ret resources.

(** [discoverStorage] *)
Definition discoverStorage (namespace labelSelector : string)
  : M (list K8sResourceNode.t * list MappingWarning.t) :=
  let resources : list K8sResourceNode.t := [] in
  let warnings : list MappingWarning.t := [] in
  let* r := request (Call.ListPVCs namespace labelSelector)
              (fun h => Client.ListPVCs client h namespace labelSelector) in
  match r with
  | Err err =>
      let warnings :=
        append warnings
          (MappingWarning.mk WarningLevelWarning "PVC_LIST_FAILED"
             ("Failed to list PVCs: " ++ err) "" "") in
      ret (resources, warnings)
  | Ok items =>
      let* resources := rangeM storageNodes resources items in
      ret (resources, warnings)
  end.

(** The bodies of the two loops of [discoverConfigs]. *)
Definition configMapNode (resources : list K8sResourceNode.t) (cm : ConfigMap.t)
  : M (list K8sResourceNode.t) :=
  let meta := ConfigMap.Meta cm in
  let* age := formatAge (ObjectMeta.CreationTimestamp meta) in
  let node :=
    K8sResourceNode.mk "ConfigMap" "v1"
      (ObjectMeta.Name meta) (ObjectMeta.Namespace meta)
      ComponentConfig
      (ResourceStatus.mk PhaseReady "" "" age)
      None ∅
      {[ "keys" := gostd.fmt_d (Z.of_nat (size (ConfigMap.Data cm))) ]}
      [] in
  ret (append resources node).

Definition secretNode (resources : list K8sResourceNode.t) (secret : Secret.t)
  : M (list K8sResourceNode.t) :=
  let meta := Secret.Meta secret in
  let* age := formatAge (ObjectMeta.CreationTimestamp meta) in
  let node :=
    K8sResourceNode.mk "Secret" "v1"
      (ObjectMeta.Name meta) (ObjectMeta.Namespace meta)
      ComponentConfig
      (ResourceStatus.mk PhaseReady "" "" age)
      None ∅
      (<[ "type" := Secret.Type_ secret ]>
         {[ "keys" := gostd.fmt_d (Z.of_nat (size (Secret.Data secret))) ]})
      [] in
  ret (append resources node).

(** [discoverConfigs] *)
Definition discoverConfigs (namespace labelSelector : string)
  : M (list K8sResourceNode.t * list MappingWarning.t) :=
  let resources : list K8sResourceNode.t := [] in
  let warnings : list MappingWarning.t := [] in
  let* r := request (Call.ListConfigMaps namespace labelSelector)
              (fun h => Client.ListConfigMaps client h namespace labelSelector) in
  let* ' (resources, warnings) :=
    match r with
    | Err err =>
        ret (resources,
             append warnings
               (MappingWarning.mk WarningLevelWarning "CM_LIST_FAILED"
                  ("Failed to list ConfigMaps: " ++ err) "" ""))
    | Ok items =>
        let* resources := rangeM configMapNode resources items in
        ret (resources, warnings)
    end in
  let* r := request (Call.ListSecrets namespace labelSelector)
              (fun h => Client.ListSecrets client h namespace labelSelector) in
  match r with
  | Err err =>
      ret (resources,
           append warnings
             (MappingWarning.mk WarningLevelWarning "SECRET_LIST_FAILED"
                ("Failed to list Secrets: " ++ err) "" ""))
  | Ok items =>
      let* resources := rangeM secretNode resources items in
      ret (resources, warnings)
  end.

(** [discoverResources]; the [runtime] argument is not used by the body. *)
Definition discoverResources (name namespace : string) (runtime : option RuntimeNode.t)
  (opts : Options) : M (list K8sResourceNode.t * list MappingWarning.t) :=
  let resources : list K8sResourceNode.t := [] in
  let warnings : list MappingWarning.t := [] in
  let labelSelector := "release=" ++ name in
  let* ' (stsResources, stsWarnings) :=
    discoverStatefulSets namespace labelSelector opts in
  let resources := (resources ++ stsResources)%list in
  let warnings := (warnings ++ stsWarnings)%list in
  let* ' (dsResources, dsWarnings) :=
    discoverDaemonSets namespace labelSelector opts in
  let resources := (resources ++ dsResources)%list in
  let warnings := (warnings ++ dsWarnings)%list in
  let* ' (resources, warnings) :=
    (if IncludeStorage opts then
       let* ' (storageResources, storageWarnings) :=
         discoverStorage namespace labelSelector in
       ret ((resources ++ storageResources)%list, (warnings ++ storageWarnings)%list)
     else ret (resources, warnings)) in
  let* ' (resources, warnings) :=
    (if IncludeConfigs opts then
       let* ' (configResources, configWarnings) :=
         discoverConfigs namespace labelSelector in
       ret ((resources ++ configResources)%list, (warnings ++ configWarnings)%list)
     else ret (resources, warnings)) in
  ret (resources, warnings).

(** [MapFromDataset]: the graph and the returned error ([None] is nil). *)
Definition MapFromDataset (name namespace : string) (opts : Options)
  : M (ResourceGraph.t * option error) :=
  let* startTime := Now in
  let* clusterName := request Call.GetClusterName (Client.GetClusterName client) in
  let metadata (duration : gostd.Duration) :=
    GraphMetadata.mk startTime duration clusterName MapperVersion false in
  (* Step 1: fetch the Dataset *)
  let* r := resolveDataset name namespace in
  match r with
  | Err err =>
      let warnings :=
        append []
          (MappingWarning.mk WarningLevelError WarningCodes.DatasetNotFound
             ("Failed to get Dataset " ++ namespace ++ "/" ++ name ++ ": " ++ err)
             name "Verify the Dataset name and namespace are correct") in
      let* duration := Since startTime in
      ret (ResourceGraph.mk DatasetNode.zero None [] warnings (metadata duration), None)
  | Ok dataset =>
      (* Step 2: resolve the Runtime *)
      let* r := resolveRuntime dataset in
      let '(runtime, warnings) :=
        match r with
        | Err err =>
            (None,
             append []
               (MappingWarning.mk WarningLevelWarning WarningCodes.RuntimeNotBound
                  ("No Runtime bound to Dataset: " ++ err)
                  name "Create a Runtime CR with the same name as the Dataset"))
        | Ok runtime => (Some runtime, [])
        end in
      (* Step 3: discover Kubernetes resources *)
      let* ' (resources, discovered) :=
        discoverResources name namespace runtime opts in
      let warnings := (warnings ++ discovered)%list in
      (* Step 4: detect additional warnings *)
      let graph :=
        ResourceGraph.mk dataset runtime resources warnings (metadata 0) in
      let warnings := (warnings ++ detectWarnings graph runtime)%list in
      let* duration := Since startTime in
      ret (ResourceGraph.mk dataset runtime resources warnings (metadata duration), None)
  end.

End Mapper.

End mapper.

(* ===================================================================== *)
(** ** cmd/mapper-demo/main.go                                            *)
(* ===================================================================== *)

Module cli.

(** The loop of [reorderArgs] over [args[i:]], with the slices [flags]
    and [positional] built so far. A flag that holds no [=], is followed
    by an argument that is no flag, and is not one of the boolean flags,
    takes that argument as its value. *)
Fixpoint reorderArgs_loop (args flags positional : list string)
  : list string * list string :=
  match args with
  | [] => (flags, positional)
  | arg :: rest =>
      if gostd.HasPrefix arg "-" then
        let flags := mapper.append flags arg in
        match rest with
        | next :: rest' =>
            if negb (gostd.Contains arg "=") && negb (gostd.HasPrefix next "-") then
              let flagName := gostd.TrimLeft arg "-" in
              if negb (String.eqb flagName "mock") && negb (String.eqb flagName "pods")
                 && negb (String.eqb flagName "help")
                 && negb (String.eqb flagName "version")
              then reorderArgs_loop rest' (mapper.append flags next) positional
              else reorderArgs_loop rest flags positional
            else reorderArgs_loop rest flags positional
        | [] => reorderArgs_loop rest flags positional
        end
      else reorderArgs_loop rest flags (mapper.append positional arg)
  end.

(** [reorderArgs] *)
Definition reorderArgs (args : list string) : list string :=
  let '(flags, positional) := reorderArgs_loop args [] [] in
  (flags ++ positional)%list.

(** [truncate]; [None] is the run-time panic of the slice expression
    [s[:max-2]] when [max-2] is negative. *)
Definition truncate (s : string) (max : Z) : option string :=
  if Z.of_nat (gostd.len s) <=? max then Some s
  else if max - 2 <? 0 then None
  else Some (gostd.slice s 0 (Z.to_nat (max - 2)) ++ "..").

End cli.

Import types k8s mapper.

(* ===================================================================== *)
(** ** Vocabulary of the statements                                       *)
(* ===================================================================== *)

(** [sub] occurs in [s] as a contiguous run of bytes. *)
Definition Substring (sub s : string) : Prop :=
  exists pre post : string, s = pre ++ sub ++ post.

(** Some warning of the list carries the given code. *)
Definition hasCode (code : string) (ws : list MappingWarning.t) : bool :=
  existsb (fun w => String.eqb (MappingWarning.Code w) code) ws.

(** The role-label vocabulary: every entry of [ComponentRoles]. *)
Definition knownRoles : list string :=
  (ComponentRoles ComponentMaster ++ ComponentRoles ComponentWorker
   ++ ComponentRoles ComponentFuse)%list.

(** A node with the age of the node and of its children blanked, and a
    graph with the readings of the clock blanked: [MappedAt], [Duration]
    and every [Status.Age]. *)
Fixpoint eraseAge (n : K8sResourceNode.t) : K8sResourceNode.t :=
  let st := K8sResourceNode.Status n in
  K8sResourceNode.mk
    (K8sResourceNode.Kind n) (K8sResourceNode.APIVersion n)
    (K8sResourceNode.Name n) (K8sResourceNode.Namespace n)
    (K8sResourceNode.Component n)
    (ResourceStatus.mk (ResourceStatus.Phase st) (ResourceStatus.Ready st)
       (ResourceStatus.Message st) "")
    (K8sResourceNode.Owner n) (K8sResourceNode.Labels n)
    (K8sResourceNode.Details n)
    (List.map eraseAge (K8sResourceNode.Children n)).

Definition eraseClock (g : ResourceGraph.t) : ResourceGraph.t :=
  let md := ResourceGraph.Metadata g in
  ResourceGraph.mk
    (ResourceGraph.Dataset g) (ResourceGraph.Runtime g)
    (List.map eraseAge (ResourceGraph.Resources g))
    (ResourceGraph.Warnings g)
    (GraphMetadata.mk 0 0 (GraphMetadata.ClusterName md)
       (GraphMetadata.Version md) (GraphMetadata.MockMode md)).

(** Two computations agree up to [E] when, from every state, their
    results are related by [E] and they end in the same state. *)
Definition agree {A : Type} (E : A -> A -> Prop) (m1 m2 : M A) : Prop :=
  forall w : World, E (m1 w).1 (m2 w).1 /\ (m1 w).2 = (m2 w).2.

(** Lists of nodes, and results of a discovery step, that differ in ages
    only. *)
Definition sameNodes (l1 l2 : list K8sResourceNode.t) : Prop :=
  List.map eraseAge l1 = List.map eraseAge l2.

Definition sameDiscovery
  (r1 r2 : list K8sResourceNode.t * list MappingWarning.t) : Prop :=
  sameNodes r1.1 r2.1 /\ r1.2 = r2.2.

(* ===================================================================== *)
(** ** Sample clusters                                                    *)
(* ===================================================================== *)

Module sample.

(** A Dataset object with the given phase and [status.runtimes]. *)
Definition datasetObject (name namespace phase : string) (runtimes : list Value)
  : Unstructured :=
  <[ "metadata" := VMap (<[ "name" := VString name ]>
                           {[ "namespace" := VString namespace ]}) ]>
    {[ "status" := VMap (<[ "phase" := VString phase ]>
                           {[ "runtimes" := VList runtimes ]}) ]}.

Definition runtimeRef (name namespace type : string) : Value :=
  VMap (<[ "name" := VString name ]>
          (<[ "namespace" := VString namespace ]>
             {[ "type" := VString type ]})).

(** The Runtime object of a deployment with a master, two workers and
    three fuse instances, all ready; and the one of a JuiceFS deployment,
    which has no master. *)
Definition runtimeObject (name namespace : string) : Unstructured :=
  <[ "metadata" := VMap (<[ "name" := VString name ]>
                           {[ "namespace" := VString namespace ]}) ]>
    {[ "status" :=
         VMap (<[ "masterPhase" := VString "Ready" ]>
              (<[ "workerPhase" := VString "Ready" ]>
              (<[ "fusePhase" := VString "Ready" ]>
              (<[ "currentMasterNumberScheduled" := VInt64 1 ]>
              (<[ "desiredMasterNumberScheduled" := VInt64 1 ]>
              (<[ "currentWorkerNumberScheduled" := VInt64 2 ]>
              (<[ "desiredWorkerNumberScheduled" := VInt64 2 ]>
              (<[ "currentFuseNumberScheduled" := VInt64 3 ]>
                {[ "desiredFuseNumberScheduled" := VInt64 3 ]})))))))) ]}.

Definition juicefsRuntimeObject (name namespace : string) : Unstructured :=
  <[ "metadata" := VMap (<[ "name" := VString name ]>
                           {[ "namespace" := VString namespace ]}) ]>
    {[ "status" :=
         VMap (<[ "workerPhase" := VString "Ready" ]>
              (<[ "fusePhase" := VString "Ready" ]>
              (<[ "currentWorkerNumberScheduled" := VInt64 2 ]>
              (<[ "desiredWorkerNumberScheduled" := VInt64 2 ]>
              (<[ "currentFuseNumberScheduled" := VInt64 3 ]>
                {[ "desiredFuseNumberScheduled" := VInt64 3 ]}))))) ]}.

Definition labels (release role : string) : gmap string string :=
  <[ "release" := release ]> (<[ "app" := "fluid" ]> {[ "role" := role ]}).

Definition ownedBy (kind name : string) : list OwnerReference.t :=
  [OwnerReference.mk kind name "uid-1"].

Definition statefulSet (name role ownerKind : string) (replicas ready : Z)
  : StatefulSet.t :=
  StatefulSet.mk
    (ObjectMeta.mk name "default" (labels "demo" role) 0 (ownedBy ownerKind "demo"))
    replicas ready.

Definition daemonSet (name role ownerKind : string) (desired ready : Z)
  : DaemonSet.t :=
  DaemonSet.mk
    (ObjectMeta.mk name "default" (labels "demo" role) 0 (ownedBy ownerKind "demo"))
    ready desired.

Definition claim (name volume : string) : PersistentVolumeClaim.t :=
  PersistentVolumeClaim.mk
    (ObjectMeta.mk name "default" {[ "release" := "demo" ]} 0 [])
    volume "Bound".

(** No Dataset can be fetched. *)
Definition noDatasetCluster : Client.t :=
  Client.mk
    (fun _ _ _ => Err "dataset not found")
    (fun _ _ _ _ => Err "runtime not found")
    (fun _ _ _ => Ok []) (fun _ _ _ => Ok []) (fun _ _ _ => Ok []) (fun _ _ _ => Ok [])
    (fun _ _ => Err "volume not found")
    (fun _ _ _ => Ok []) (fun _ _ _ => Ok [])
    (fun _ => "sample-cluster").

(** A Dataset in phase NotBound and nothing else. *)
Definition notBoundCluster : Client.t :=
  Client.mk
    (fun _ name namespace => Ok (datasetObject name namespace "NotBound" []))
    (fun _ _ _ _ => Err "runtime not found")
    (fun _ _ _ => Ok []) (fun _ _ _ => Ok []) (fun _ _ _ => Ok []) (fun _ _ _ => Ok [])
    (fun _ _ => Err "volume not found")
    (fun _ _ _ => Ok []) (fun _ _ _ => Ok [])
    (fun _ => "sample-cluster").

(** A Dataset bound to a JuiceFS runtime: the Runtime object exists under
    the type [juicefs] only; there are a worker set and a fuse set, and no
    master. *)
Definition juicefsCluster : Client.t :=
  Client.mk
    (fun _ name namespace =>
       Ok (datasetObject name namespace "Bound" [runtimeRef name namespace "juicefs"]))
    (fun _ runtimeType name namespace =>
       if String.eqb runtimeType "juicefs" then Ok (juicefsRuntimeObject name namespace)
       else Err "runtime not found")
    (fun _ _ _ => Ok [statefulSet "demo-worker" "juicefs-worker" "JuiceFSRuntime" 2 2])
    (fun _ _ _ => Ok [daemonSet "demo-fuse" "juicefs-fuse" "JuiceFSRuntime" 3 3])
    (fun _ _ _ => Ok []) (fun _ _ _ => Ok [])
    (fun _ _ => Err "volume not found")
    (fun _ _ _ => Ok []) (fun _ _ _ => Ok [])
    (fun _ => "sample-cluster").

(** The snapshot [parseRuntime] makes of that Runtime object under the
    type juicefs, and a graph of the sample Dataset around a snapshot and
    a list of resources. *)
Definition juicefsRuntime : RuntimeNode.t :=
  parseRuntime (juicefsRuntimeObject "demo" "default") RuntimeTypeJuiceFS.

Definition graphOf (runtime : RuntimeNode.t) (resources : list K8sResourceNode.t)
  : ResourceGraph.t :=
  ResourceGraph.mk
    (parseDataset (datasetObject "demo" "default" "Bound" []))
    (Some runtime) resources []
    (GraphMetadata.mk 0 0 "sample-cluster" MapperVersion false).

(** An Alluxio deployment whose worker set carries the release label but is
    owned by a Deployment, not by a Runtime. *)
Definition orphanCluster : Client.t :=
  Client.mk
    (fun _ name namespace =>
       Ok (datasetObject name namespace "Bound" [runtimeRef name namespace "alluxio"]))
    (fun _ _ name namespace => Ok (runtimeObject name namespace))
    (fun _ _ _ => Ok [statefulSet "demo-master" "alluxio-master" "AlluxioRuntime" 1 1;
                    statefulSet "demo-worker" "alluxio-worker" "Deployment" 2 2])
    (fun _ _ _ => Ok [daemonSet "demo-fuse" "alluxio-fuse" "AlluxioRuntime" 3 3])
    (fun _ _ _ => Ok []) (fun _ _ _ => Ok [])
    (fun _ _ => Err "volume not found")
    (fun _ _ _ => Ok []) (fun _ _ _ => Ok [])
    (fun _ => "sample-cluster").

(** An Alluxio deployment seen with restricted permissions: pods cannot be
    listed and volumes cannot be fetched. *)
Definition restrictedCluster : Client.t :=
  Client.mk
    (fun _ name namespace =>
       Ok (datasetObject name namespace "Bound" [runtimeRef name namespace "alluxio"]))
    (fun _ _ name namespace => Ok (runtimeObject name namespace))
    (fun _ _ _ => Ok [statefulSet "demo-master" "alluxio-master" "AlluxioRuntime" 1 1;
                    statefulSet "demo-worker" "alluxio-worker" "AlluxioRuntime" 2 2])
    (fun _ _ _ => Ok [daemonSet "demo-fuse" "alluxio-fuse" "AlluxioRuntime" 3 3])
    (fun _ _ _ => Err "pods is forbidden")
    (fun _ _ _ => Ok [claim "demo" "demo-pv"])
    (fun _ _ => Err "persistentvolumes is forbidden")
    (fun _ _ _ => Ok []) (fun _ _ _ => Ok [])
    (fun _ => "sample-cluster").


(** An Alluxio deployment in the older layout, where the workers run as a
    DaemonSet: its role label is the worker entry of the vocabulary. The
    master set has its pod and a metrics pod without role label; there
    are a claim and a ConfigMap, which carry no role label either. *)
Definition legacyCluster : Client.t :=
  Client.mk
    (fun _ name namespace =>
       Ok (datasetObject name namespace "Bound" [runtimeRef name namespace "alluxio"]))
    (fun _ _ name namespace => Ok (runtimeObject name namespace))
    (fun _ _ _ => Ok [statefulSet "demo-master" "alluxio-master" "AlluxioRuntime" 1 1])
    (fun _ _ _ => Ok [daemonSet "demo-worker" "alluxio-worker" "AlluxioRuntime" 2 2;
                    daemonSet "demo-fuse" "alluxio-fuse" "AlluxioRuntime" 3 3])
    (fun _ _ _ =>
       Ok [Pod.mk (ObjectMeta.mk "demo-master-0" "default"
                     (labels "demo" "alluxio-master") 0 (ownedBy "StatefulSet" "demo-master"))
             "Running";
           Pod.mk (ObjectMeta.mk "demo-master-metrics" "default"
                     {[ "release" := "demo" ]} 0 [])
             "Running";
           Pod.mk (ObjectMeta.mk "demo-worker-x7k2p" "default"
                     (labels "demo" "alluxio-worker") 0 (ownedBy "DaemonSet" "demo-worker"))
             "Running"])
    (fun _ _ _ => Ok [claim "demo" ""])
    (fun _ _ => Err "volume not found")
    (fun _ _ _ =>
       Ok [ConfigMap.mk (ObjectMeta.mk "demo-config" "default" {[ "release" := "demo" ]} 0 [])
             {[ "alluxio-site.properties" := "" ]}])
    (fun _ _ _ => Ok [])
    (fun _ => "sample-cluster").

(** A clock that starts at [t0] and advances by one nanosecond per
    reading. *)
Definition clockFrom (t0 : gostd.Time) : nat -> gostd.Time :=
  fun k => t0 + Z.of_nat k.

Definition seconds (n : Z) : gostd.Time := n * gostd.Second.

(** A run of [MapFromDataset] on the Dataset default/demo with the default
    options, from the initial state. *)
Definition run (client : Client.t) (clock : nat -> gostd.Time)
  : ResourceGraph.t * option error * World :=
  MapFromDataset client clock "demo" "default" DefaultOptions World0.

End sample.

(* ===================================================================== *)
(** ** Vocabulary of the further statements                               *)
(* ===================================================================== *)

(** The label keys kept by [filterLabels]. *)
Definition relevantLabels : list string := ["release"; "app"; "role"; "component"].

(** What the Warning Detector reads of a node. *)
Definition brief (n : K8sResourceNode.t)
  : string * string * ComponentType * ResourcePhase * string :=
  (K8sResourceNode.Kind n, K8sResourceNode.Name n, K8sResourceNode.Component n,
   ResourceStatus.Phase (K8sResourceNode.Status n),
   ResourceStatus.Ready (K8sResourceNode.Status n)).

(** The four warnings of the Warning Detector, by code and level. *)
Definition detectedWarnings : list (string * WarningLevel) :=
  [(WarningCodes.MasterMissing, WarningLevelError);
   (WarningCodes.WorkerMissing, WarningLevelError);
   (WarningCodes.FuseMissing, WarningLevelWarning);
   (WarningCodes.PodsNotReady, WarningLevelWarning)].

(** Every result of the computation satisfies [Q]. *)
Definition post {A : Type} (Q : A -> Prop) (m : M A) : Prop :=
  forall w : World, Q (m w).1.

(** The computation only adds requests, each satisfying [P], to those
    already sent. *)
Definition emits {A : Type} (P : Call.t -> Prop) (m : M A) : Prop :=
  forall w : World,
    exists new, calls (m w).2 = (calls w ++ new)%list /\ Forall P new.

(** The shapes of the nodes of a graph: a pod node, a StatefulSet node
    with its pods, and a node of one of the other kinds, which has a fixed
    component and no children. *)
Definition podShape (n : K8sResourceNode.t) : Prop :=
  K8sResourceNode.Kind n = ResourceKinds.Pod /\
  K8sResourceNode.Owner n = None /\
  K8sResourceNode.Children n = [].

Definition statefulSetShape (opts : Options) (n : K8sResourceNode.t) : Prop :=
  K8sResourceNode.Kind n = ResourceKinds.StatefulSet /\
  Forall podShape (K8sResourceNode.Children n) /\
  (IncludePods opts = false -> K8sResourceNode.Children n = []).

Definition leafShape (kinds : list string) (component : ComponentType)
  (n : K8sResourceNode.t) : Prop :=
  In (K8sResourceNode.Kind n) kinds /\
  K8sResourceNode.Component n = component /\
  K8sResourceNode.Children n = [].

(** The warnings of discovery: level warning, with the code of a failed
    list request. *)
Definition listFailedCodes : list string :=
  ["STS_LIST_FAILED"; "DS_LIST_FAILED"; "PVC_LIST_FAILED"; "CM_LIST_FAILED";
   "SECRET_LIST_FAILED"].

Definition listFailedWarning (w : MappingWarning.t) : Prop :=
  MappingWarning.Level w = WarningLevelWarning /\
  In (MappingWarning.Code w) listFailedCodes.

(** The resources of a discovery, in its four segments. *)
Definition segmented (opts : Options) (resources : list K8sResourceNode.t) : Prop :=
  exists sts ds storage configs : list K8sResourceNode.t,
    resources = (sts ++ ds ++ storage ++ configs)%list /\
    Forall (statefulSetShape opts) sts /\
    Forall (leafShape [ResourceKinds.DaemonSet] ComponentFuse) ds /\
    Forall (leafShape [ResourceKinds.PersistentVolumeClaim;
                       ResourceKinds.PersistentVolume] ComponentStorage) storage /\
    Forall (leafShape [ResourceKinds.ConfigMap; ResourceKinds.Secret]
              ComponentConfig) configs /\
    (IncludeStorage opts = false -> storage = []) /\
    (IncludeConfigs opts = false -> configs = []).

(** The pairs of code and level that [MapFromDataset] can put in a graph. *)
Definition mappedWarnings : list (string * WarningLevel) :=
  ([(WarningCodes.DatasetNotFound, WarningLevelError);
    (WarningCodes.RuntimeNotBound, WarningLevelWarning)]
   ++ List.map (fun c => (c, WarningLevelWarning)) listFailedCodes
   ++ detectedWarnings)%list.

(** A top-level resource the last loop of the Warning Detector reports. *)
Definition unhealthy (n : K8sResourceNode.t) : bool :=
  let phase := ResourceStatus.Phase (K8sResourceNode.Status n) in
  String.eqb phase PhaseNotReady || String.eqb phase PhaseFailed.

(** The test of [discoverPodsForWorkload] that attaches a pod to a
    workload. *)
Definition attributed (workloadName : string) (pod : Pod.t) : bool :=
  let name := ObjectMeta.Name (Pod.Meta pod) in
  ownerNamed (ObjectMeta.OwnerReferences (Pod.Meta pod)) workloadName
  || ((gostd.len workloadName <? gostd.len name)%nat
      && String.eqb (gostd.slice name 0 (gostd.len workloadName)) workloadName).

(** What the test amounts to: an owner reference of the pod, of any kind,
    names the workload, or the name of the pod is the name of the
    workload followed by at least one byte. *)
Definition claimed (workloadName : string) (pod : Pod.t) : Prop :=
  (exists ref, In ref (ObjectMeta.OwnerReferences (Pod.Meta pod)) /\
               OwnerReference.Name ref = workloadName) \/
  (exists suffix, suffix <> "" /\
                  ObjectMeta.Name (Pod.Meta pod) = workloadName ++ suffix).

(** The requests of a run for the Dataset [name] of [namespace]: the
    lists are asked of that namespace with the selector of the release,
    pods with no selector, and each kind only when the options include
    it; the runtime is asked by the type alluxio. *)
Definition scoped (name namespace : string) (opts : Options) (c : Call.t) : Prop :=
  match c with
  | Call.GetClusterName => True
  | Call.GetDataset n ns => n = name /\ ns = namespace
  | Call.GetRuntime runtimeType _ _ => runtimeType = "alluxio"
  | Call.ListStatefulSets ns selector
  | Call.ListDaemonSets ns selector =>
      ns = namespace /\ selector = "release=" ++ name
  | Call.ListPods ns selector =>
      ns = namespace /\ selector = "" /\ IncludePods opts = true
  | Call.ListPVCs ns selector =>
      ns = namespace /\ selector = "release=" ++ name /\ IncludeStorage opts = true
  | Call.GetPV _ => IncludeStorage opts = true
  | Call.ListConfigMaps ns selector
  | Call.ListSecrets ns selector =>
      ns = namespace /\ selector = "release=" ++ name /\ IncludeConfigs opts = true
  end.

(** The first byte of a decimal numeral: a digit or the minus sign. *)
Definition decimalHead (c : ascii) : bool :=
  Ascii.eqb c "-" || ((48 <=? N_of_ascii c)%N && (N_of_ascii c <=? 57)%N).

(** The runtime types declared by package [types]. *)
Definition runtimeTypes : list RuntimeType :=
  [RuntimeTypeAlluxio; RuntimeTypeJindo; RuntimeTypeJuiceFS; RuntimeTypeGooseFS;
   RuntimeTypeVineyard; RuntimeTypeEFC; RuntimeTypeThin].

(** The phase of a top-level node of a run against [client], for the
    lists asked of [namespace] with [selector]. The node of a listed
    StatefulSet or DaemonSet shows the ready and the desired number of
    that object in its ready string, and is NotReady when the first is
    below the second and Ready otherwise; the node of a listed claim is
    NotBound unless the phase of the claim is Bound; the node of the
    volume of a listed claim has the phase of the volume as the client
    gave it; the node of a listed ConfigMap or Secret is Ready. *)
Definition phased (client : Client.t) (namespace selector : string)
  (n : K8sResourceNode.t) : Prop :=
  let status := K8sResourceNode.Status n in
  (exists h items sts,
      Client.ListStatefulSets client h namespace selector = Ok items /\
      In sts items /\
      K8sResourceNode.Kind n = "StatefulSet" /\
      K8sResourceNode.Name n = ObjectMeta.Name (StatefulSet.Meta sts) /\
      ResourceStatus.Ready status =
      gostd.fmt_d (StatefulSet.Status_ReadyReplicas sts) ++ "/"
      ++ gostd.fmt_d (StatefulSet.Spec_Replicas sts) /\
      ResourceStatus.Phase status =
      if StatefulSet.Status_ReadyReplicas sts <? StatefulSet.Spec_Replicas sts
      then PhaseNotReady else PhaseReady) \/
  (exists h items ds,
      Client.ListDaemonSets client h namespace selector = Ok items /\
      In ds items /\
      K8sResourceNode.Kind n = "DaemonSet" /\
      K8sResourceNode.Name n = ObjectMeta.Name (DaemonSet.Meta ds) /\
      ResourceStatus.Ready status =
      gostd.fmt_d (DaemonSet.Status_NumberReady ds) ++ "/"
      ++ gostd.fmt_d (DaemonSet.Status_DesiredNumberScheduled ds) /\
      ResourceStatus.Phase status =
      if DaemonSet.Status_NumberReady ds <? DaemonSet.Status_DesiredNumberScheduled ds
      then PhaseNotReady else PhaseReady) \/
  (exists h items pvc,
      Client.ListPVCs client h namespace selector = Ok items /\
      In pvc items /\
      K8sResourceNode.Kind n = "PersistentVolumeClaim" /\
      K8sResourceNode.Name n = ObjectMeta.Name (PersistentVolumeClaim.Meta pvc) /\
      ResourceStatus.Phase status =
      if String.eqb (PersistentVolumeClaim.Status_Phase pvc) "Bound"
      then PhaseBound else PhaseNotBound) \/
  (exists h items pvc h' pv,
      Client.ListPVCs client h namespace selector = Ok items /\
      In pvc items /\
      Client.GetPV client h' (PersistentVolumeClaim.Spec_VolumeName pvc) = Ok pv /\
      K8sResourceNode.Kind n = "PersistentVolume" /\
      K8sResourceNode.Name n = ObjectMeta.Name (PersistentVolume.Meta pv) /\
      ResourceStatus.Phase status = PersistentVolume.Status_Phase pv) \/
  (exists h items cm,
      Client.ListConfigMaps client h namespace selector = Ok items /\
      In cm items /\
      K8sResourceNode.Kind n = "ConfigMap" /\
      K8sResourceNode.Name n = ObjectMeta.Name (ConfigMap.Meta cm) /\
      ResourceStatus.Phase status = PhaseReady) \/
  (exists h items secret,
      Client.ListSecrets client h namespace selector = Ok items /\
      In secret items /\
      K8sResourceNode.Kind n = "Secret" /\
      K8sResourceNode.Name n = ObjectMeta.Name (Secret.Meta secret) /\
      ResourceStatus.Phase status = PhaseReady).

(** The computation adds exactly the requests [new] to those already
    sent, whatever the answers. *)
Definition traces {A : Type} (new : list Call.t) (m : M A) : Prop :=
  forall w : World, calls (m w).2 = (calls w ++ new)%list.

(* ===================================================================== *)
(** ** Graph health                                                       *)
(* ===================================================================== *)

Lemma IsHealthy_range_Forall (ws : list MappingWarning.t) :
  IsHealthy_range ws = true <->
  Forall (fun w => MappingWarning.Level w <> WarningLevelError) ws.
Proof.
  induction ws as [|w ws IH]; simpl.
  - split; [constructor | reflexivity].
  - destruct (String.eqb_spec (MappingWarning.Level w) WarningLevelError) as [E|E].
    + split; [discriminate|].
      intros H. inversion H; subst. contradiction.
    + rewrite IH. split.
      * intros H. constructor; assumption.
      * intros H. inversion H; assumption.
Qed.

(** C7. [IsHealthy] returns true exactly when no warning of the graph has
    level [error]. *)
Theorem IsHealthy_iff_no_error_warning (g : ResourceGraph.t) :
  IsHealthy g = true <->
  Forall (fun w => MappingWarning.Level w <> WarningLevelError)
         (ResourceGraph.Warnings g).
Proof. unfold IsHealthy. apply IsHealthy_range_Forall. Qed.

(* ===================================================================== *)
(** ** Substring search                                                   *)
(* ===================================================================== *)

Section Strings.

Local Open Scope nat_scope.

Lemma append_nil (s : string) : "" ++ s = s.
Proof. reflexivity. Qed.

Lemma append_cons (c : ascii) (s1 s2 : string) :
  String c s1 ++ s2 = String c (s1 ++ s2).
Proof. reflexivity. Qed.

Lemma length_append (s1 s2 : string) :
  String.length (s1 ++ s2) = String.length s1 + String.length s2.
Proof.
  induction s1 as [|c s1 IH]; [reflexivity|].
  rewrite append_cons. simpl. now rewrite IH.
Qed.

Lemma append_empty_r (s : string) : s ++ "" = s.
Proof.
  induction s as [|c s IH]; [reflexivity|].
  rewrite append_cons. now rewrite IH.
Qed.

(** A prefix read by [substring 0]. *)
Lemma substring_prefix (sub post : string) :
  String.substring 0 (String.length sub) (sub ++ post) = sub.
Proof.
  induction sub as [|c sub IH].
  - rewrite append_nil. destruct post; reflexivity.
  - rewrite append_cons. simpl. now rewrite IH.
Qed.

Lemma substring_skip (pre s : string) (m : nat) :
  String.substring (String.length pre) m (pre ++ s) = String.substring 0 m s.
Proof.
  induction pre as [|c pre IH]; [reflexivity|].
  rewrite append_cons. simpl. exact IH.
Qed.

Lemma substring_occurrence (pre sub post : string) :
  String.substring (String.length pre) (String.length sub) (pre ++ sub ++ post) = sub.
Proof. rewrite substring_skip. apply substring_prefix. Qed.

(** Conversely, a window of [s] that equals [sub] exhibits an occurrence. *)
Lemma substring_0_split (m : nat) : forall s sub : string,
  String.substring 0 m s = sub -> String.length sub = m ->
  exists post, s = sub ++ post.
Proof.
  induction m as [|m IH]; intros s sub Hs Hl.
  - destruct sub; [|discriminate]. exists s. reflexivity.
  - destruct s as [|c s]; simpl in Hs.
    + subst sub. discriminate.
    + destruct sub as [|c' sub]; [discriminate|].
      injection Hs as -> Hs. injection Hl as Hl.
      destruct (IH s sub Hs Hl) as [post ->].
      exists post. reflexivity.
Qed.

Lemma substring_split (n m : nat) : forall s sub : string,
  String.substring n m s = sub -> String.length sub = m -> Substring sub s.
Proof.
  induction n as [|n IH]; intros s sub Hs Hl.
  - destruct (substring_0_split m s sub Hs Hl) as [post ->].
    exists "", post. reflexivity.
  - destruct s as [|c s]; simpl in Hs.
    + subst sub. exists "", "". reflexivity.
    + destruct (IH s sub Hs Hl) as (pre & post & ->).
      exists (String c pre), post. reflexivity.
Qed.

(** The loop of [findSubstring] finds exactly the windows it visits. *)
Lemma findSubstring_from_true (s substr : string) (n : nat) : forall i,
  findSubstring_from s substr i n = true <->
  exists j, i <= j < i + n /\
            String.substring j (String.length substr) s = substr.
Proof.
  induction n as [|n IH]; intros i; simpl.
  - split; [discriminate | intros (j & Hj & _); lia].
  - unfold gostd.slice, gostd.len.
    replace (i + String.length substr - i) with (String.length substr) by lia.
    destruct (String.eqb_spec (String.substring i (String.length substr) s) substr)
      as [E|E].
    + split; [|reflexivity]. intros _. exists i. split; [lia | exact E].
    + rewrite IH. split.
      * intros (j & Hj & Hw). exists j. split; [lia | exact Hw].
      * intros (j & Hj & Hw). exists j. split; [|exact Hw].
        destruct (Nat.eq_dec j i) as [->|]; [contradiction | lia].
Qed.

Lemma findSubstring_complete (pre sub post : string) :
  findSubstring (pre ++ sub ++ post) sub = true.
Proof.
  unfold findSubstring. apply findSubstring_from_true.
  exists (String.length pre). split.
  - unfold gostd.len. rewrite !length_append. lia.
  - apply substring_occurrence.
Qed.

(** [contains] decides the occurrence of [substr] in [s]. *)
Lemma contains_Substring (s substr : string) :
  contains s substr = true <-> Substring substr s.
Proof.
  unfold contains, gostd.slice, gostd.len. split.
  - intros H. apply andb_true_iff in H as [Hlen H].
    apply Nat.leb_le in Hlen.
    repeat (apply orb_true_iff in H as [H|H]).
    + apply String.eqb_eq in H as ->. exists "", "".
      rewrite append_nil. now rewrite append_empty_r.
    + apply andb_true_iff in H as [Hlt H].
      apply Nat.ltb_lt in Hlt. apply String.eqb_eq in H.
      eapply substring_split; [exact H | lia].
    + apply String.eqb_eq in H.
      eapply substring_split; [exact H | lia].
    + unfold findSubstring in H. apply findSubstring_from_true in H as (j & _ & H).
      eapply substring_split; [exact H | reflexivity].
  - intros (pre & post & ->).
    apply andb_true_iff. split.
    + apply Nat.leb_le. rewrite !length_append. lia.
    + rewrite findSubstring_complete. apply orb_true_r.
Qed.

End Strings.

Lemma containsP (s substr : string) : reflect (Substring substr s) (contains s substr).
Proof.
  destruct (contains s substr) eqn:E; constructor.
  - now apply contains_Substring.
  - intros H. apply contains_Substring in H. congruence.
Qed.

(* ===================================================================== *)
(** ** Role classification                                                *)
(* ===================================================================== *)

(** Every entry of the role vocabulary is classified as the component it
    is listed under. *)
Lemma determineComponent_known_role (c : ComponentType) (r : string)
  (labels : gmap string string) :
  In r (ComponentRoles c) -> labels !! "role" = Some r ->
  determineComponent labels = c.
Proof.
  intros Hin Hrole. unfold determineComponent. rewrite Hrole. simpl.
  unfold ComponentRoles in Hin.
  destruct (String.eqb_spec c ComponentMaster) as [->|_].
  { simpl in Hin. intuition (subst; reflexivity). }
  destruct (String.eqb_spec c ComponentWorker) as [->|_].
  { simpl in Hin. intuition (subst; reflexivity). }
  destruct (String.eqb_spec c ComponentFuse) as [->|_].
  { simpl in Hin. intuition (subst; reflexivity). }
  destruct Hin.
Qed.

(** The classification is by occurrence of the words master, worker and
    fuse in the role label, tried in that order. *)
Lemma determineComponent_by_occurrence (labels : gmap string string) :
  let role := default "" (labels !! "role") in
  (Substring "master" role -> determineComponent labels = ComponentMaster) /\
  (~ Substring "master" role -> Substring "worker" role ->
   determineComponent labels = ComponentWorker) /\
  (~ Substring "master" role -> ~ Substring "worker" role ->
   Substring "fuse" role -> determineComponent labels = ComponentFuse) /\
  (~ Substring "master" role -> ~ Substring "worker" role ->
   ~ Substring "fuse" role -> determineComponent labels = ComponentUnknown).
Proof.
  intros role. unfold determineComponent. fold role.
  destruct (containsP role "master") as [Hm|Hm];
    [repeat split; intros; try reflexivity; contradiction|].
  destruct (containsP role "worker") as [Hw|Hw];
    [repeat split; intros; try reflexivity; contradiction|].
  destruct (containsP role "fuse") as [Hf|Hf];
    repeat split; intros; try reflexivity; contradiction.
Qed.

(** A loop whose body appends one node per item yields one node per item,
    in order. *)
Lemma rangeM_appends {A N B : Type} (body : list N -> A -> M (list N))
  (f : N -> B) (g : A -> B) :
  (forall acc x w, exists node,
      (body acc x w).1 = append acc node /\ f node = g x) ->
  forall items acc w, exists nodes,
      (rangeM body acc items w).1 = (acc ++ nodes)%list /\
      List.map f nodes = List.map g items.
Proof.
  intros Hbody items. induction items as [|x items IH]; intros acc w; simpl.
  - exists []. split; [now rewrite app_nil_r | reflexivity].
  - unfold bind. destruct (Hbody acc x w) as (node & Hacc & Hf).
    destruct (body acc x w) as [acc' w']. simpl in Hacc. subst acc'.
    destruct (IH (append acc node) w') as (nodes & Hr & Hm).
    exists (node :: nodes). split.
    + rewrite Hr. unfold append. now rewrite <- app_assoc.
    + simpl. now rewrite Hf, Hm.
Qed.

Section Discovery.

Variable client : Client.t.
Variable clock : nat -> gostd.Time.

Lemma statefulSetNode_appends namespace opts acc sts w :
  exists node,
    (statefulSetNode client clock namespace opts acc sts w).1 = append acc node /\
    (K8sResourceNode.Name node, K8sResourceNode.Component node) =
    (ObjectMeta.Name (StatefulSet.Meta sts),
     determineComponent (ObjectMeta.Labels (StatefulSet.Meta sts))).
Proof.
  unfold statefulSetNode, bind, formatAge, Since, Now, ret, bind. simpl.
  destruct (IncludePods opts).
  - destruct (discoverPodsForWorkload _ _ _ _) as [[pods ws] w'] eqn:E.
    eexists. split; reflexivity.
  - eexists. split; reflexivity.
Qed.

(** No listed StatefulSet is dropped, whatever its role label: the nodes
    are the listed sets, in order, each with the component computed by
    [determineComponent]. *)
Lemma discoverStatefulSets_keeps_all namespace labelSelector opts w items :
  Client.ListStatefulSets client (calls w) namespace labelSelector = Ok items ->
  List.map (fun n => (K8sResourceNode.Name n, K8sResourceNode.Component n))
    (discoverStatefulSets client clock namespace labelSelector opts w).1.1 =
  List.map (fun sts => (ObjectMeta.Name (StatefulSet.Meta sts),
                        determineComponent (ObjectMeta.Labels (StatefulSet.Meta sts))))
    items.
Proof.
  intros Hlist. unfold discoverStatefulSets, bind, request. rewrite Hlist. simpl.
  match goal with |- context [rangeM ?b ?a ?i ?w0] =>
    destruct (rangeM_appends b _ _ (statefulSetNode_appends namespace opts) i a w0)
      as (nodes & Hr & Hm);
    destruct (rangeM b a i w0) as [rs w'] end.
  simpl in *. subst rs. exact Hm.
Qed.

End Discovery.

(* ===================================================================== *)
(** ** The pipeline of [MapFromDataset]                                   *)
(* ===================================================================== *)

Section Pipeline.

Variable client : Client.t.
Variable clock : nat -> gostd.Time.

(** C10. Whatever the client answers, the error returned by
    [MapFromDataset] is nil. *)
Theorem MapFromDataset_error_always_nil (name namespace : string) (opts : Options)
  (w : World) :
  (MapFromDataset client clock name namespace opts w).1.2 = None.
Proof.
  unfold MapFromDataset, resolveDataset, bind, Now, request. simpl.
  destruct (Client.GetDataset client _ name namespace) as [obj|err]; simpl.
  - destruct (resolveRuntime _ _ _) as [r w1].
    destruct r as [rt|e];
      destruct (discoverResources _ _ _ _ _ _ _) as [[res ws] w2]; reflexivity.
  - reflexivity.
Qed.

(** C5. When the Dataset cannot be fetched the run stops there: no error
    is returned, the graph holds the single warning DATASET_NOT_FOUND of
    level error, no runtime and no resources, and the only requests sent
    are those for the cluster name and for the Dataset. *)
Theorem MapFromDataset_dataset_fetch_failure (name namespace : string)
  (opts : Options) (w : World) (err : error) :
  Client.GetDataset client (calls w ++ [Call.GetClusterName])%list name namespace
  = Err err ->
  MapFromDataset client clock name namespace opts w =
  (ResourceGraph.mk DatasetNode.zero None []
     [MappingWarning.mk WarningLevelError WarningCodes.DatasetNotFound
        ("Failed to get Dataset " ++ namespace ++ "/" ++ name ++ ": " ++ err)
        name "Verify the Dataset name and namespace are correct"]
     (GraphMetadata.mk (clock (ticks w))
        (gostd.Sub (clock (S (ticks w))) (clock (ticks w)))
        (Client.GetClusterName client (calls w)) MapperVersion false),
   None,
   mkWorld (S (S (ticks w)))
     (calls w ++ [Call.GetClusterName; Call.GetDataset name namespace])%list).
Proof.
  intros Hget.
  unfold MapFromDataset, resolveDataset, Since, bind, Now, request, ret, append.
  simpl. rewrite Hget. simpl. now rewrite <- app_assoc.
Qed.

(** C3 (as amended). A Dataset that is fetched with any phase other than
    Bound, NotBound included, yields a graph with that Dataset, no runtime,
    and RUNTIME_NOT_BOUND (level warning) as its first warning. *)
Theorem MapFromDataset_phase_not_Bound (name namespace : string) (opts : Options)
  (w : World) (obj : Unstructured) :
  Client.GetDataset client (calls w ++ [Call.GetClusterName])%list name namespace
  = Ok obj ->
  DatasetNode.Phase (parseDataset obj) <> "Bound" ->
  let g := (MapFromDataset client clock name namespace opts w).1.1 in
  ResourceGraph.Dataset g = parseDataset obj /\
  ResourceGraph.Runtime g = None /\
  exists rest,
    ResourceGraph.Warnings g =
    MappingWarning.mk WarningLevelWarning WarningCodes.RuntimeNotBound
      ("No Runtime bound to Dataset: dataset is not bound (phase: "
       ++ DatasetNode.Phase (parseDataset obj) ++ ")")
      name "Create a Runtime CR with the same name as the Dataset"
    :: rest.
Proof.
  intros Hget Hphase.
  unfold MapFromDataset, resolveDataset, bind, Now, request, append. simpl.
  rewrite Hget. simpl. unfold resolveRuntime.
  destruct (String.eqb_spec (DatasetNode.Phase (parseDataset obj)) "Bound")
    as [E|_]; [contradiction|]. simpl.
  destruct (discoverResources _ _ _ _ _ _ _) as [[res ws] w2]. simpl.
  repeat split. eexists. reflexivity.
Qed.

End Pipeline.

(** C5 at the sample cluster without Dataset. *)
Lemma MapFromDataset_dataset_fetch_failure_witness :
  Client.GetDataset sample.noDatasetCluster [Call.GetClusterName] "demo" "default"
  = Err "dataset not found" /\
  sample.run sample.noDatasetCluster (sample.clockFrom 0) =
  (ResourceGraph.mk DatasetNode.zero None []
     [MappingWarning.mk WarningLevelError "DATASET_NOT_FOUND"
        "Failed to get Dataset default/demo: dataset not found"
        "demo" "Verify the Dataset name and namespace are correct"]
     (GraphMetadata.mk 0 1 "sample-cluster" "1.0.0" false),
   None,
   mkWorld 2 [Call.GetClusterName; Call.GetDataset "demo" "default"]).
Proof.
  split; [reflexivity|].
  unfold sample.run.
  rewrite (MapFromDataset_dataset_fetch_failure sample.noDatasetCluster
             (sample.clockFrom 0) "demo" "default" DefaultOptions World0
             "dataset not found" eq_refl).
  reflexivity.
Defined.

(** C3 (as amended) at the sample cluster whose Dataset is NotBound. *)
Lemma MapFromDataset_phase_not_Bound_witness :
  DatasetNode.Phase
    (parseDataset (sample.datasetObject "demo" "default" "NotBound" [])) <> "Bound" /\
  ResourceGraph.Runtime (sample.run sample.notBoundCluster (sample.clockFrom 0)).1.1 = None /\
  exists rest,
    ResourceGraph.Warnings (sample.run sample.notBoundCluster (sample.clockFrom 0)).1.1 =
    MappingWarning.mk WarningLevelWarning WarningCodes.RuntimeNotBound
      "No Runtime bound to Dataset: dataset is not bound (phase: NotBound)"
      "demo" "Create a Runtime CR with the same name as the Dataset"
    :: rest.
Proof.
  assert (Hphase : DatasetNode.Phase
            (parseDataset (sample.datasetObject "demo" "default" "NotBound" []))
          <> "Bound") by (vm_compute; discriminate).
  split; [exact Hphase|].
  destruct (MapFromDataset_phase_not_Bound sample.notBoundCluster (sample.clockFrom 0)
              "demo" "default" DefaultOptions World0 _ eq_refl Hphase)
    as (_ & Hrt & Hw).
  split; [exact Hrt | exact Hw].
Defined.

(** C3 (as stated) fails: for the Dataset in phase NotBound the graph holds
    a warning, and its code is RUNTIME_NOT_BOUND. *)
Lemma NotBound_dataset_is_warned :
  DatasetNode.Phase
    (ResourceGraph.Dataset (sample.run sample.notBoundCluster (sample.clockFrom 0)).1.1)
  = "NotBound" /\
  ResourceGraph.Warnings (sample.run sample.notBoundCluster (sample.clockFrom 0)).1.1 <> [] /\
  hasCode WarningCodes.RuntimeNotBound
    (ResourceGraph.Warnings (sample.run sample.notBoundCluster (sample.clockFrom 0)).1.1)
  = true.
Proof. vm_compute. repeat split. discriminate. Qed.

(* ===================================================================== *)
(** ** Where the code departs from its documentation                      *)
(* ===================================================================== *)

(** The runtime snapshot matters to the Warning Detector by its presence
    only: its type is never looked at. *)
Lemma detectWarnings_any_runtime (g : ResourceGraph.t) (rt1 rt2 : RuntimeNode.t) :
  detectWarnings g (Some rt1) = detectWarnings g (Some rt2).
Proof. reflexivity. Qed.

(** C2. The Dataset of the sample JuiceFS cluster is Bound and declares
    the type [juicefs] in the first entry of [status.runtimes]; the run
    asks the client for an [alluxio] runtime, never for a [juicefs] one,
    and so ends without runtime. *)
Theorem resolveRuntime_asks_for_alluxio :
  getRuntimeTypeFromDataset (sample.datasetObject "demo" "default" "Bound"
                               [sample.runtimeRef "demo" "default" "juicefs"])
  = ("juicefs", "demo", "default") /\
  DatasetNode.Phase
    (ResourceGraph.Dataset (sample.run sample.juicefsCluster (sample.clockFrom 0)).1.1)
  = "Bound" /\
  calls (sample.run sample.juicefsCluster (sample.clockFrom 0)).2 =
  [Call.GetClusterName; Call.GetDataset "demo" "default";
   Call.GetRuntime "alluxio" "demo" "default";
   Call.ListStatefulSets "default" "release=demo";
   Call.ListPods "default" "";
   Call.ListDaemonSets "default" "release=demo";
   Call.ListPVCs "default" "release=demo";
   Call.ListConfigMaps "default" "release=demo";
   Call.ListSecrets "default" "release=demo"] /\
  ResourceGraph.Runtime (sample.run sample.juicefsCluster (sample.clockFrom 0)).1.1 = None.
Proof. vm_compute. repeat split. Qed.

(** C4. In the sample cluster the worker set carries the release label and
    is owned by a Deployment; the graph holds that node and not a single
    warning, so none with the code ORPHANED_RESOURCE. *)
Theorem orphaned_resource_is_not_flagged :
  List.map (fun n => (K8sResourceNode.Name n,
                      K8sResourceNode.Labels n !! "release",
                      OwnerInfo.Kind <$> K8sResourceNode.Owner n))
    (ResourceGraph.Resources
       (sample.run sample.orphanCluster (sample.clockFrom 0)).1.1) =
  [("demo-master", Some "demo", Some "AlluxioRuntime");
   ("demo-worker", Some "demo", Some "Deployment");
   ("demo-fuse", Some "demo", Some "AlluxioRuntime")] /\
  ResourceGraph.Warnings (sample.run sample.orphanCluster (sample.clockFrom 0)).1.1 = [] /\
  hasCode WarningCodes.OrphanedResource
    (ResourceGraph.Warnings (sample.run sample.orphanCluster (sample.clockFrom 0)).1.1)
  = false.
Proof. vm_compute. repeat split. Qed.

(** The five list requests of discovery that do turn a failure into a
    warning of level warning with a code of their own. *)
Lemma list_failures_are_warned (client : Client.t) (clock : nat -> gostd.Time)
  (namespace labelSelector : string) (opts : Options) (w : World) (err : error) :
  (Client.ListStatefulSets client (calls w) namespace labelSelector = Err err ->
   (discoverStatefulSets client clock namespace labelSelector opts w).1 =
   ([], [MappingWarning.mk WarningLevelWarning "STS_LIST_FAILED"
           ("Failed to list StatefulSets: " ++ err) "" ""])) /\
  (Client.ListDaemonSets client (calls w) namespace labelSelector = Err err ->
   (discoverDaemonSets client clock namespace labelSelector opts w).1 =
   ([], [MappingWarning.mk WarningLevelWarning "DS_LIST_FAILED"
           ("Failed to list DaemonSets: " ++ err) "" ""])) /\
  (Client.ListPVCs client (calls w) namespace labelSelector = Err err ->
   (discoverStorage client clock namespace labelSelector w).1 =
   ([], [MappingWarning.mk WarningLevelWarning "PVC_LIST_FAILED"
           ("Failed to list PVCs: " ++ err) "" ""])) /\
  (Client.ListConfigMaps client (calls w) namespace labelSelector = Err err ->
   In (MappingWarning.mk WarningLevelWarning "CM_LIST_FAILED"
         ("Failed to list ConfigMaps: " ++ err) "" "")
      (discoverConfigs client clock namespace labelSelector w).1.2) /\
  ((forall h, Client.ListSecrets client h namespace labelSelector = Err err) ->
   In (MappingWarning.mk WarningLevelWarning "SECRET_LIST_FAILED"
         ("Failed to list Secrets: " ++ err) "" "")
      (discoverConfigs client clock namespace labelSelector w).1.2).
Proof.
  repeat split; intros H.
  - unfold discoverStatefulSets, bind, request. now rewrite H.
  - unfold discoverDaemonSets, bind, request. now rewrite H.
  - unfold discoverStorage, bind, request. now rewrite H.
  - unfold discoverConfigs, bind, request. rewrite H. simpl.
    destruct (Client.ListSecrets client _ namespace labelSelector) as [items|e]; simpl.
    + destruct (rangeM _ _ _ _) as [rs w']. simpl. now left.
    + now left.
  - unfold discoverConfigs, bind, request.
    destruct (Client.ListConfigMaps client _ namespace labelSelector) as [items|e]; simpl.
    + destruct (rangeM _ _ _ _) as [rs w']. simpl. rewrite H. simpl. now left.
    + rewrite H. simpl. right. now left.
Qed.

(** C6. In the sample cluster with restricted permissions the two requests
    to list pods and the request to fetch the volume of the claim fail;
    discovery goes on to the end, and the graph holds no warning at all
    for these failures. *)
Theorem pod_and_volume_failures_are_silent :
  (forall h, Client.ListPods sample.restrictedCluster h "default" ""
             = Err "pods is forbidden") /\
  (forall h, Client.GetPV sample.restrictedCluster h "demo-pv"
             = Err "persistentvolumes is forbidden") /\
  calls (sample.run sample.restrictedCluster (sample.clockFrom 0)).2 =
  [Call.GetClusterName; Call.GetDataset "demo" "default";
   Call.GetRuntime "alluxio" "demo" "default";
   Call.ListStatefulSets "default" "release=demo";
   Call.ListPods "default" ""; Call.ListPods "default" "";
   Call.ListDaemonSets "default" "release=demo";
   Call.ListPVCs "default" "release=demo";
   Call.GetPV "demo-pv";
   Call.ListConfigMaps "default" "release=demo";
   Call.ListSecrets "default" "release=demo"] /\
  List.map K8sResourceNode.Name
    (ResourceGraph.Resources
       (sample.run sample.restrictedCluster (sample.clockFrom 0)).1.1) =
  ["demo-master"; "demo-worker"; "demo-fuse"; "demo"] /\
  ResourceGraph.Warnings (sample.run sample.restrictedCluster (sample.clockFrom 0)).1.1 = [].
Proof. vm_compute. repeat split. Qed.

(* ===================================================================== *)
(** ** What a run owes to the clock                                       *)
(* ===================================================================== *)

Lemma agree_ret {A : Type} (E : A -> A -> Prop) (a1 a2 : A) :
  E a1 a2 -> agree E (ret a1) (ret a2).
Proof. intros H w. split; [exact H | reflexivity]. Qed.

Lemma agree_refl {A : Type} (m : M A) : agree eq m m.
Proof. intros w. split; reflexivity. Qed.

Lemma agree_bind {A B : Type} (E : A -> A -> Prop) (F : B -> B -> Prop)
  (m1 m2 : M A) (k1 k2 : A -> M B) :
  agree E m1 m2 ->
  (forall a1 a2, E a1 a2 -> agree F (k1 a1) (k2 a2)) ->
  agree F (bind m1 k1) (bind m2 k2).
Proof.
  intros Hm Hk w. unfold bind.
  destruct (Hm w) as [He Hw].
  destruct (m1 w) as [a1 w1], (m2 w) as [a2 w2]. simpl in *. subst w2.
  apply (Hk a1 a2 He).
Qed.

Lemma agree_rangeM {A S : Type} (E : S -> S -> Prop) (body1 body2 : S -> A -> M S) :
  (forall acc1 acc2 x, E acc1 acc2 -> agree E (body1 acc1 x) (body2 acc2 x)) ->
  forall items acc1 acc2, E acc1 acc2 ->
  agree E (rangeM body1 acc1 items) (rangeM body2 acc2 items).
Proof.
  intros Hbody items. induction items as [|x items IH]; intros acc1 acc2 Hacc; simpl.
  - now apply agree_ret.
  - eapply agree_bind; [apply Hbody; exact Hacc | exact IH].
Qed.

Lemma sameNodes_append (l1 l2 : list K8sResourceNode.t) (n1 n2 : K8sResourceNode.t) :
  sameNodes l1 l2 -> eraseAge n1 = eraseAge n2 ->
  sameNodes (append l1 n1) (append l2 n2).
Proof.
  unfold sameNodes, append. intros Hl Hn. rewrite !map_app. simpl.
  now rewrite Hl, Hn.
Qed.

Lemma sameNodes_app (l1 l2 r1 r2 : list K8sResourceNode.t) :
  sameNodes l1 l2 -> sameNodes r1 r2 -> sameNodes (l1 ++ r1)%list (l2 ++ r2)%list.
Proof. unfold sameNodes. intros Hl Hr. rewrite !map_app. now rewrite Hl, Hr. Qed.

(** The Warning Detector does not read ages. *)
Lemma GetResourcesByComponent_range_eraseAge (rs : list K8sResourceNode.t)
  (c : ComponentType) :
  length (GetResourcesByComponent_range (List.map eraseAge rs) c) =
  length (GetResourcesByComponent_range rs c).
Proof.
  induction rs as [|r rs IH]; simpl; [reflexivity|].
  destruct r as [k v n ns comp st o l d ch]. simpl.
  destruct (String.eqb comp c); simpl; now rewrite IH.
Qed.

Lemma detectWarnings_unhealthy_eraseAge (rs : list K8sResourceNode.t) :
  forall ws, detectWarnings_unhealthy ws (List.map eraseAge rs) =
             detectWarnings_unhealthy ws rs.
Proof.
  induction rs as [|r rs IH]; intros ws; simpl; [reflexivity|].
  destruct r as [k v n ns comp st o l d ch]. simpl.
  destruct (_ || _); apply IH.
Qed.

Lemma detectWarnings_sameNodes (g1 g2 : ResourceGraph.t) (rt : option RuntimeNode.t) :
  sameNodes (ResourceGraph.Resources g1) (ResourceGraph.Resources g2) ->
  detectWarnings g1 rt = detectWarnings g2 rt.
Proof.
  unfold sameNodes, detectWarnings, GetResourcesByComponent. intros H.
  rewrite <- !(GetResourcesByComponent_range_eraseAge (ResourceGraph.Resources g1)).
  rewrite <- (detectWarnings_unhealthy_eraseAge (ResourceGraph.Resources g1)).
  rewrite H.
  rewrite !GetResourcesByComponent_range_eraseAge.
  now rewrite detectWarnings_unhealthy_eraseAge.
Qed.

Section Determinism.

Variable client : Client.t.
Variables clock1 clock2 : nat -> gostd.Time.

Lemma agree_Since (t1 t2 : gostd.Time) :
  agree (fun _ _ => True) (Since clock1 t1) (Since clock2 t2).
Proof. intros w. split; [exact I | reflexivity]. Qed.

Lemma agree_formatAge (t : gostd.Time) :
  agree (fun _ _ => True) (formatAge clock1 t) (formatAge clock2 t).
Proof. intros w. split; [exact I | reflexivity]. Qed.

Ltac age_then_append H :=
  eapply agree_bind; [apply agree_formatAge|];
  intros ? ? _; apply agree_ret; apply sameNodes_append; [exact H | reflexivity].

Lemma agree_podNode workloadName acc1 acc2 pod :
  sameNodes acc1 acc2 ->
  agree sameNodes (podNode clock1 workloadName acc1 pod)
                  (podNode clock2 workloadName acc2 pod).
Proof.
  intros H. unfold podNode.
  match goal with |- agree _ (if ?c then _ else _) _ => destruct c end.
  - now apply agree_ret.
  - age_then_append H.
Qed.

Lemma agree_discoverPodsForWorkload namespace workloadName :
  agree sameDiscovery
    (discoverPodsForWorkload client clock1 namespace workloadName)
    (discoverPodsForWorkload client clock2 namespace workloadName).
Proof.
  unfold discoverPodsForWorkload.
  eapply agree_bind; [apply agree_refl|]. intros r ? <-.
  destruct r as [items|err].
  - eapply agree_bind.
    + apply agree_rangeM with (E := sameNodes); [|reflexivity].
      intros. now apply agree_podNode.
    + intros rs1 rs2 Hrs. apply agree_ret. split; [exact Hrs | reflexivity].
  - apply agree_ret. split; reflexivity.
Qed.

Lemma agree_statefulSetNode namespace opts acc1 acc2 sts :
  sameNodes acc1 acc2 ->
  agree sameNodes (statefulSetNode client clock1 namespace opts acc1 sts)
                  (statefulSetNode client clock2 namespace opts acc2 sts).
Proof.
  intros H. unfold statefulSetNode.
  eapply agree_bind; [apply agree_formatAge|]. intros age1 age2 _.
  eapply agree_bind with (E := sameNodes).
  - destruct (IncludePods opts).
    + eapply agree_bind; [apply agree_discoverPodsForWorkload|].
      intros [pods1 ws1] [pods2 ws2] [Hp _]. now apply agree_ret.
    + now apply agree_ret.
  - intros pods1 pods2 Hp. apply agree_ret.
    apply sameNodes_append; [exact H|].
    unfold sameNodes in Hp. simpl. now rewrite Hp.
Qed.

Lemma agree_discoverStatefulSets namespace labelSelector opts :
  agree sameDiscovery
    (discoverStatefulSets client clock1 namespace labelSelector opts)
    (discoverStatefulSets client clock2 namespace labelSelector opts).
Proof.
  unfold discoverStatefulSets.
  eapply agree_bind; [apply agree_refl|]. intros r ? <-.
  destruct r as [items|err].
  - eapply agree_bind.
    + apply agree_rangeM with (E := sameNodes); [|reflexivity].
      intros. now apply agree_statefulSetNode.
    + intros rs1 rs2 Hrs. apply agree_ret. split; [exact Hrs | reflexivity].
  - apply agree_ret. split; reflexivity.
Qed.

Lemma agree_daemonSetNode acc1 acc2 ds :
  sameNodes acc1 acc2 ->
  agree sameNodes (daemonSetNode clock1 acc1 ds) (daemonSetNode clock2 acc2 ds).
Proof. intros H. unfold daemonSetNode. age_then_append H. Qed.

Lemma agree_discoverDaemonSets namespace labelSelector opts :
  agree sameDiscovery
    (discoverDaemonSets client clock1 namespace labelSelector opts)
    (discoverDaemonSets client clock2 namespace labelSelector opts).
Proof.
  unfold discoverDaemonSets.
  eapply agree_bind; [apply agree_refl|]. intros r ? <-.
  destruct r as [items|err].
  - eapply agree_bind.
    + apply agree_rangeM with (E := sameNodes); [|reflexivity].
      intros. now apply agree_daemonSetNode.
    + intros rs1 rs2 Hrs. apply agree_ret. split; [exact Hrs | reflexivity].
  - apply agree_ret. split; reflexivity.
Qed.

Lemma agree_storageNodes acc1 acc2 pvc :
  sameNodes acc1 acc2 ->
  agree sameNodes (storageNodes client clock1 acc1 pvc)
                  (storageNodes client clock2 acc2 pvc).
Proof.
  intros H. unfold storageNodes.
  eapply agree_bind; [apply agree_formatAge|]. intros age1 age2 _.
  destruct (negb _).
  - eapply agree_bind; [apply agree_refl|]. intros r ? <-.
    destruct r as [pv|err].
    + eapply agree_bind; [apply agree_formatAge|]. intros pvAge1 pvAge2 _.
      apply agree_ret. apply sameNodes_append; [|reflexivity].
      apply sameNodes_append; [exact H | reflexivity].
    + apply agree_ret. apply sameNodes_append; [exact H | reflexivity].
  - apply agree_ret. apply sameNodes_append; [exact H | reflexivity].
Qed.

Lemma agree_discoverStorage namespace labelSelector :
  agree sameDiscovery
    (discoverStorage client clock1 namespace labelSelector)
    (discoverStorage client clock2 namespace labelSelector).
Proof.
  unfold discoverStorage.
  eapply agree_bind; [apply agree_refl|]. intros r ? <-.
  destruct r as [items|err].
  - eapply agree_bind.
    + apply agree_rangeM with (E := sameNodes); [|reflexivity].
      intros. now apply agree_storageNodes.
    + intros rs1 rs2 Hrs. apply agree_ret. split; [exact Hrs | reflexivity].
  - apply agree_ret. split; reflexivity.
Qed.

Lemma agree_configMapNode acc1 acc2 cm :
  sameNodes acc1 acc2 ->
  agree sameNodes (configMapNode clock1 acc1 cm) (configMapNode clock2 acc2 cm).
Proof. intros H. unfold configMapNode. age_then_append H. Qed.

Lemma agree_secretNode acc1 acc2 secret :
  sameNodes acc1 acc2 ->
  agree sameNodes (secretNode clock1 acc1 secret) (secretNode clock2 acc2 secret).
Proof. intros H. unfold secretNode. age_then_append H. Qed.

Lemma agree_discoverConfigs namespace labelSelector :
  agree sameDiscovery
    (discoverConfigs client clock1 namespace labelSelector)
    (discoverConfigs client clock2 namespace labelSelector).
Proof.
  unfold discoverConfigs.
  eapply agree_bind; [apply agree_refl|]. intros r ? <-.
  eapply agree_bind with (E := sameDiscovery).
  - destruct r as [items|err].
    + eapply agree_bind.
      * apply agree_rangeM with (E := sameNodes); [|reflexivity].
        intros. now apply agree_configMapNode.
      * intros rs1 rs2 Hrs. apply agree_ret. split; [exact Hrs | reflexivity].
    + apply agree_ret. split; reflexivity.
  - intros [rs1 ws1] [rs2 ws2] [Hrs Hws]. simpl in Hrs, Hws. subst ws2.
    eapply agree_bind; [apply agree_refl|]. intros r' ? <-.
    destruct r' as [items|err].
    + eapply agree_bind.
      * apply agree_rangeM with (E := sameNodes); [|exact Hrs].
        intros. now apply agree_secretNode.
      * intros rs1' rs2' Hrs'. apply agree_ret. split; [exact Hrs' | reflexivity].
    + apply agree_ret. split; [exact Hrs | reflexivity].
Qed.

Lemma agree_discoverResources name namespace runtime opts :
  agree sameDiscovery
    (discoverResources client clock1 name namespace runtime opts)
    (discoverResources client clock2 name namespace runtime opts).
Proof.
  unfold discoverResources.
  eapply agree_bind; [apply agree_discoverStatefulSets|].
  intros [sts1 stsw1] [sts2 stsw2] [Hsts Hstsw]. simpl in Hsts, Hstsw. subst stsw2.
  eapply agree_bind; [apply agree_discoverDaemonSets|].
  intros [ds1 dsw1] [ds2 dsw2] [Hds Hdsw]. simpl in Hds, Hdsw. subst dsw2.
  assert (H0 : sameNodes (([] ++ sts1) ++ ds1)%list (([] ++ sts2) ++ ds2)%list)
    by (apply sameNodes_app; [exact Hsts | exact Hds]).
  eapply agree_bind with (E := sameDiscovery).
  { destruct (IncludeStorage opts).
    - eapply agree_bind; [apply agree_discoverStorage|].
      intros [st1 stw1] [st2 stw2] [Hst Hstw]. simpl in Hst, Hstw. subst stw2.
      apply agree_ret. split; [|reflexivity]. now apply sameNodes_app.
    - apply agree_ret. split; [exact H0 | reflexivity]. }
  intros [rs1 ws1] [rs2 ws2] [Hrs Hws]. simpl in Hrs, Hws. subst ws2.
  eapply agree_bind with (E := sameDiscovery).
  { destruct (IncludeConfigs opts).
    - eapply agree_bind; [apply agree_discoverConfigs|].
      intros [c1 cw1] [c2 cw2] [Hc Hcw]. simpl in Hc, Hcw. subst cw2.
      apply agree_ret. split; [|reflexivity]. now apply sameNodes_app.
    - apply agree_ret. split; [exact Hrs | reflexivity]. }
  intros [rs1' ws1'] [rs2' ws2'] H'. now apply agree_ret.
Qed.

(** C9 (as amended). Two runs against the same client differ only in what
    they read from the clock: with [MappedAt], [Duration] and every
    [Status.Age] blanked the two graphs are equal (in particular the
    resources come in the same order), both return the same error, and
    both send the same requests. *)
Theorem MapFromDataset_same_up_to_clock (name namespace : string) (opts : Options)
  (w : World) :
  eraseClock (MapFromDataset client clock1 name namespace opts w).1.1 =
  eraseClock (MapFromDataset client clock2 name namespace opts w).1.1 /\
  (MapFromDataset client clock1 name namespace opts w).1.2 =
  (MapFromDataset client clock2 name namespace opts w).1.2 /\
  (MapFromDataset client clock1 name namespace opts w).2 =
  (MapFromDataset client clock2 name namespace opts w).2.
Proof.
  cut (agree (fun r1 r2 => eraseClock r1.1 = eraseClock r2.1 /\ r1.2 = r2.2)
         (MapFromDataset client clock1 name namespace opts)
         (MapFromDataset client clock2 name namespace opts)).
  { intros H. destruct (H w) as [[Hg He] Hw]. auto. }
  unfold MapFromDataset.
  eapply agree_bind with (E := fun _ _ => True);
    [intros w0; split; [exact I | reflexivity]|].
  intros start1 start2 _.
  eapply agree_bind; [apply agree_refl|]. intros clusterName ? <-.
  eapply agree_bind; [apply agree_refl|]. intros r ? <-.
  destruct r as [dataset|err].
  - eapply agree_bind; [apply agree_refl|]. intros r ? <-.
    match goal with |- context [match r with Ok _ => _ | Err _ => _ end] =>
      destruct (match r with Ok rt => _ | Err e => _ end) as [runtime warnings] end.
    eapply agree_bind; [apply agree_discoverResources|].
    intros [rs1 ws1] [rs2 ws2] [Hrs Hws]. simpl in Hrs, Hws. subst ws2.
    eapply agree_bind; [apply agree_Since|]. intros d1 d2 _.
    apply agree_ret. split; [|reflexivity].
    rewrite (detectWarnings_sameNodes
               (ResourceGraph.mk dataset runtime rs1 (warnings ++ ws1)%list
                  (GraphMetadata.mk start1 0 clusterName MapperVersion false))
               (ResourceGraph.mk dataset runtime rs2 (warnings ++ ws1)%list
                  (GraphMetadata.mk start2 0 clusterName MapperVersion false))
               runtime Hrs).
    unfold eraseClock. simpl. unfold sameNodes in Hrs. now rewrite Hrs.
  - eapply agree_bind; [apply agree_Since|]. intros d1 d2 _.
    apply agree_ret. split; reflexivity.
Qed.

End Determinism.

(** C9 (as stated) fails: mapped once 59 seconds and once 61 seconds after
    the resources of the sample cluster were created, against the same
    answers of the client, the nodes carry the ages 59s and 1m. *)
Lemma ages_follow_the_clock :
  List.map (fun n => ResourceStatus.Age (K8sResourceNode.Status n))
    (ResourceGraph.Resources
       (sample.run sample.orphanCluster (sample.clockFrom (sample.seconds 59))).1.1)
  = ["59s"; "59s"; "59s"] /\
  List.map (fun n => ResourceStatus.Age (K8sResourceNode.Status n))
    (ResourceGraph.Resources
       (sample.run sample.orphanCluster (sample.clockFrom (sample.seconds 61))).1.1)
  = ["1m"; "1m"; "1m"] /\
  ResourceGraph.Resources
    (sample.run sample.orphanCluster (sample.clockFrom (sample.seconds 59))).1.1 <>
  ResourceGraph.Resources
    (sample.run sample.orphanCluster (sample.clockFrom (sample.seconds 61))).1.1.
Proof.
  split; [vm_compute; reflexivity|]. split; [vm_compute; reflexivity|].
  intros H.
  apply (f_equal (List.map (fun n => ResourceStatus.Age (K8sResourceNode.Status n)))) in H.
  vm_compute in H. discriminate.
Qed.

(* ===================================================================== *)
(** ** Further properties: helper functions                               *)
(* ===================================================================== *)

(** X1. [contains] is [findSubstring]: the comparisons with the whole
    string, its suffix and its prefix that precede the search change
    nothing, and the search succeeds exactly when [substr] occurs in
    [s]. *)
Theorem contains_is_findSubstring (s substr : string) :
  contains s substr = findSubstring s substr /\
  (findSubstring s substr = true <-> Substring substr s).
Proof.
  assert (Hfind : findSubstring s substr = true <-> Substring substr s).
  { split.
    - unfold findSubstring. intros H.
      apply findSubstring_from_true in H as (j & _ & H).
      eapply substring_split; [exact H | reflexivity].
    - intros (pre & post & ->). apply findSubstring_complete. }
  split; [|exact Hfind].
  destruct (containsP s substr) as [H|H].
  - symmetry. now apply Hfind.
  - destruct (findSubstring s substr) eqn:E; [|reflexivity].
    exfalso. apply H. now apply Hfind.
Qed.

(** X2. [filterLabels] keeps the value of the keys release, app, role and
    component, has no other key, and filtering twice is filtering once. *)
Theorem filterLabels_lookup (labels : gmap string string) :
  (forall k, In k relevantLabels -> filterLabels labels !! k = labels !! k) /\
  (forall k, ~ In k relevantLabels -> filterLabels labels !! k = None) /\
  filterLabels (filterLabels labels) = filterLabels labels.
Proof.
  assert (Hin : forall k, In k relevantLabels <->
            k = "release" \/ k = "app" \/ k = "role" \/ k = "component").
  { intros k. unfold relevantLabels. simpl. intuition. }
  assert (Hyes : forall k, In k relevantLabels ->
            filterLabels labels !! k = labels !! k).
  { intros k Hk. apply Hin in Hk. unfold filterLabels.
    destruct (labels !! k) as [v|] eqn:E.
    - apply map_lookup_filter_Some. split; [exact E | exact Hk].
    - apply map_lookup_filter_None. left. exact E. }
  assert (Hno : forall k, ~ In k relevantLabels -> filterLabels labels !! k = None).
  { intros k Hk. unfold filterLabels. apply map_lookup_filter_None. right.
    intros v _ H. apply Hk, Hin. exact H. }
  split; [exact Hyes|]. split; [exact Hno|].
  apply map_eq. intros k. unfold filterLabels at 1.
  destruct (filterLabels labels !! k) as [v|] eqn:E.
  - apply map_lookup_filter_Some. split; [exact E|].
    simpl. apply Hin.
    destruct (in_dec String.string_dec k relevantLabels) as [H|H]; [exact H|].
    rewrite (Hno k H) in E. discriminate.
  - apply map_lookup_filter_None. left. exact E.
Qed.

(** X9. Every runtime type, known or not, is expected to have a fuse
    component; a type has no master exactly when it is juicefs or thin,
    and no worker exactly when it is thin. *)
Theorem GetRuntimeComponents_shape (runtimeType : RuntimeType) :
  HasFuse (GetRuntimeComponents runtimeType) = true /\
  (HasMaster (GetRuntimeComponents runtimeType) = false <->
   runtimeType = RuntimeTypeJuiceFS \/ runtimeType = RuntimeTypeThin) /\
  (HasWorker (GetRuntimeComponents runtimeType) = false <->
   runtimeType = RuntimeTypeThin).
Proof.
  unfold GetRuntimeComponents.
  destruct (String.eqb_spec runtimeType RuntimeTypeAlluxio) as [->|?];
    [repeat split; try discriminate; intuition discriminate|].
  destruct (String.eqb_spec runtimeType RuntimeTypeJindo) as [->|?];
    [repeat split; try discriminate; intuition discriminate|].
  destruct (String.eqb_spec runtimeType RuntimeTypeGooseFS) as [->|?];
    [repeat split; try discriminate; intuition discriminate|].
  destruct (String.eqb_spec runtimeType RuntimeTypeVineyard) as [->|?];
    [repeat split; try discriminate; intuition discriminate|].
  destruct (String.eqb_spec runtimeType RuntimeTypeEFC) as [->|?];
    [repeat split; try discriminate; intuition discriminate|].
  simpl.
  destruct (String.eqb_spec runtimeType RuntimeTypeJuiceFS) as [->|?];
    [repeat split; try discriminate; intuition discriminate|].
  destruct (String.eqb_spec runtimeType RuntimeTypeThin) as [->|?];
    [repeat split; try discriminate; intuition discriminate|].
  simpl. repeat split; try discriminate; intuition discriminate.
Qed.

(* ===================================================================== *)
(** ** Further properties: the Warning Detector                           *)
(* ===================================================================== *)

Lemma hasCode_append (code : string) (ws : list MappingWarning.t) (w : MappingWarning.t) :
  hasCode code (append ws w) = hasCode code ws || String.eqb (MappingWarning.Code w) code.
Proof. unfold hasCode, append. rewrite existsb_app. simpl. now rewrite orb_false_r. Qed.

(** The loop over the resources adds PODS_NOT_READY warnings only. *)
Lemma hasCode_detectWarnings_unhealthy (code : string) (rs : list K8sResourceNode.t) :
  code <> WarningCodes.PodsNotReady ->
  forall ws, hasCode code (detectWarnings_unhealthy ws rs) = hasCode code ws.
Proof.
  intros Hcode. induction rs as [|r rs IH]; intros ws; simpl; [reflexivity|].
  destruct (_ || _); [|apply IH].
  rewrite IH, hasCode_append. cbn [MappingWarning.Code].
  destruct (String.eqb_spec WarningCodes.PodsNotReady code) as [E|_];
    [congruence | apply orb_false_r].
Qed.

(** X3. The Warning Detector reports a missing master, worker or fuse
    exactly when a runtime was resolved and no top-level resource has that
    component. *)
Theorem detectWarnings_missing_iff (graph : ResourceGraph.t)
  (runtime : option RuntimeNode.t) :
  (hasCode WarningCodes.MasterMissing (detectWarnings graph runtime) = true <->
   runtime <> None /\ GetResourcesByComponent graph ComponentMaster = []) /\
  (hasCode WarningCodes.WorkerMissing (detectWarnings graph runtime) = true <->
   runtime <> None /\ GetResourcesByComponent graph ComponentWorker = []) /\
  (hasCode WarningCodes.FuseMissing (detectWarnings graph runtime) = true <->
   runtime <> None /\ GetResourcesByComponent graph ComponentFuse = []).
Proof.
  unfold detectWarnings.
  rewrite !hasCode_detectWarnings_unhealthy by discriminate.
  destruct runtime as [rt|];
    destruct (GetResourcesByComponent graph ComponentMaster);
    destruct (GetResourcesByComponent graph ComponentWorker);
    destruct (GetResourcesByComponent graph ComponentFuse);
    simpl; repeat split; try discriminate; try reflexivity;
    try (intros [H1 H2]; congruence); try (intros _; discriminate).
Qed.

Lemma Forall_append {A : Type} (P : A -> Prop) (l : list A) (x : A) :
  Forall P l -> P x -> Forall P (append l x).
Proof. intros Hl Hx. unfold append. apply Forall_app. split; [exact Hl | now constructor]. Qed.

Lemma detectWarnings_unhealthy_Forall (P : MappingWarning.t -> Prop)
  (rs : list K8sResourceNode.t) :
  (forall kind name ready,
      P (MappingWarning.mk WarningLevelWarning WarningCodes.PodsNotReady
           (kind ++ " " ++ name ++ " is not ready (" ++ ready ++ ")") name "")) ->
  forall ws, Forall P ws -> Forall P (detectWarnings_unhealthy ws rs).
Proof.
  intros HP. induction rs as [|r rs IH]; intros ws Hws; simpl; [exact Hws|].
  destruct (_ || _); [|now apply IH].
  apply IH. unfold append. apply Forall_app. split; [exact Hws|].
  constructor; [apply HP | constructor].
Qed.

(** Every warning of the Warning Detector is one of the four of
    [detectedWarnings]. *)
Lemma detectWarnings_detected (graph : ResourceGraph.t) (runtime : option RuntimeNode.t) :
  Forall (fun w => In (MappingWarning.Code w, MappingWarning.Level w) detectedWarnings)
    (detectWarnings graph runtime).
Proof.
  unfold detectWarnings.
  apply detectWarnings_unhealthy_Forall.
  - intros. simpl. tauto.
  - assert (Hm : In (WarningCodes.MasterMissing, WarningLevelError) detectedWarnings)
      by (simpl; tauto).
    assert (Hw : In (WarningCodes.WorkerMissing, WarningLevelError) detectedWarnings)
      by (simpl; tauto).
    assert (Hf : In (WarningCodes.FuseMissing, WarningLevelWarning) detectedWarnings)
      by (simpl; tauto).
    destruct (_ && _), (_ && _), (_ && _);
      repeat (apply Forall_append); try apply Forall_nil_2;
      first [exact Hm | exact Hw | exact Hf].
Qed.

Lemma GetResourcesByComponent_range_brief (c : ComponentType) :
  forall rs1 rs2 : list K8sResourceNode.t,
  List.map brief rs1 = List.map brief rs2 ->
  length (GetResourcesByComponent_range rs1 c) =
  length (GetResourcesByComponent_range rs2 c).
Proof.
  induction rs1 as [|r1 rs1 IH]; intros [|r2 rs2] H; simpl in H;
    try discriminate; [reflexivity|].
  unfold brief in H. injection H as Hk Hn Hc Hp Hr H.
  simpl. rewrite Hc. destruct (String.eqb _ c); simpl; now rewrite (IH rs2 H).
Qed.

Lemma detectWarnings_unhealthy_brief :
  forall (rs1 rs2 : list K8sResourceNode.t) (ws : list MappingWarning.t),
  List.map brief rs1 = List.map brief rs2 ->
  detectWarnings_unhealthy ws rs1 = detectWarnings_unhealthy ws rs2.
Proof.
  induction rs1 as [|r1 rs1 IH]; intros [|r2 rs2] ws H; simpl in H;
    try discriminate; [reflexivity|].
  unfold brief in H. injection H as Hk Hn Hc Hp Hr H.
  simpl. rewrite Hk, Hn, Hp, Hr. destruct (_ || _); now apply IH.
Qed.

(** X5. The Warning Detector reads only the kind, name, component, phase
    and ready string of the top-level resources: the nodes nested under
    them play no part, so a failed pod under a ready workload raises no
    warning. *)
Theorem detectWarnings_reads_top_level_only (g1 g2 : ResourceGraph.t)
  (runtime : option RuntimeNode.t) :
  List.map brief (ResourceGraph.Resources g1) =
  List.map brief (ResourceGraph.Resources g2) ->
  detectWarnings g1 runtime = detectWarnings g2 runtime.
Proof.
  intros H. unfold detectWarnings, GetResourcesByComponent.
  rewrite !(GetResourcesByComponent_range_brief _ _ _ H).
  apply detectWarnings_unhealthy_brief. exact H.
Qed.

(** X5 at a graph whose ready worker set holds a failed pod, against the
    same graph without the pod. *)
Lemma detectWarnings_reads_top_level_only_witness :
  let failedPod :=
    K8sResourceNode.mk "Pod" "v1" "demo-worker-0" "default" ComponentWorker
      (ResourceStatus.mk PhaseFailed "" "Failed" "1h") None ∅ ∅ [] in
  let worker (children : list K8sResourceNode.t) :=
    K8sResourceNode.mk "StatefulSet" "apps/v1" "demo-worker" "default" ComponentWorker
      (ResourceStatus.mk PhaseReady "2/2" "" "1d") None ∅ ∅ children in
  detectWarnings (sample.graphOf sample.juicefsRuntime [worker [failedPod]]) None =
  detectWarnings (sample.graphOf sample.juicefsRuntime [worker []]) None /\
  detectWarnings (sample.graphOf sample.juicefsRuntime [worker [failedPod]]) None = [].
Proof.
  intros failedPod worker. split.
  - apply (detectWarnings_reads_top_level_only
             (sample.graphOf sample.juicefsRuntime [worker [failedPod]])
             (sample.graphOf sample.juicefsRuntime [worker []]) None).
    reflexivity.
  - reflexivity.
Defined.

(* ===================================================================== *)
(** ** Further properties: discovery and the assembled graph              *)
(* ===================================================================== *)

Lemma post_ret {A : Type} (Q : A -> Prop) (a : A) : Q a -> post Q (ret a).
Proof. intros H w. exact H. Qed.

Lemma post_bind {A B : Type} (P : A -> Prop) (Q : B -> Prop) (m : M A) (k : A -> M B) :
  post P m -> (forall a, P a -> post Q (k a)) -> post Q (bind m k).
Proof.
  intros Hm Hk w. unfold bind. specialize (Hm w).
  destruct (m w) as [a w1]. apply (Hk a Hm).
Qed.

Lemma post_any {A : Type} (m : M A) : post (fun _ => True) m.
Proof. intros w. exact I. Qed.

Lemma post_rangeM {A S : Type} (I : S -> Prop) (body : S -> A -> M S) :
  (forall acc x, I acc -> post I (body acc x)) ->
  forall items acc, I acc -> post I (rangeM body acc items).
Proof.
  intros Hbody items. induction items as [|x items IH]; intros acc Hacc; simpl.
  - now apply post_ret.
  - eapply post_bind; [apply Hbody; exact Hacc | exact IH].
Qed.

Section Shapes.

Variable client : Client.t.
Variable clock : nat -> gostd.Time.

Ltac step := eapply post_bind; [apply post_any|]; intros ? _.

Lemma post_podNode workloadName acc pod :
  Forall podShape acc -> post (Forall podShape) (podNode clock workloadName acc pod).
Proof.
  intros H. unfold podNode.
  match goal with |- post _ (if ?c then _ else _) => destruct c end.
  - now apply post_ret.
  - step. apply post_ret. apply Forall_append; [exact H|]. repeat split.
Qed.

Lemma post_discoverPodsForWorkload namespace workloadName :
  post (fun r => Forall podShape r.1)
    (discoverPodsForWorkload client clock namespace workloadName).
Proof.
  unfold discoverPodsForWorkload. step. destruct a as [items|err].
  - eapply post_bind.
    + apply post_rangeM with (I := Forall podShape); [|constructor].
      intros. now apply post_podNode.
    + intros rs Hrs. now apply post_ret.
  - apply post_ret. constructor.
Qed.

Lemma post_statefulSetNode namespace opts acc sts :
  Forall (statefulSetShape opts) acc ->
  post (Forall (statefulSetShape opts))
    (statefulSetNode client clock namespace opts acc sts).
Proof.
  intros H. unfold statefulSetNode. step.
  eapply post_bind with
    (P := fun pods => Forall podShape pods /\ (IncludePods opts = false -> pods = [])).
  - destruct (IncludePods opts).
    + eapply post_bind; [apply post_discoverPodsForWorkload|].
      intros [pods ws] Hp. apply post_ret. split; [exact Hp | discriminate].
    + apply post_ret. split; [constructor | reflexivity].
  - intros pods [Hp He]. apply post_ret. apply Forall_append; [exact H|].
    repeat split; assumption.
Qed.

Lemma post_discoverStatefulSets namespace labelSelector opts :
  post (fun r => Forall (statefulSetShape opts) r.1 /\ Forall listFailedWarning r.2)
    (discoverStatefulSets client clock namespace labelSelector opts).
Proof.
  unfold discoverStatefulSets. step. destruct a as [items|err].
  - eapply post_bind.
    + apply post_rangeM with (I := Forall (statefulSetShape opts)); [|constructor].
      intros. now apply post_statefulSetNode.
    + intros rs Hrs. apply post_ret. split; [exact Hrs | constructor].
  - apply post_ret. split; [constructor|].
    apply Forall_append; [constructor|]. split; [reflexivity | simpl; tauto].
Qed.

Lemma post_discoverDaemonSets namespace labelSelector opts :
  post (fun r => Forall (leafShape [ResourceKinds.DaemonSet] ComponentFuse) r.1 /\
                 Forall listFailedWarning r.2)
    (discoverDaemonSets client clock namespace labelSelector opts).
Proof.
  unfold discoverDaemonSets. step. destruct a as [items|err].
  - eapply post_bind.
    + apply post_rangeM
        with (I := Forall (leafShape [ResourceKinds.DaemonSet] ComponentFuse));
        [|constructor].
      intros acc ds Hacc. unfold daemonSetNode. step. apply post_ret.
      apply Forall_append; [exact Hacc|]. repeat split. simpl. tauto.
    + intros rs Hrs. apply post_ret. split; [exact Hrs | constructor].
  - apply post_ret. split; [constructor|].
    apply Forall_append; [constructor|]. split; [reflexivity | simpl; tauto].
Qed.

Lemma post_discoverStorage namespace labelSelector :
  post (fun r => Forall (leafShape [ResourceKinds.PersistentVolumeClaim;
                                    ResourceKinds.PersistentVolume]
                           ComponentStorage) r.1 /\
                 Forall listFailedWarning r.2)
    (discoverStorage client clock namespace labelSelector).
Proof.
  unfold discoverStorage. step. destruct a as [items|err].
  - eapply post_bind.
    + apply post_rangeM
        with (I := Forall (leafShape [ResourceKinds.PersistentVolumeClaim;
                                      ResourceKinds.PersistentVolume]
                             ComponentStorage));
        [|constructor].
      intros acc pvc Hacc. unfold storageNodes. step.
      assert (Hclaim : forall n,
                 K8sResourceNode.Kind n = ResourceKinds.PersistentVolumeClaim ->
                 K8sResourceNode.Component n = ComponentStorage ->
                 K8sResourceNode.Children n = [] ->
                 Forall (leafShape [ResourceKinds.PersistentVolumeClaim;
                                    ResourceKinds.PersistentVolume]
                           ComponentStorage) (append acc n)).
      { intros n Hk Hc Hch. apply Forall_append; [exact Hacc|].
        repeat split; [rewrite Hk; simpl; tauto | exact Hc | exact Hch]. }
      destruct (negb _).
      * step. destruct a0 as [pv|err].
        -- step. apply post_ret. apply Forall_append; [now apply Hclaim|].
           repeat split. simpl. tauto.
        -- apply post_ret. now apply Hclaim.
      * apply post_ret. now apply Hclaim.
    + intros rs Hrs. apply post_ret. split; [exact Hrs | constructor].
  - apply post_ret. split; [constructor|].
    apply Forall_append; [constructor|]. split; [reflexivity | simpl; tauto].
Qed.

Lemma post_discoverConfigs namespace labelSelector :
  post (fun r => Forall (leafShape [ResourceKinds.ConfigMap; ResourceKinds.Secret]
                           ComponentConfig) r.1 /\
                 Forall listFailedWarning r.2)
    (discoverConfigs client clock namespace labelSelector).
Proof.
  set (Q := fun r : list K8sResourceNode.t * list MappingWarning.t =>
              Forall (leafShape [ResourceKinds.ConfigMap; ResourceKinds.Secret]
                        ComponentConfig) r.1 /\
              Forall listFailedWarning r.2).
  unfold discoverConfigs. step.
  eapply post_bind with (P := Q).
  - destruct a as [items|err].
    + eapply post_bind.
      * apply post_rangeM
          with (I := Forall (leafShape [ResourceKinds.ConfigMap; ResourceKinds.Secret]
                               ComponentConfig)); [|constructor].
        intros acc cm Hacc. unfold configMapNode. step. apply post_ret.
        apply Forall_append; [exact Hacc|]. repeat split. simpl. tauto.
      * intros rs Hrs. apply post_ret. split; [exact Hrs | constructor].
    + apply post_ret. split; [constructor|].
      apply Forall_append; [constructor|]. split; [reflexivity | simpl; tauto].
  - intros [rs ws] [Hrs Hws]. simpl in Hrs, Hws. step.
    destruct a0 as [items|err].
    + eapply post_bind.
      * apply post_rangeM
          with (I := Forall (leafShape [ResourceKinds.ConfigMap; ResourceKinds.Secret]
                               ComponentConfig)); [|exact Hrs].
        intros acc secret Hacc. unfold secretNode. step. apply post_ret.
        apply Forall_append; [exact Hacc|]. repeat split. simpl. tauto.
      * intros rs' Hrs'. apply post_ret. split; [exact Hrs' | exact Hws].
    + apply post_ret. split; [exact Hrs|].
      apply Forall_append; [exact Hws|]. split; [reflexivity | simpl; tauto].
Qed.

Lemma post_discoverResources name namespace runtime opts :
  post (fun r => segmented opts r.1 /\ Forall listFailedWarning r.2)
    (discoverResources client clock name namespace runtime opts).
Proof.
  unfold discoverResources.
  eapply post_bind; [apply post_discoverStatefulSets|].
  intros [sts stsw] [Hsts Hstsw]. simpl in Hsts, Hstsw.
  eapply post_bind; [apply post_discoverDaemonSets|].
  intros [ds dsw] [Hds Hdsw]. simpl in Hds, Hdsw.
  eapply post_bind with
    (P := fun r => (exists storage,
                      r.1 = (sts ++ ds ++ storage)%list /\
                      Forall (leafShape [ResourceKinds.PersistentVolumeClaim;
                                         ResourceKinds.PersistentVolume]
                                ComponentStorage) storage /\
                      (IncludeStorage opts = false -> storage = [])) /\
                   Forall listFailedWarning r.2).
  { destruct (IncludeStorage opts).
    - eapply post_bind; [apply post_discoverStorage|].
      intros [st stw] [Hst Hstw]. simpl in Hst, Hstw. apply post_ret. split.
      + exists st. simpl. rewrite <- app_assoc. repeat split; [exact Hst | discriminate].
      + simpl. repeat (apply Forall_app; split); assumption.
    - apply post_ret. split.
      + exists []. simpl. rewrite app_nil_r. repeat split. constructor.
      + simpl. apply Forall_app; split; assumption. }
  intros [rs ws] [(st & Hrs & Hst & Hnost) Hws]. simpl in Hrs, Hws. subst rs.
  eapply post_bind with
    (P := fun r => segmented opts r.1 /\ Forall listFailedWarning r.2).
  { destruct (IncludeConfigs opts) eqn:Hconfigs.
    - eapply post_bind; [apply post_discoverConfigs|].
      intros [cf cfw] [Hcf Hcfw]. simpl in Hcf, Hcfw. apply post_ret. split.
      + exists sts, ds, st, cf. simpl. rewrite <- !app_assoc.
        repeat split; try assumption. congruence.
      + simpl. apply Forall_app; split; assumption.
    - apply post_ret. split; [|exact Hws].
      exists sts, ds, st, []. simpl. rewrite app_nil_r.
      repeat split; try assumption. constructor. }
  intros [rs ws'] H. now apply post_ret.
Qed.

End Shapes.

Lemma IsHealthy_range_app (ws1 ws2 : list MappingWarning.t) :
  IsHealthy_range (ws1 ++ ws2)%list = IsHealthy_range ws1 && IsHealthy_range ws2.
Proof.
  induction ws1 as [|w ws1 IH]; simpl; [reflexivity|].
  destruct (String.eqb _ _); [reflexivity | exact IH].
Qed.

Lemma IsHealthy_range_warnings (ws : list MappingWarning.t) :
  Forall (fun w => MappingWarning.Level w = WarningLevelWarning) ws ->
  IsHealthy_range ws = true.
Proof.
  intros H. apply IsHealthy_range_Forall.
  eapply List.Forall_impl; [|exact H]. intros w Hw. rewrite Hw. discriminate.
Qed.

Lemma IsHealthy_range_detectWarnings_unhealthy (rs : list K8sResourceNode.t) :
  forall ws, IsHealthy_range (detectWarnings_unhealthy ws rs) = IsHealthy_range ws.
Proof.
  induction rs as [|r rs IH]; intros ws; simpl; [reflexivity|].
  destruct (_ || _); [|apply IH].
  rewrite IH. unfold append. rewrite IsHealthy_range_app. simpl. apply andb_true_r.
Qed.

(** The Warning Detector finds an error exactly when a runtime was
    resolved and no top-level resource is a master, or none is a worker. *)
Lemma IsHealthy_range_detectWarnings (graph : ResourceGraph.t)
  (runtime : option RuntimeNode.t) :
  IsHealthy_range (detectWarnings graph runtime) = false <->
  runtime <> None /\
  (GetResourcesByComponent graph ComponentMaster = [] \/
   GetResourcesByComponent graph ComponentWorker = []).
Proof.
  unfold detectWarnings. rewrite IsHealthy_range_detectWarnings_unhealthy.
  destruct runtime as [rt|];
    destruct (GetResourcesByComponent graph ComponentMaster);
    destruct (GetResourcesByComponent graph ComponentWorker);
    destruct (GetResourcesByComponent graph ComponentFuse);
    simpl; split; try discriminate; try reflexivity;
    try (intros _; split; [discriminate | tauto]);
    try (intros [H1 [H2|H2]]; congruence).
Qed.

Section Outcome.

Variable client : Client.t.
Variable clock : nat -> gostd.Time.

(** The two outcomes of a run: the Dataset is not fetched and the graph
    holds the one warning; or it is fetched, and the graph holds what
    discovery and the Warning Detector return. *)
Lemma MapFromDataset_outcome (name namespace : string) (opts : Options) (w : World) :
  let g := (MapFromDataset client clock name namespace opts w).1.1 in
  (exists err,
      Client.GetDataset client (calls w ++ [Call.GetClusterName])%list name namespace
      = Err err /\
      ResourceGraph.Runtime g = None /\
      ResourceGraph.Resources g = [] /\
      ResourceGraph.Warnings g =
      [MappingWarning.mk WarningLevelError WarningCodes.DatasetNotFound
         ("Failed to get Dataset " ++ namespace ++ "/" ++ name ++ ": " ++ err)
         name "Verify the Dataset name and namespace are correct"]) \/
  (exists obj w1 pre,
      Client.GetDataset client (calls w ++ [Call.GetClusterName])%list name namespace
      = Ok obj /\
      ResourceGraph.Dataset g = parseDataset obj /\
      ResourceGraph.Resources g =
      (discoverResources client clock name namespace (ResourceGraph.Runtime g) opts w1).1.1 /\
      ResourceGraph.Warnings g =
      (pre
       ++ (discoverResources client clock name namespace
             (ResourceGraph.Runtime g) opts w1).1.2
       ++ detectWarnings g (ResourceGraph.Runtime g))%list /\
      Forall (fun x => MappingWarning.Level x = WarningLevelWarning /\
                       MappingWarning.Code x = WarningCodes.RuntimeNotBound) pre).
Proof.
  unfold MapFromDataset, resolveDataset, bind, Now, request, append. simpl.
  destruct (Client.GetDataset client _ name namespace) as [obj|err]; simpl.
  - right. destruct (resolveRuntime _ _ _) as [r w1]. exists obj, w1.
    destruct r as [rt|e]; simpl;
      destruct (discoverResources _ _ _ _ _ _ _) as [[res ws] w2]; simpl.
    + exists []. repeat split. constructor.
    + eexists [_]. split; [reflexivity|].
      split; [reflexivity|]. split; [reflexivity|]. split; [reflexivity|].
      constructor; [split; reflexivity | constructor].
  - left. exists err. repeat split.
Qed.

Lemma MapFromDataset_segmented (name namespace : string) (opts : Options) (w : World) :
  segmented opts
    (ResourceGraph.Resources (MapFromDataset client clock name namespace opts w).1.1).
Proof.
  destruct (MapFromDataset_outcome name namespace opts w)
    as [(err & _ & _ & Hrs & _) | (obj & w1 & pre & _ & _ & Hrs & _)];
    rewrite Hrs.
  - exists [], [], [], []. repeat split; constructor.
  - apply (post_discoverResources client clock name namespace _ opts w1).
Qed.

(** X6. The graph of a run is unhealthy exactly when the Dataset could
    not be fetched, or a runtime was resolved and the top-level resources
    hold no master or no worker. In particular a graph without runtime
    whose Dataset was fetched is always healthy. *)
Theorem MapFromDataset_unhealthy_iff (name namespace : string) (opts : Options)
  (w : World) :
  let g := (MapFromDataset client clock name namespace opts w).1.1 in
  IsHealthy g = false <->
  (exists err,
      Client.GetDataset client (calls w ++ [Call.GetClusterName])%list name namespace
      = Err err) \/
  (ResourceGraph.Runtime g <> None /\
   (GetResourcesByComponent g ComponentMaster = [] \/
    GetResourcesByComponent g ComponentWorker = [])).
Proof.
  intros g. unfold IsHealthy.
  destruct (MapFromDataset_outcome name namespace opts w)
    as [(err & Hget & Hrt & Hrs & Hws) | (obj & w1 & pre & Hget & _ & Hrs & Hws & Hpre)];
    fold g in Hrs, Hws |- *; rewrite Hws.
  - split; [intros _; left; now exists err | reflexivity].
  - rewrite !IsHealthy_range_app.
    rewrite (IsHealthy_range_warnings pre)
      by (eapply List.Forall_impl; [|exact Hpre]; intros x Hx; apply Hx).
    rewrite IsHealthy_range_warnings.
    2:{ destruct (post_discoverResources client clock name namespace
                    (ResourceGraph.Runtime g) opts w1) as [_ H].
        eapply List.Forall_impl; [|exact H]. intros x Hx. apply Hx. }
    simpl. rewrite IsHealthy_range_detectWarnings. split.
    + intros H. right. exact H.
    + intros [[err Herr] | H]; [congruence | exact H].
Qed.

(** X4. Every warning of a graph has one of eleven pairs of code and
    level: DATASET_NOT_FOUND (error), RUNTIME_NOT_BOUND (warning), the five
    list failures (warning), MASTER_MISSING and WORKER_MISSING (error),
    FUSE_MISSING and PODS_NOT_READY (warning), the last four being all the
    Warning Detector adds. No other declared code, such as PV_NOT_BOUND,
    PVC_MISSING, RUNTIME_NOT_FOUND, UNKNOWN_RUNTIME_TYPE or
    ORPHANED_RESOURCE, is ever emitted, and no warning has level info. *)
Theorem MapFromDataset_warning_codes (name namespace : string) (opts : Options)
  (w : World) :
  Forall (fun x => In (MappingWarning.Code x, MappingWarning.Level x) mappedWarnings)
    (ResourceGraph.Warnings (MapFromDataset client clock name namespace opts w).1.1) /\
  (forall graph runtime,
      Forall (fun x => In (MappingWarning.Code x, MappingWarning.Level x)
                         detectedWarnings)
        (detectWarnings graph runtime)).
Proof.
  split; [|exact detectWarnings_detected].
  destruct (MapFromDataset_outcome name namespace opts w)
    as [(err & _ & _ & _ & Hws) | (obj & w1 & pre & _ & _ & _ & Hws & Hpre)];
    rewrite Hws.
  - constructor; [simpl; tauto | constructor].
  - repeat (apply Forall_app; split).
    + eapply List.Forall_impl; [|exact Hpre]. intros x [Hl Hc]. rewrite Hl, Hc.
      simpl. tauto.
    + destruct (post_discoverResources client clock name namespace
                  (ResourceGraph.Runtime
                     (MapFromDataset client clock name namespace opts w).1.1)
                  opts w1) as [_ H].
      eapply List.Forall_impl; [|exact H]. intros x [Hl Hc]. rewrite Hl.
      unfold mappedWarnings. apply in_app_iff. right. apply in_app_iff. left.
      apply in_map_iff. exists (MappingWarning.Code x). split; [reflexivity | exact Hc].
    + eapply List.Forall_impl; [|apply detectWarnings_detected]. intros x Hx.
      unfold mappedWarnings. apply in_app_iff. right. apply in_app_iff. right. exact Hx.
Qed.

(** X7. The top-level resources of a graph come in the order of
    discovery: the StatefulSet nodes, then the DaemonSet nodes, which all
    have the fuse component whatever their role label, then the claims and
    volumes with the storage component, then the ConfigMaps and Secrets
    with the config component; the storage segment is empty without
    [IncludeStorage] and the configuration segment without
    [IncludeConfigs]. *)
Theorem MapFromDataset_resource_order (name namespace : string) (opts : Options)
  (w : World) :
  exists sts ds storage configs : list K8sResourceNode.t,
    ResourceGraph.Resources (MapFromDataset client clock name namespace opts w).1.1
    = (sts ++ ds ++ storage ++ configs)%list /\
    Forall (fun n => K8sResourceNode.Kind n = "StatefulSet") sts /\
    Forall (fun n => K8sResourceNode.Kind n = "DaemonSet" /\
                     K8sResourceNode.Component n = ComponentFuse) ds /\
    Forall (fun n => (K8sResourceNode.Kind n = "PersistentVolumeClaim" \/
                      K8sResourceNode.Kind n = "PersistentVolume") /\
                     K8sResourceNode.Component n = ComponentStorage) storage /\
    Forall (fun n => (K8sResourceNode.Kind n = "ConfigMap" \/
                      K8sResourceNode.Kind n = "Secret") /\
                     K8sResourceNode.Component n = ComponentConfig) configs /\
    (IncludeStorage opts = false -> storage = []) /\
    (IncludeConfigs opts = false -> configs = []).
Proof.
  destruct (MapFromDataset_segmented name namespace opts w)
    as (sts & ds & st & cf & Hrs & Hsts & Hds & Hst & Hcf & Hnost & Hnocf).
  exists sts, ds, st, cf. split; [exact Hrs|].
  split; [eapply List.Forall_impl; [|exact Hsts]; intros n Hn; apply Hn|].
  split; [eapply List.Forall_impl; [|exact Hds]; intros n ([Hk|[]] & Hc & _); auto|].
  split; [eapply List.Forall_impl; [|exact Hst]; intros n ([Hk|[Hk|[]]] & Hc & _); auto|].
  split; [eapply List.Forall_impl; [|exact Hcf]; intros n ([Hk|[Hk|[]]] & Hc & _); auto|].
  split; assumption.
Qed.

Lemma GetResourcesByKind_range_none (kind : string) (rs : list K8sResourceNode.t) :
  Forall (fun n => K8sResourceNode.Kind n <> kind) rs ->
  GetResourcesByKind_range rs kind = [].
Proof.
  induction 1 as [|n rs Hn _ IH]; simpl; [reflexivity|].
  destruct (String.eqb_spec (K8sResourceNode.Kind n) kind); [contradiction | exact IH].
Qed.

(** X8. The graph is a tree of depth two at most: pod nodes are never
    top-level resources, so [GetResourcesByKind] finds none; the children
    of a top-level node are pod nodes without owner and without children
    of their own; and only a StatefulSet node has children, and only with
    [IncludePods]: the pods of a DaemonSet are never attached. *)
Theorem MapFromDataset_tree_shape (name namespace : string) (opts : Options)
  (w : World) :
  let g := (MapFromDataset client clock name namespace opts w).1.1 in
  GetResourcesByKind g "Pod" = [] /\
  Forall (fun n =>
            Forall podShape (K8sResourceNode.Children n) /\
            (K8sResourceNode.Kind n <> "StatefulSet" -> K8sResourceNode.Children n = []) /\
            (IncludePods opts = false -> K8sResourceNode.Children n = []))
    (ResourceGraph.Resources g).
Proof.
  intros g. unfold GetResourcesByKind.
  destruct (MapFromDataset_segmented name namespace opts w)
    as (sts & ds & st & cf & Hrs & Hsts & Hds & Hst & Hcf & _).
  fold g in Hrs. rewrite Hrs.
  assert (Hleaf : forall kinds c n, leafShape kinds c n ->
            ~ In "Pod" kinds -> ~ In "StatefulSet" kinds ->
            K8sResourceNode.Kind n <> "Pod" /\
            Forall podShape (K8sResourceNode.Children n) /\
            (K8sResourceNode.Kind n <> "StatefulSet" -> K8sResourceNode.Children n = []) /\
            (IncludePods opts = false -> K8sResourceNode.Children n = [])).
  { intros kinds c n (Hk & _ & Hch) Hp Hs. rewrite Hch.
    split; [intros E; rewrite E in Hk; contradiction|].
    split; [constructor|]. split; reflexivity. }
  assert (Hall : Forall (fun n =>
            K8sResourceNode.Kind n <> "Pod" /\
            Forall podShape (K8sResourceNode.Children n) /\
            (K8sResourceNode.Kind n <> "StatefulSet" -> K8sResourceNode.Children n = []) /\
            (IncludePods opts = false -> K8sResourceNode.Children n = []))
          (sts ++ ds ++ st ++ cf)%list).
  { repeat (apply Forall_app; split).
    - eapply List.Forall_impl; [|exact Hsts]. intros n (Hk & Hch & Hno).
      split; [rewrite Hk; discriminate|]. split; [exact Hch|].
      split; [intros Hne; contradiction | exact Hno].
    - eapply List.Forall_impl; [|exact Hds]. intros n Hn.
      apply (Hleaf _ _ n Hn); simpl; intuition discriminate.
    - eapply List.Forall_impl; [|exact Hst]. intros n Hn.
      apply (Hleaf _ _ n Hn); simpl; intuition discriminate.
    - eapply List.Forall_impl; [|exact Hcf]. intros n Hn.
      apply (Hleaf _ _ n Hn); simpl; intuition discriminate. }
  split.
  - apply GetResourcesByKind_range_none.
    eapply List.Forall_impl; [|exact Hall]. intros n Hn. apply Hn.
  - eapply List.Forall_impl; [|exact Hall]. intros n Hn. apply Hn.
Qed.

End Outcome.

(* ===================================================================== *)
(** ** Further properties: the resources that are not ready               *)
(* ===================================================================== *)

Lemma detectWarnings_unhealthy_split (rs : list K8sResourceNode.t) :
  forall ws,
  exists reported,
    detectWarnings_unhealthy ws rs = (ws ++ reported)%list /\
    Forall (fun x => MappingWarning.Code x = WarningCodes.PodsNotReady /\
                     MappingWarning.Level x = WarningLevelWarning) reported /\
    List.map MappingWarning.Resource reported =
    List.map K8sResourceNode.Name (List.filter unhealthy rs).
Proof.
  induction rs as [|r rs IH]; intros ws; simpl.
  - exists []. rewrite app_nil_r. repeat split. constructor.
  - unfold unhealthy at 1. cbv zeta.
    destruct (_ || _).
    + destruct (IH (append ws
                  (MappingWarning.mk WarningLevelWarning WarningCodes.PodsNotReady
                     (K8sResourceNode.Kind r ++ " " ++ K8sResourceNode.Name r
                      ++ " is not ready ("
                      ++ ResourceStatus.Ready (K8sResourceNode.Status r) ++ ")")
                     (K8sResourceNode.Name r) "")))
        as (reported & E & Hall & Hnames).
      eexists (_ :: reported). rewrite E. unfold append. rewrite <- app_assoc.
      split; [reflexivity|]. split.
      * constructor; [split; reflexivity | exact Hall].
      * cbn [List.map MappingWarning.Resource]. now rewrite Hnames.
    + apply IH.
Qed.

(** X10. The warnings of the Warning Detector are the missing-component
    warnings followed by one PODS_NOT_READY warning for each top-level
    resource whose phase is NotReady or Failed, in the order of the
    resources and naming the resource; whatever its kind: the code is
    also given to a DaemonSet or a volume. *)
Theorem detectWarnings_not_ready (graph : ResourceGraph.t)
  (runtime : option RuntimeNode.t) :
  exists missing reported,
    detectWarnings graph runtime = (missing ++ reported)%list /\
    hasCode WarningCodes.PodsNotReady missing = false /\
    Forall (fun x => MappingWarning.Code x = WarningCodes.PodsNotReady /\
                     MappingWarning.Level x = WarningLevelWarning) reported /\
    List.map MappingWarning.Resource reported =
    List.map K8sResourceNode.Name
      (List.filter unhealthy (ResourceGraph.Resources graph)).
Proof.
  unfold detectWarnings. cbv zeta.
  match goal with
  | |- context [detectWarnings_unhealthy ?ws _] =>
      destruct (detectWarnings_unhealthy_split (ResourceGraph.Resources graph) ws)
        as (reported & E & Hall & Hnames);
      exists ws, reported; rewrite E
  end.
  split; [reflexivity|]. split; [|split; assumption].
  destruct (_ && _), (_ && _), (_ && _); reflexivity.
Qed.

(* ===================================================================== *)
(** ** Further properties: the command line                               *)
(* ===================================================================== *)

Lemma substring_0_length (n : nat) : forall s : string,
  (n <= String.length s)%nat -> String.length (String.substring 0 n s) = n.
Proof.
  induction n as [|n IH]; intros s H.
  - destruct s; reflexivity.
  - destruct s as [|c s]; simpl in H; [lia|].
    simpl. rewrite IH; [reflexivity | lia].
Qed.

(** X11. [truncate] returns a string of at most [max] bytes whenever it
    returns: [s] itself when it fits, else the first [max-2] bytes of [s]
    followed by two dots, which makes [max] bytes. It panics exactly when
    [s] is longer than [max] and [max] is below 2. *)
Theorem truncate_bounds (s : string) (max : Z) :
  match cli.truncate s max with
  | Some r =>
      Z.of_nat (gostd.len r) <= max /\
      (Z.of_nat (gostd.len s) <= max /\ r = s \/
       max < Z.of_nat (gostd.len s) /\ Z.of_nat (gostd.len r) = max /\
       exists head rest, r = head ++ ".." /\ s = head ++ rest)
  | None => max < Z.of_nat (gostd.len s) /\ max < 2
  end.
Proof.
  unfold cli.truncate, gostd.len, gostd.slice.
  destruct (Z.leb_spec (Z.of_nat (String.length s)) max) as [Hfit|Hlong].
  - split; [exact Hfit | left; split; [exact Hfit | reflexivity]].
  - destruct (Z.ltb_spec (max - 2) 0) as [Hneg|Hpos]; [lia|].
    rewrite Nat.sub_0_r.
    assert (Hlen : String.length (String.substring 0 (Z.to_nat (max - 2)) s)
                   = Z.to_nat (max - 2)) by (apply substring_0_length; lia).
    assert (Hall : Z.of_nat (String.length
                     (String.substring 0 (Z.to_nat (max - 2)) s ++ "..")) = max).
    { rewrite length_append, Hlen. simpl. lia. }
    split; [lia|]. right. split; [exact Hlong|]. split; [exact Hall|].
    destruct (substring_0_split _ s _ eq_refl Hlen) as [rest Hrest].
    eexists _, rest. split; [reflexivity | exact Hrest].
Qed.

Lemma reorderArgs_loop_acc (n : nat) : forall args flags positional : list string,
  (length args <= n)%nat ->
  cli.reorderArgs_loop args flags positional =
  ((flags ++ (cli.reorderArgs_loop args [] []).1)%list,
   (positional ++ (cli.reorderArgs_loop args [] []).2)%list).
Proof.
  induction n as [|n IH]; intros args F P Hn.
  - destruct args; [|simpl in Hn; lia]. simpl. now rewrite !app_nil_r.
  - destruct args as [|a rest]; [simpl; now rewrite !app_nil_r|].
    simpl in Hn. cbn [cli.reorderArgs_loop].
    destruct (gostd.HasPrefix a "-").
    + destruct rest as [|next rest']; [simpl; unfold append; now rewrite app_nil_r|].
      simpl in Hn.
      destruct (negb (gostd.Contains a "=") && negb (gostd.HasPrefix next "-"));
        [destruct (_ && _ && _ && _)|].
      * rewrite (IH rest' (append (append F a) next) P) by lia.
        rewrite (IH rest' (append (append [] a) next) []) by lia.
        unfold append. cbn [fst snd]. now rewrite <- !app_assoc.
      * rewrite (IH (next :: rest') (append F a) P) by (simpl; lia).
        rewrite (IH (next :: rest') (append [] a) []) by (simpl; lia).
        unfold append. cbn [fst snd]. now rewrite <- !app_assoc.
      * rewrite (IH (next :: rest') (append F a) P) by (simpl; lia).
        rewrite (IH (next :: rest') (append [] a) []) by (simpl; lia).
        unfold append. cbn [fst snd]. now rewrite <- !app_assoc.
    + rewrite (IH rest F (append P a)) by lia.
      rewrite (IH rest [] (append [] a)) by lia.
      unfold append. cbn [fst snd]. now rewrite <- !app_assoc.
Qed.

(** One turn of the loop of [reorderArgs], from empty slices. *)
Lemma reorderArgs_loop_cons (a : string) (rest : list string) :
  cli.reorderArgs_loop (a :: rest) [] [] =
  if gostd.HasPrefix a "-" then
    match rest with
    | next :: rest' =>
        if negb (gostd.Contains a "=") && negb (gostd.HasPrefix next "-") then
          if negb (String.eqb (gostd.TrimLeft a "-") "mock")
             && negb (String.eqb (gostd.TrimLeft a "-") "pods")
             && negb (String.eqb (gostd.TrimLeft a "-") "help")
             && negb (String.eqb (gostd.TrimLeft a "-") "version")
          then (a :: next :: (cli.reorderArgs_loop rest' [] []).1,
                (cli.reorderArgs_loop rest' [] []).2)
          else (a :: (cli.reorderArgs_loop rest [] []).1,
                (cli.reorderArgs_loop rest [] []).2)
        else (a :: (cli.reorderArgs_loop rest [] []).1,
              (cli.reorderArgs_loop rest [] []).2)
    | [] => ([a], [])
    end
  else ((cli.reorderArgs_loop rest [] []).1, a :: (cli.reorderArgs_loop rest [] []).2).
Proof.
  cbn [cli.reorderArgs_loop].
  destruct (gostd.HasPrefix a "-").
  - destruct rest as [|next rest']; [reflexivity|].
    destruct (negb (gostd.Contains a "=") && negb (gostd.HasPrefix next "-"));
      [destruct (_ && _ && _ && _)|].
    + now rewrite (reorderArgs_loop_acc (length rest') rest').
    + now rewrite (reorderArgs_loop_acc (length (next :: rest')) (next :: rest')).
    + now rewrite (reorderArgs_loop_acc (length (next :: rest')) (next :: rest')).
  - now rewrite (reorderArgs_loop_acc (length rest) rest).
Qed.

Lemma reorderArgs_loop_segments (n : nat) : forall args : list string,
  (length args <= n)%nat ->
  let flags := (cli.reorderArgs_loop args [] []).1 in
  let positional := (cli.reorderArgs_loop args [] []).2 in
  Permutation args (flags ++ positional) /\
  sublist flags args /\ sublist positional args /\
  Forall (fun a => gostd.HasPrefix a "-" = false) positional /\
  (forall a, In a args -> gostd.HasPrefix a "-" = true -> In a flags).
Proof.
  induction n as [|n IH]; intros args Hn.
  - destruct args; [|simpl in Hn; lia]. simpl.
    repeat split; try constructor. intros a [].
  - destruct args as [|a rest].
    { simpl. repeat split; try constructor. intros a []. }
    simpl in Hn. rewrite reorderArgs_loop_cons.
    destruct (gostd.HasPrefix a "-") eqn:Ha.
    + assert (Hkeep :
        let flags := a :: (cli.reorderArgs_loop rest [] []).1 in
        let positional := (cli.reorderArgs_loop rest [] []).2 in
        Permutation (a :: rest) (flags ++ positional) /\
        sublist flags (a :: rest) /\ sublist positional (a :: rest) /\
        Forall (fun a => gostd.HasPrefix a "-" = false) positional /\
        (forall b, In b (a :: rest) -> gostd.HasPrefix b "-" = true -> In b flags)).
      { destruct (IH rest ltac:(lia)) as (Hp & Hf & Hs & Hn' & Hd). cbv zeta.
        split; [simpl; now constructor|].
        split; [now constructor|]. split; [now constructor|].
        split; [exact Hn'|].
        intros b [<-|Hb] Hdash; [now left | right; now apply Hd]. }
      destruct rest as [|next rest']; [exact Hkeep|].
      destruct (negb (gostd.Contains a "=") && negb (gostd.HasPrefix next "-")) eqn:Hc;
        [destruct (_ && _ && _ && _)|]; [|exact Hkeep|exact Hkeep].
      simpl in Hn. destruct (IH rest' ltac:(lia)) as (Hp & Hf & Hs & Hn' & Hd).
      apply andb_true_iff in Hc as [_ Hnext]. apply negb_true_iff in Hnext.
      cbv zeta. cbn [fst snd].
      split; [simpl; now do 2 constructor|].
      split; [now do 2 constructor|]. split; [now do 2 constructor|].
      split; [exact Hn'|].
      intros b [<-|[<-|Hb]] Hdash; [now left | congruence | right; right; now apply Hd].
    + destruct (IH rest ltac:(lia)) as (Hp & Hf & Hs & Hn' & Hd).
      cbv zeta. cbn [fst snd].
      split; [now apply Permutation_cons_app|].
      split; [now constructor|]. split; [now constructor|].
      split; [now constructor|].
      intros b [<-|Hb] Hdash; [congruence | now apply Hd].
Qed.

(** X12. [reorderArgs] returns its arguments in another order, none lost
    and none added: first the flags with the values they take, then the
    positional arguments, each of the two in the order of the input.
    Every argument that starts with a dash is among the flags and no
    positional argument starts with one. *)
Theorem reorderArgs_segments (args : list string) :
  exists flags positional : list string,
    cli.reorderArgs args = (flags ++ positional)%list /\
    Permutation args (flags ++ positional) /\
    sublist flags args /\ sublist positional args /\
    Forall (fun a => gostd.HasPrefix a "-" = false) positional /\
    (forall a, In a args -> gostd.HasPrefix a "-" = true -> In a flags).
Proof.
  exists (cli.reorderArgs_loop args [] []).1, (cli.reorderArgs_loop args [] []).2.
  split.
  - unfold cli.reorderArgs. now destruct (cli.reorderArgs_loop args [] []).
  - exact (reorderArgs_loop_segments (length args) args (le_n _)).
Qed.

Lemma reorderArgs_loop_positional (positional : list string) :
  Forall (fun a => gostd.HasPrefix a "-" = false) positional ->
  cli.reorderArgs_loop positional [] [] = ([], positional).
Proof.
  induction 1 as [|q rest Hq _ IH]; [reflexivity|].
  rewrite reorderArgs_loop_cons, Hq, IH. reflexivity.
Qed.

Lemma reorderArgs_loop_head (a : string) (rest : list string) :
  gostd.HasPrefix a "-" = true ->
  exists tail, (cli.reorderArgs_loop (a :: rest) [] []).1 = a :: tail.
Proof.
  intros Ha. rewrite reorderArgs_loop_cons, Ha.
  destruct rest; [eexists; reflexivity|].
  destruct (_ && _); [destruct (_ && _ && _ && _)|]; eexists; reflexivity.
Qed.

(** A flag that takes no value from the list after it stays where it is. *)
Lemma reorderArgs_loop_keep (a : string) (l : list string) :
  gostd.HasPrefix a "-" = true ->
  (forall head tl, l = head :: tl ->
     negb (gostd.Contains a "=") && negb (gostd.HasPrefix head "-")
     && (negb (String.eqb (gostd.TrimLeft a "-") "mock")
         && negb (String.eqb (gostd.TrimLeft a "-") "pods")
         && negb (String.eqb (gostd.TrimLeft a "-") "help")
         && negb (String.eqb (gostd.TrimLeft a "-") "version")) = false) ->
  ((cli.reorderArgs_loop l [] []).1 ++ (cli.reorderArgs_loop l [] []).2)%list = l ->
  ((cli.reorderArgs_loop (a :: l) [] []).1
   ++ (cli.reorderArgs_loop (a :: l) [] []).2)%list = a :: l.
Proof.
  intros Ha Hno Hl. rewrite reorderArgs_loop_cons, Ha.
  destruct l as [|head tl]; [reflexivity|].
  specialize (Hno head tl eq_refl).
  destruct (negb (gostd.Contains a "=") && negb (gostd.HasPrefix head "-"));
    [destruct (_ && _ && _ && _); [discriminate|]|];
    cbn [fst snd]; simpl; f_equal; exact Hl.
Qed.

Lemma reorderArgs_loop_stable (n : nat) : forall args positional : list string,
  (length args <= n)%nat ->
  Forall (fun a => gostd.HasPrefix a "-" = false) positional ->
  let flags := (cli.reorderArgs_loop args [] []).1 in
  ((cli.reorderArgs_loop (flags ++ positional) [] []).1
   ++ (cli.reorderArgs_loop (flags ++ positional) [] []).2)%list
  = (flags ++ positional)%list.
Proof.
  induction n as [|n IH]; intros args Q Hn HQ; cbv zeta.
  - destruct args; [|simpl in Hn; lia]. simpl.
    now rewrite reorderArgs_loop_positional.
  - destruct args as [|a rest].
    { simpl. now rewrite reorderArgs_loop_positional. }
    simpl in Hn. rewrite (reorderArgs_loop_cons a rest).
    destruct (gostd.HasPrefix a "-") eqn:Ha; [|cbn [fst]; apply IH; [lia | exact HQ]].
    destruct rest as [|next rest'].
    + cbn [fst app]. rewrite reorderArgs_loop_cons, Ha.
      destruct Q as [|q Q']; [reflexivity|].
      assert (HQ' : Forall (fun a => gostd.HasPrefix a "-" = false) Q')
        by (now inversion HQ).
      destruct (_ && _); [destruct (_ && _ && _ && _)|];
        rewrite ?(reorderArgs_loop_positional Q' HQ'),
                ?(reorderArgs_loop_positional (q :: Q') HQ); reflexivity.
    + simpl in Hn.
      destruct (negb (gostd.Contains a "=") && negb (gostd.HasPrefix next "-")) eqn:Hc1;
        [destruct (negb (String.eqb (gostd.TrimLeft a "-") "mock")
                   && negb (String.eqb (gostd.TrimLeft a "-") "pods")
                   && negb (String.eqb (gostd.TrimLeft a "-") "help")
                   && negb (String.eqb (gostd.TrimLeft a "-") "version")) eqn:Hc2|];
        cbn [fst].
      * cbn [app]. rewrite reorderArgs_loop_cons, Ha, Hc1, Hc2. cbn [fst snd app].
        do 2 f_equal. apply IH; [lia | exact HQ].
      * cbn [app]. apply reorderArgs_loop_keep; [exact Ha | |apply IH; [simpl; lia | exact HQ]].
        intros head tl _. rewrite Hc2. apply andb_false_r.
      * cbn [app]. apply reorderArgs_loop_keep; [exact Ha | |apply IH; [simpl; lia | exact HQ]].
        intros head tl E.
        destruct (gostd.Contains a "="); [reflexivity|].
        simpl in Hc1. apply negb_false_iff in Hc1.
        destruct (reorderArgs_loop_head next rest' Hc1) as [tail Htail].
        rewrite Htail in E. injection E as <- _. now rewrite Hc1.
Qed.

(** X13. [reorderArgs] leaves its own result unchanged: arguments that
    are already in order stay in order. *)
Theorem reorderArgs_idempotent (args : list string) :
  cli.reorderArgs (cli.reorderArgs args) = cli.reorderArgs args.
Proof.
  destruct (reorderArgs_loop_segments (length args) args (le_n _))
    as (_ & _ & _ & Hpos & _).
  pose proof (reorderArgs_loop_stable (length args) args _ (le_n _) Hpos) as H.
  cbv zeta in H. unfold cli.reorderArgs at 2 3.
  destruct (cli.reorderArgs_loop args [] []) as [flags positional].
  cbn [fst snd] in H. unfold cli.reorderArgs.
  destruct (cli.reorderArgs_loop (flags ++ positional) [] []). exact H.
Qed.

(* ===================================================================== *)
(** ** Further properties: the pods of a workload                         *)
(* ===================================================================== *)

Lemma rangeM_filter {A N B : Type} (body : list N -> A -> M (list N))
  (p : A -> bool) (f : N -> B) (g : A -> B) :
  (forall acc x w,
      if p x then exists node, (body acc x w).1 = append acc node /\ f node = g x
      else (body acc x w).1 = acc) ->
  forall items acc w,
    List.map f (rangeM body acc items w).1 =
    (List.map f acc ++ List.map g (List.filter p items))%list.
Proof.
  intros Hbody items. induction items as [|x items IH]; intros acc w; simpl.
  - now rewrite app_nil_r.
  - unfold bind. pose proof (Hbody acc x w) as Hx.
    destruct (body acc x w) as [acc' w']. simpl in Hx.
    rewrite IH. destruct (p x).
    + destruct Hx as (node & -> & Hf). unfold append.
      rewrite map_app. simpl. now rewrite Hf, <- app_assoc.
    + now subst acc'.
Qed.

Lemma ownerNamed_In (refs : list OwnerReference.t) (workloadName : string) :
  ownerNamed refs workloadName = true <->
  exists ref, In ref refs /\ OwnerReference.Name ref = workloadName.
Proof.
  induction refs as [|r refs IH]; simpl.
  - split; [discriminate | intros (ref & [] & _)].
  - destruct (String.eqb_spec (OwnerReference.Name r) workloadName) as [E|E].
    + split; [intros _; exists r; split; [now left | exact E] | reflexivity].
    + rewrite IH. split.
      * intros (ref & Hin & Hn). exists ref. split; [now right | exact Hn].
      * intros (ref & [<-|Hin] & Hn); [contradiction | exists ref; now split].
Qed.

Lemma attributed_claimed (workloadName : string) (pod : Pod.t) :
  attributed workloadName pod = true <-> claimed workloadName pod.
Proof.
  unfold attributed, claimed, gostd.slice, gostd.len. cbv zeta.
  rewrite orb_true_iff, ownerNamed_In, andb_true_iff, Nat.sub_0_r.
  apply or_iff_compat_l. split.
  - intros [Hlt Heq]. apply Nat.ltb_lt in Hlt. apply String.eqb_eq in Heq.
    destruct (substring_0_split _ _ _ Heq eq_refl) as [post Hpost].
    exists post. split; [|exact Hpost].
    intros ->. rewrite Hpost, append_empty_r in Hlt. lia.
  - intros (suffix & Hne & ->). split.
    + apply Nat.ltb_lt. rewrite length_append.
      destruct suffix; [contradiction | simpl; lia].
    + apply String.eqb_eq. apply substring_prefix.
Qed.

Section Pods.

Variable client : Client.t.
Variable clock : nat -> gostd.Time.

Lemma podNode_attributed workloadName acc pod w :
  if attributed workloadName pod
  then exists node,
         (podNode clock workloadName acc pod w).1 = append acc node /\
         K8sResourceNode.Name node = ObjectMeta.Name (Pod.Meta pod)
  else (podNode clock workloadName acc pod w).1 = acc.
Proof.
  unfold podNode, attributed. cbv zeta.
  destruct (ownerNamed _ workloadName); cbn [negb andb orb].
  - eexists. split; reflexivity.
  - destruct (_ && _); cbn [negb].
    + eexists. split; reflexivity.
    + reflexivity.
Qed.

(** X14. The pods attached to a workload are, in the order of the
    answer, the pods of the namespace of which an owner reference names
    the workload or whose name is the name of the workload followed by at
    least one byte; neither the kind of the owner nor the labels of the
    pod are looked at. When the pods cannot be listed there are none. *)
Theorem discoverPodsForWorkload_attributed (namespace workloadName : string)
  (w : World) :
  List.map K8sResourceNode.Name
    (discoverPodsForWorkload client clock namespace workloadName w).1.1 =
  match Client.ListPods client (calls w) namespace "" with
  | Ok items =>
      List.map (fun pod => ObjectMeta.Name (Pod.Meta pod))
        (List.filter (attributed workloadName) items)
  | Err _ => []
  end /\
  (forall pod, attributed workloadName pod = true <-> claimed workloadName pod).
Proof.
  split; [|intros pod; apply attributed_claimed].
  unfold discoverPodsForWorkload, bind, request. cbn [fst snd].
  destruct (Client.ListPods client (calls w) namespace "") as [items|err];
    [|reflexivity].
  match goal with
  | |- context [rangeM ?body ?start items ?w'] =>
      pose proof (rangeM_filter body (attributed workloadName)
                    K8sResourceNode.Name
                    (fun pod => ObjectMeta.Name (Pod.Meta pod))
                    (podNode_attributed workloadName)
                    items start w') as H;
      destruct (rangeM body start items w') as [pods w'']
  end.
  exact H.
Qed.

End Pods.

(* ===================================================================== *)
(** ** Further properties: the requests of a run                          *)
(* ===================================================================== *)

Lemma emits_ret {A : Type} (P : Call.t -> Prop) (a : A) : emits P (ret a).
Proof. intros w. exists []. split; [now rewrite app_nil_r | constructor]. Qed.

Lemma emits_bind {A B : Type} (P : Call.t -> Prop) (m : M A) (k : A -> M B) :
  emits P m -> (forall a, emits P (k a)) -> emits P (bind m k).
Proof.
  intros Hm Hk w. unfold bind. destruct (Hm w) as (new1 & E1 & H1).
  destruct (m w) as [a w1]. destruct (Hk a w1) as (new2 & E2 & H2).
  exists (new1 ++ new2)%list. split.
  - rewrite E2. simpl in E1. rewrite E1. now rewrite <- app_assoc.
  - apply Forall_app. now split.
Qed.

Lemma emits_rangeM {A S : Type} (P : Call.t -> Prop) (body : S -> A -> M S) :
  (forall acc x, emits P (body acc x)) ->
  forall items acc, emits P (rangeM body acc items).
Proof.
  intros Hbody items. induction items as [|x items IH]; intros acc; simpl.
  - apply emits_ret.
  - apply emits_bind; [apply Hbody | intros acc'; apply IH].
Qed.

Lemma emits_request {A : Type} (P : Call.t -> Prop) (c : Call.t)
  (answer : list Call.t -> A) : P c -> emits P (request c answer).
Proof.
  intros Hc w. exists [c]. split; [reflexivity | now repeat constructor].
Qed.

Lemma emits_Now (clock : nat -> gostd.Time) (P : Call.t -> Prop) : emits P (Now clock).
Proof. intros w. exists []. split; [simpl; now rewrite app_nil_r | constructor]. Qed.

Lemma emits_formatAge (clock : nat -> gostd.Time) (P : Call.t -> Prop) (t : gostd.Time) :
  emits P (formatAge clock t).
Proof.
  unfold formatAge, Since.
  repeat (apply emits_bind; [|intros ?]); try apply emits_ret. apply emits_Now.
Qed.

Section Requests.

Variable client : Client.t.
Variable clock : nat -> gostd.Time.
Variables name namespace : string.
Variable opts : Options.

Ltac emit :=
  repeat first
    [ apply emits_ret
    | apply emits_formatAge
    | apply emits_Now
    | apply emits_request
    | apply emits_rangeM; intros ? ?
    | apply emits_bind; [|intros ?] ].

Lemma emits_discoverPodsForWorkload workloadName :
  IncludePods opts = true ->
  emits (scoped name namespace opts)
    (discoverPodsForWorkload client clock namespace workloadName).
Proof.
  intros Hpods. unfold discoverPodsForWorkload.
  apply emits_bind; [apply emits_request; simpl; auto|].
  intros [items|err]; [|apply emits_ret].
  apply emits_bind; [|intros ?; apply emits_ret].
  apply emits_rangeM. intros acc pod. unfold podNode. cbv zeta.
  destruct (negb _); emit.
Qed.

Lemma emits_discoverResources runtime :
  emits (scoped name namespace opts)
    (discoverResources client clock name namespace runtime opts).
Proof.
  unfold discoverResources. cbv zeta.
  apply emits_bind.
  { unfold discoverStatefulSets.
    apply emits_bind; [apply emits_request; simpl; auto|].
    intros [items|err]; [|apply emits_ret].
    apply emits_bind; [|intros ?; apply emits_ret].
    apply emits_rangeM. intros acc sts. unfold statefulSetNode. cbv zeta.
    apply emits_bind; [apply emits_formatAge|]. intros age.
    apply emits_bind; [|intros ?; apply emits_ret].
    destruct (IncludePods opts) eqn:Hpods; [|apply emits_ret].
    apply emits_bind; [now apply emits_discoverPodsForWorkload|].
    intros [pods ?]. apply emits_ret. }
  intros [stsResources stsWarnings]. apply emits_bind.
  { unfold discoverDaemonSets.
    apply emits_bind; [apply emits_request; simpl; auto|].
    intros [items|err]; [|apply emits_ret].
    apply emits_bind; [|intros ?; apply emits_ret].
    apply emits_rangeM. intros acc ds. unfold daemonSetNode. emit. }
  intros [dsResources dsWarnings]. apply emits_bind.
  { destruct (IncludeStorage opts) eqn:Hstorage; [|apply emits_ret].
    apply emits_bind; [|intros [? ?]; apply emits_ret].
    unfold discoverStorage.
    apply emits_bind; [apply emits_request; simpl; auto|].
    intros [items|err]; [|apply emits_ret].
    apply emits_bind; [|intros ?; apply emits_ret].
    apply emits_rangeM. intros acc pvc. unfold storageNodes. cbv zeta.
    apply emits_bind; [apply emits_formatAge|]. intros age.
    destruct (negb _); [|apply emits_ret].
    apply emits_bind; [apply emits_request; exact Hstorage|].
    intros [pv|err]; emit. }
  intros [resources warnings]. apply emits_bind; [|intros [? ?]; apply emits_ret].
  destruct (IncludeConfigs opts) eqn:Hconfigs; [|apply emits_ret].
  apply emits_bind; [|intros [? ?]; apply emits_ret].
  unfold discoverConfigs.
  apply emits_bind; [apply emits_request; simpl; auto|]. intros r1.
  apply emits_bind.
  { destruct r1 as [items|err]; [|apply emits_ret].
    apply emits_bind; [|intros ?; apply emits_ret].
    apply emits_rangeM. intros acc cm. unfold configMapNode. emit. }
  intros [resources' warnings'].
  apply emits_bind; [apply emits_request; simpl; auto|].
  intros [items|err]; [|apply emits_ret].
  apply emits_bind; [|intros ?; apply emits_ret].
  apply emits_rangeM. intros acc secret. unfold secretNode. emit.
Qed.

(** X15. A run only adds requests to those the client has received, and
    each of them lies within the Dataset asked for: the Dataset itself,
    the workloads, claims, ConfigMaps and Secrets of its namespace that
    carry the label of its release, the pods of its namespace, the volumes
    of the claims, and a runtime of type alluxio. Pods are requested only
    with [IncludePods], claims and volumes only with [IncludeStorage],
    ConfigMaps and Secrets only with [IncludeConfigs]. *)
Theorem MapFromDataset_requests :
  emits (scoped name namespace opts) (MapFromDataset client clock name namespace opts).
Proof.
  unfold MapFromDataset.
  apply emits_bind; [apply emits_Now|]. intros startTime.
  apply emits_bind; [apply emits_request; exact I|]. intros clusterName.
  apply emits_bind.
  { unfold resolveDataset.
    apply emits_bind; [apply emits_request; simpl; auto|].
    intros [obj|err]; apply emits_ret. }
  intros [dataset|err].
  - apply emits_bind.
    { unfold resolveRuntime. destruct (negb _); [apply emits_ret|]. cbv zeta.
      apply emits_bind; [apply emits_request; reflexivity|].
      intros [obj|err]; apply emits_ret. }
    intros r.
    destruct r as [rt|err];
      (apply emits_bind; [apply emits_discoverResources|]; intros [resources discovered];
       unfold Since; emit).
  - unfold Since. emit.
Qed.

End Requests.

(* ===================================================================== *)
(** ** Further properties: the naming conventions                         *)
(* ===================================================================== *)

Lemma append_assoc (s1 s2 s3 : string) : (s1 ++ s2) ++ s3 = s1 ++ s2 ++ s3.
Proof.
  induction s1 as [|c s1 IH]; [reflexivity|].
  rewrite !append_cons. now rewrite IH.
Qed.

Lemma append_inj_l (s a b : string) : s ++ a = s ++ b -> a = b.
Proof.
  induction s as [|c s IH]; [now rewrite !append_nil|].
  rewrite !append_cons. intros H. injection H as H. now apply IH.
Qed.

Lemma string_of_uint_head (d : Decimal.uint) :
  d <> Decimal.Nil ->
  exists c rest, NilEmpty.string_of_uint d = String c rest /\ decimalHead c = true /\
                 (rest = "" -> (Pos.of_uint d <= 9)%N).
Proof.
  intros Hd.
  destruct d as [|d|d|d|d|d|d|d|d|d|d]; [contradiction|..];
    (eexists _, _; split; [reflexivity|]; split; [reflexivity|];
     intros E; destruct d; try discriminate E; vm_compute; discriminate).
Qed.

(** A decimal numeral starts with a digit or a minus sign, and has one
    byte only for the numbers from 0 to 9. *)
Lemma fmt_d_head (n : Z) :
  exists c rest, gostd.fmt_d n = String c rest /\ decimalHead c = true /\
                 (rest = "" -> 0 <= n <= 9).
Proof.
  unfold gostd.fmt_d. destruct n as [|p|p]; simpl.
  - exists "0"%char, "". repeat split; lia.
  - destruct (string_of_uint_head (Pos.to_uint p) (DecimalPos.Unsigned.to_uint_nonnil p))
      as (c & rest & E & Hc & Hone).
    exists c, rest. unfold NilZero.string_of_uint.
    destruct (Pos.to_uint p) eqn:Ep; [discriminate E|..];
      (split; [exact E|]; split; [exact Hc|]; intros Hr; specialize (Hone Hr);
       rewrite <- Ep, DecimalPos.Unsigned.of_to in Hone; lia).
  - exists "-"%char. eexists. split; [reflexivity|]. split; [reflexivity|].
    unfold NilZero.string_of_uint.
    destruct (Pos.to_uint p) eqn:Ep; discriminate.
Qed.

(** The first byte of an encoding of two bytes or more is no digit and
    no minus sign. *)
Lemma byte_of_lead (k x : Z) :
  (k = 192 /\ 0 <= x < 32) \/ (k = 224 /\ 0 <= x < 16) \/ (k = 240 /\ 0 <= x < 8) ->
  decimalHead (gostd.byte_of (Z.lor k x)) = false.
Proof.
  intros H. destruct x as [|p|p]; [| |lia].
  - destruct H as [[-> _]|[[-> _]|[-> _]]]; reflexivity.
  - destruct H as [[-> H]|[[-> H]|[-> H]]];
      repeat (destruct p as [p|p|]; try (exfalso; lia); try reflexivity).
Qed.

Lemma string_of_rune_decimal (r n : Z) :
  gostd.string_of_rune r = gostd.fmt_d n -> 0 <= r < 128 /\ 0 <= n <= 9.
Proof.
  destruct (fmt_d_head n) as (c & rest & -> & Hc & Hone).
  unfold gostd.string_of_rune.
  destruct (Z.ltb_spec r 0) as [?|Hr0]; cbn [orb];
    [intros E; injection E as <- _; discriminate Hc|].
  destruct (Z.ltb_spec 1114111 r) as [?|Hmax]; cbn [orb];
    [intros E; injection E as <- _; discriminate Hc|].
  destruct (_ && _); [intros E; injection E as <- _; discriminate Hc|].
  assert (Hshift : forall k, 0 <= k -> 0 <= Z.shiftr r k) by (intros; now apply Z.shiftr_nonneg).
  destruct (Z.ltb_spec r 128) as [?|H128].
  { intros E. injection E as _ <-. split; [lia | now apply Hone]. }
  destruct (Z.ltb_spec r 2048) as [?|H2048];
    [|destruct (Z.ltb_spec r 65536) as [?|H65536]];
    intros E; injection E as <- _; exfalso;
    rewrite byte_of_lead in Hc; try discriminate Hc;
    rewrite Z.shiftr_div_pow2 by lia.
  - left. split; [reflexivity|]. change (2 ^ 6) with 64.
    split; [apply Z.div_pos; lia | apply Z.div_lt_upper_bound; lia].
  - right. left. split; [reflexivity|]. change (2 ^ 12) with 4096.
    split; [apply Z.div_pos; lia | apply Z.div_lt_upper_bound; lia].
  - right. right. split; [reflexivity|]. change (2 ^ 18) with 262144.
    split; [apply Z.div_pos; lia | apply Z.div_lt_upper_bound; lia].
Qed.

Lemma rune_of_int_digit (ordinal : Z) :
  0 <= ordinal <= 9 ->
  gostd.string_of_rune (gostd.rune_of_int (48 + ordinal)) = gostd.fmt_d ordinal.
Proof.
  intros H.
  assert (E : ordinal = 0 \/ ordinal = 1 \/ ordinal = 2 \/ ordinal = 3 \/ ordinal = 4 \/
              ordinal = 5 \/ ordinal = 6 \/ ordinal = 7 \/ ordinal = 8 \/ ordinal = 9)
    by lia.
  repeat (destruct E as [->|E]; [reflexivity|]). subst. reflexivity.
Qed.

(** X16. The pod names of the naming conventions are those of
    Kubernetes, the name of the StatefulSet, a dash and the ordinal in
    decimal, for the ordinals from 0 to 9 and for no other: the ordinal is
    turned into the one character that follows the digit zero by that many
    places, which is a colon for the ordinal 10. *)
Theorem pod_names_decimal (name : string) (ordinal : Z) :
  (NamingConventions.MasterPod name ordinal =
   NamingConventions.MasterStatefulSet name ++ "-" ++ gostd.fmt_d ordinal
   <-> 0 <= ordinal <= 9) /\
  (NamingConventions.WorkerPod name ordinal =
   NamingConventions.WorkerStatefulSet name ++ "-" ++ gostd.fmt_d ordinal
   <-> 0 <= ordinal <= 9) /\
  NamingConventions.MasterPod name 10 = name ++ "-master-:".
Proof.
  unfold NamingConventions.MasterPod, NamingConventions.WorkerPod,
    NamingConventions.MasterStatefulSet, NamingConventions.WorkerStatefulSet.
  rewrite !append_assoc.
  change ("-master" ++ "-" ++ gostd.fmt_d ordinal)
    with ("-master-" ++ gostd.fmt_d ordinal).
  change ("-worker" ++ "-" ++ gostd.fmt_d ordinal)
    with ("-worker-" ++ gostd.fmt_d ordinal).
  split; [|split; [|reflexivity]].
  - split.
    + intros H. apply append_inj_l, (append_inj_l "-master-") in H.
      now apply string_of_rune_decimal in H.
    + intros H. now rewrite rune_of_int_digit.
  - split.
    + intros H. apply append_inj_l, (append_inj_l "-worker-") in H.
      now apply string_of_rune_decimal in H.
    + intros H. now rewrite rune_of_int_digit.
Qed.

(* ===================================================================== *)
(** ** Further properties: the real client                                *)
(* ===================================================================== *)

(** X17. The real client knows exactly the seven runtime types that
    package [types] declares, as they are written: for each of them it
    asks the dynamic client for the resource named by the type followed
    by [runtimes], in the Fluid group and version; for any other string it
    answers with an error that quotes the string, and asks nothing. *)
Theorem RealClient_GetRuntime_types
  (dynamicGet : GroupVersionResource.t -> string -> string -> result Unstructured)
  (runtimeType name namespace : string) :
  (In runtimeType runtimeTypes ->
   RealClient_GetRuntime dynamicGet runtimeType name namespace =
   dynamicGet (GroupVersionResource.mk "data.fluid.io" "v1alpha1"
                 (runtimeType ++ "runtimes")) namespace name) /\
  (~ In runtimeType runtimeTypes ->
   RealClient_GetRuntime dynamicGet runtimeType name namespace =
   Err ("unknown runtime type: " ++ runtimeType)).
Proof.
  unfold RealClient_GetRuntime, RuntimeTypeToGVR. split.
  - intros H. simpl in H.
    repeat (destruct H as [<-|H]; [reflexivity|]). destruct H.
  - intros H.
    assert (Hne : forall t, In t runtimeTypes -> t <> runtimeType)
      by (intros t Ht ->; contradiction).
    rewrite !lookup_insert_ne by (apply Hne; simpl; tauto).
    rewrite lookup_singleton_ne by (apply Hne; simpl; tauto).
    reflexivity.
Qed.

(* ===================================================================== *)
(** ** Further properties: the phases of the resources                    *)
(* ===================================================================== *)

Lemma post_request {A : Type} (c : Call.t) (answer : list Call.t -> A) :
  post (fun a => exists h, a = answer h) (request c answer).
Proof. intros w. exists (calls w). reflexivity. Qed.

Lemma post_rangeM_In {A S : Type} (I : S -> Prop) (body : S -> A -> M S)
  (items : list A) :
  (forall acc x, In x items -> I acc -> post I (body acc x)) ->
  forall acc, I acc -> post I (rangeM body acc items).
Proof.
  intros Hbody.
  assert (H : forall l, (forall x, In x l -> In x items) ->
                        forall acc, I acc -> post I (rangeM body acc l)).
  { induction l as [|x l IH]; intros Hl acc Hacc; simpl.
    - now apply post_ret.
    - eapply post_bind.
      + apply Hbody; [apply Hl; now left | exact Hacc].
      + intros acc' Hacc'. apply IH; [|exact Hacc'].
        intros y Hy. apply Hl. now right. }
  apply H. auto.
Qed.

Section Phases.

Variable client : Client.t.
Variable clock : nat -> gostd.Time.

Ltac step := eapply post_bind; [apply post_any|]; intros ? _.

Lemma post_discoverResources_phased name namespace runtime opts :
  post (fun r => Forall (phased client namespace ("release=" ++ name)) r.1)
    (discoverResources client clock name namespace runtime opts).
Proof.
  unfold discoverResources. cbv zeta.
  set (P := phased client namespace ("release=" ++ name)).
  eapply post_bind with (P := fun r => Forall P r.1).
  { unfold discoverStatefulSets.
    eapply post_bind; [apply post_request|]. intros a [h Ha].
    destruct a as [items|err]; [|apply post_ret; constructor].
    eapply post_bind; [|intros rs Hrs; apply post_ret; exact Hrs].
    apply post_rangeM_In with (I := Forall P); [|constructor].
    intros acc sts Hin Hacc. unfold statefulSetNode. cbv zeta. step. step.
    apply post_ret. apply Forall_append; [exact Hacc|].
    left. exists h, items, sts. symmetry in Ha. repeat split; assumption. }
  intros [sts stsw] Hsts. simpl in Hsts.
  eapply post_bind with (P := fun r => Forall P r.1).
  { unfold discoverDaemonSets.
    eapply post_bind; [apply post_request|]. intros a [h Ha].
    destruct a as [items|err]; [|apply post_ret; constructor].
    eapply post_bind; [|intros rs Hrs; apply post_ret; exact Hrs].
    apply post_rangeM_In with (I := Forall P); [|constructor].
    intros acc ds Hin Hacc. unfold daemonSetNode. cbv zeta. step.
    apply post_ret. apply Forall_append; [exact Hacc|].
    right. left. exists h, items, ds. symmetry in Ha. repeat split; assumption. }
  intros [ds dsw] Hds. simpl in Hds.
  eapply post_bind with (P := fun r => Forall P r.1).
  { destruct (IncludeStorage opts);
      [|apply post_ret; simpl; apply Forall_app; now split].
    eapply post_bind with (P := fun r => Forall P r.1);
      [|intros [st stw] Hst; apply post_ret; simpl;
        repeat (apply Forall_app; split); assumption].
    unfold discoverStorage.
    eapply post_bind; [apply post_request|]. intros a [h Ha]. symmetry in Ha.
    destruct a as [items|err]; [|apply post_ret; constructor].
    eapply post_bind; [|intros rs Hrs; apply post_ret; exact Hrs].
    apply post_rangeM_In with (I := Forall P); [|constructor].
    intros acc pvc Hin Hacc. unfold storageNodes. cbv zeta. step.
    assert (Hclaim : forall age,
      Forall P (append acc
        (K8sResourceNode.mk "PersistentVolumeClaim" "v1"
           (ObjectMeta.Name (PersistentVolumeClaim.Meta pvc))
           (ObjectMeta.Namespace (PersistentVolumeClaim.Meta pvc))
           ComponentStorage
           (ResourceStatus.mk
              (if negb (String.eqb (PersistentVolumeClaim.Status_Phase pvc) "Bound")
               then PhaseNotBound else PhaseBound) "" "" age)
           None ∅
           {[ "volumeName" := PersistentVolumeClaim.Spec_VolumeName pvc ]} []))).
    { intros age. apply Forall_append; [exact Hacc|].
      right. right. left. exists h, items, pvc.
      repeat split; try assumption. cbn.
      now destruct (String.eqb _ "Bound"). }
    destruct (negb (String.eqb (PersistentVolumeClaim.Spec_VolumeName pvc) ""));
      [|apply post_ret; apply Hclaim].
    eapply post_bind; [apply post_request|]. intros a0 [h' Ha0]. symmetry in Ha0.
    destruct a0 as [pv|err]; [|apply post_ret; apply Hclaim].
    step. apply post_ret. apply Forall_append; [apply Hclaim|].
    right. right. right. left. exists h, items, pvc, h', pv.
    repeat split; assumption. }
  intros [rs ws] Hrs. simpl in Hrs.
  eapply post_bind with (P := fun r => Forall P r.1);
    [|intros [rs' ws'] H; apply post_ret; exact H].
  destruct (IncludeConfigs opts); [|apply post_ret; exact Hrs].
  eapply post_bind with (P := fun r => Forall P r.1);
    [|intros [cf cfw] Hcf; apply post_ret; simpl; apply Forall_app; now split].
  unfold discoverConfigs.
  eapply post_bind; [apply post_request|]. intros a [h Ha]. symmetry in Ha.
  eapply post_bind with (P := fun r => Forall P r.1).
  { destruct a as [items|err]; [|apply post_ret; constructor].
    eapply post_bind; [|intros rs' Hrs'; apply post_ret; exact Hrs'].
    apply post_rangeM_In with (I := Forall P); [|constructor].
    intros acc cm Hin Hacc. unfold configMapNode. step. apply post_ret.
    apply Forall_append; [exact Hacc|].
    do 4 right. left. exists h, items, cm. repeat split; assumption. }
  intros [rs' ws'] Hrs'. simpl in Hrs'.
  eapply post_bind; [apply post_request|]. intros a0 [h0 Ha0]. symmetry in Ha0.
  destruct a0 as [items|err]; [|apply post_ret; exact Hrs'].
  eapply post_bind; [|intros rs'' Hrs''; apply post_ret; exact Hrs''].
  apply post_rangeM_In with (I := Forall P); [|exact Hrs'].
  intros acc secret Hin Hacc. unfold secretNode. step. apply post_ret.
  apply Forall_append; [exact Hacc|].
  do 5 right. exists h0, items, secret. repeat split; assumption.
Qed.

(** X18. Every top-level node of the graph of a run comes from an object
    the client listed for the namespace and the release, or from the
    volume the client gave for a listed claim, and has its name. The node
    of a StatefulSet or DaemonSet shows the ready and the desired number
    of the object in its ready string and is NotReady when the first is
    below the second, Ready otherwise; the node of a claim is Bound when
    the phase of the claim is Bound and NotBound otherwise; the node of a
    volume has the phase of the volume as the client gave it; the node
    of a ConfigMap or Secret is Ready. Hence the resources of a
    PODS_NOT_READY warning are the workloads with too few ready replicas
    and the volumes whose phase is NotReady or Failed: a claim that is
    not bound is never reported. *)
Theorem MapFromDataset_phases (name namespace : string) (opts : Options) (w : World) :
  let g := (MapFromDataset client clock name namespace opts w).1.1 in
  Forall (phased client namespace ("release=" ++ name)) (ResourceGraph.Resources g) /\
  Forall (fun n => unhealthy n = true ->
                   K8sResourceNode.Kind n = "PersistentVolume" \/
                   In (K8sResourceNode.Kind n) ["StatefulSet"; "DaemonSet"] /\
                   ResourceStatus.Phase (K8sResourceNode.Status n) = PhaseNotReady)
    (ResourceGraph.Resources g).
Proof.
  intros g.
  assert (H : Forall (phased client namespace ("release=" ++ name))
                (ResourceGraph.Resources g)).
  { destruct (MapFromDataset_outcome client clock name namespace opts w)
      as [(err & _ & _ & Hrs & _) | (obj & w1 & pre & _ & _ & Hrs & _)];
      fold g in Hrs; rewrite Hrs; [constructor|].
    apply (post_discoverResources_phased name namespace _ opts w1). }
  split; [exact H|].
  eapply List.Forall_impl; [|exact H].
  intros n Hn. unfold unhealthy. cbv zeta.
  destruct Hn as [(h & items & x & _ & _ & Hk & _ & _ & Hp)
                 |[(h & items & x & _ & _ & Hk & _ & _ & Hp)
                 |[(h & items & x & _ & _ & Hk & _ & Hp)
                 |[(h & items & x & h' & pv & _ & _ & _ & Hk & _ & Hp)
                 |[(h & items & x & _ & _ & Hk & _ & Hp)
                 |(h & items & x & _ & _ & Hk & _ & Hp)]]]]]; rewrite Hp.
  - destruct (_ <? _); [intros _; right; rewrite Hk; simpl; auto | discriminate].
  - destruct (_ <? _); [intros _; right; rewrite Hk; simpl; auto | discriminate].
  - destruct (String.eqb _ "Bound"); discriminate.
  - intros _. now left.
  - discriminate.
  - discriminate.
Qed.

End Phases.

(* ===================================================================== *)
(** ** Further properties: the pod requests of the StatefulSets           *)
(* ===================================================================== *)

Lemma traces_ret {A : Type} (a : A) : traces [] (ret a).
Proof. intros w. simpl. now rewrite app_nil_r. Qed.

Lemma traces_bind {A B : Type} (new1 new2 : list Call.t) (m : M A) (k : A -> M B) :
  traces new1 m -> (forall a, traces new2 (k a)) -> traces (new1 ++ new2) (bind m k).
Proof.
  intros Hm Hk w. unfold bind. specialize (Hm w).
  destruct (m w) as [a w1]. rewrite (Hk a w1). simpl in Hm. rewrite Hm.
  now rewrite <- app_assoc.
Qed.

Lemma traces_rangeM {A S : Type} (f : A -> list Call.t) (body : S -> A -> M S) :
  (forall acc x, traces (f x) (body acc x)) ->
  forall items acc, traces (concat (List.map f items)) (rangeM body acc items).
Proof.
  intros Hbody items. induction items as [|x items IH]; intros acc; simpl.
  - apply traces_ret.
  - apply traces_bind; [apply Hbody | intros acc'; apply IH].
Qed.

Lemma traces_request {A : Type} (c : Call.t) (answer : list Call.t -> A) :
  traces [c] (request c answer).
Proof. intros w. reflexivity. Qed.

Lemma traces_formatAge (clock : nat -> gostd.Time) (t : gostd.Time) :
  traces [] (formatAge clock t).
Proof. intros w. simpl. now rewrite app_nil_r. Qed.

Section PodRequests.

Variable client : Client.t.
Variable clock : nat -> gostd.Time.

Lemma traces_discoverPodsForWorkload namespace workloadName :
  traces [Call.ListPods namespace ""]
    (discoverPodsForWorkload client clock namespace workloadName).
Proof.
  unfold discoverPodsForWorkload.
  apply (traces_bind [_] []); [apply traces_request|].
  intros [items|err]; [|apply traces_ret].
  apply (traces_bind [] []); [|intros ?; apply traces_ret].
  assert (H : concat (List.map (fun _ : Pod.t => @nil Call.t) items) = [])
    by (induction items; [reflexivity | assumption]).
  rewrite <- H. apply traces_rangeM.
  intros acc pod. unfold podNode. cbv zeta.
  destruct (negb _); [apply traces_ret|].
  apply (traces_bind [] []); [apply traces_formatAge | intros ?; apply traces_ret].
Qed.

(** X19. [discoverStatefulSets] lists the StatefulSets once and then,
    with [IncludePods], lists all the pods of the namespace once for each
    StatefulSet of the answer, with no selector; it sends no other
    request, and none for pods without [IncludePods] or when the list
    fails. *)
Theorem discoverStatefulSets_requests (namespace labelSelector : string)
  (opts : Options) (w : World) :
  calls (discoverStatefulSets client clock namespace labelSelector opts w).2 =
  (calls w ++
   Call.ListStatefulSets namespace labelSelector ::
   match Client.ListStatefulSets client (calls w) namespace labelSelector with
   | Ok items =>
       if IncludePods opts
       then List.map (fun _ => Call.ListPods namespace "") items
       else []
   | Err _ => []
   end)%list.
Proof.
  unfold discoverStatefulSets, bind at 1, request at 1. cbv zeta. cbn [fst snd].
  destruct (Client.ListStatefulSets client (calls w) namespace labelSelector)
    as [items|err]; [|reflexivity].
  set (w1 := mkWorld (ticks w) (append (calls w) (Call.ListStatefulSets namespace labelSelector))).
  set (each := if IncludePods opts then [Call.ListPods namespace ""] else []).
  assert (Hbody : forall acc sts,
            traces each (statefulSetNode client clock namespace opts acc sts)).
  { intros acc sts. unfold statefulSetNode. cbv zeta.
    apply (traces_bind [] each); [apply traces_formatAge|]. intros age.
    replace each with (each ++ [])%list by apply app_nil_r.
    apply traces_bind; [|intros ?; apply traces_ret].
    unfold each. destruct (IncludePods opts); [|apply traces_ret].
    replace [Call.ListPods namespace ""] with ([Call.ListPods namespace ""] ++ [])%list
      by reflexivity.
    apply traces_bind; [apply traces_discoverPodsForWorkload|].
    intros [pods ?]. apply traces_ret. }
  assert (E : concat (List.map (fun _ : StatefulSet.t => each) items) =
              if IncludePods opts
              then List.map (fun _ => Call.ListPods namespace "") items
              else []).
  { unfold each. destruct (IncludePods opts);
      induction items as [|x items IH]; simpl; congruence. }
  pose proof (traces_bind _ [] _ (fun resources => ret (resources, @nil MappingWarning.t))
                (traces_rangeM (fun _ => each) _ Hbody items [])
                (fun a => traces_ret _) w1) as H.
  rewrite H, E. unfold w1, append. cbn [calls].
  now rewrite app_nil_r, <- app_assoc.
Qed.

End PodRequests.

(* ===================================================================== *)
(** ** The Warning Detector and the component matrix                      *)
(* ===================================================================== *)




Section Matrix.

Variable client : Client.t.
Variable clock : nat -> gostd.Time.





End Matrix.


(* ===================================================================== *)
(** ** Role classification of the discovered objects                      *)
(* ===================================================================== *)

(** A loop whose body appends one node per item yields one node per item,
    in order, each related to its item. *)
Lemma rangeM_Forall2 {A N : Type} (body : list N -> A -> M (list N))
  (R : A -> N -> Prop) :
  (forall acc x w, exists node, (body acc x w).1 = append acc node /\ R x node) ->
  forall items acc w, exists nodes,
      (rangeM body acc items w).1 = (acc ++ nodes)%list /\ Forall2 R items nodes.
Proof.
  intros Hbody items. induction items as [|x items IH]; intros acc w; simpl.
  - exists []. split; [now rewrite app_nil_r | constructor].
  - unfold bind. destruct (Hbody acc x w) as (node & Hacc & Hr).
    destruct (body acc x w) as [acc' w']. simpl in Hacc. subst acc'.
    destruct (IH (append acc node) w') as (nodes & Hrs & Hall).
    exists (node :: nodes). split.
    + rewrite Hrs. unfold append. now rewrite <- app_assoc.
    + now constructor.
Qed.

(** A loop whose body appends some nodes per item yields the nodes of
    the items, in order. *)
Lemma rangeM_concat {A N : Type} (body : list N -> A -> M (list N))
  (R : A -> list N -> Prop) :
  (forall acc x w, exists new, (body acc x w).1 = (acc ++ new)%list /\ R x new) ->
  forall items acc w, exists news,
      (rangeM body acc items w).1 = (acc ++ concat news)%list /\ Forall2 R items news.
Proof.
  intros Hbody items. induction items as [|x items IH]; intros acc w; simpl.
  - exists []. split; [now rewrite app_nil_r | constructor].
  - unfold bind. destruct (Hbody acc x w) as (new & Hacc & Hr).
    destruct (body acc x w) as [acc' w']. simpl in Hacc. subst acc'.
    destruct (IH (acc ++ new)%list w') as (news & Hrs & Hall).
    exists (new :: news). split.
    + rewrite Hrs. simpl. now rewrite <- app_assoc.
    + now constructor.
Qed.

(** A loop whose body sends no request sends none. *)
Lemma rangeM_calls {A S : Type} (body : S -> A -> M S) :
  (forall acc x w, calls (body acc x w).2 = calls w) ->
  forall items acc w, calls (rangeM body acc items w).2 = calls w.
Proof.
  intros Hbody items. induction items as [|x items IH]; intros acc w; simpl.
  - reflexivity.
  - unfold bind. specialize (Hbody acc x w).
    destruct (body acc x w) as [acc' w']. rewrite IH. exact Hbody.
Qed.

Section Classification.

Variable client : Client.t.
Variable clock : nat -> gostd.Time.

Lemma podNode_classified workloadName acc pod w :
  if attributed workloadName pod
  then exists node,
         (podNode clock workloadName acc pod w).1 = append acc node /\
         (K8sResourceNode.Name node, K8sResourceNode.Component node) =
         (ObjectMeta.Name (Pod.Meta pod),
          determineComponent (ObjectMeta.Labels (Pod.Meta pod)))
  else (podNode clock workloadName acc pod w).1 = acc.
Proof.
  unfold podNode, attributed. cbv zeta.
  destruct (ownerNamed _ workloadName); cbn [negb andb orb].
  - eexists. split; reflexivity.
  - destruct (_ && _); cbn [negb].
    + eexists. split; reflexivity.
    + reflexivity.
Qed.

(** The pods attached to a workload are classified by
    [determineComponent], and none of them is dropped for its role
    label. *)
Lemma discoverPodsForWorkload_classified namespace workloadName w :
  List.map (fun n => (K8sResourceNode.Name n, K8sResourceNode.Component n))
    (discoverPodsForWorkload client clock namespace workloadName w).1.1 =
  match Client.ListPods client (calls w) namespace "" with
  | Ok items =>
      List.map (fun pod => (ObjectMeta.Name (Pod.Meta pod),
                            determineComponent (ObjectMeta.Labels (Pod.Meta pod))))
        (List.filter (attributed workloadName) items)
  | Err _ => []
  end.
Proof.
  unfold discoverPodsForWorkload, bind, request. cbn [fst snd].
  destruct (Client.ListPods client (calls w) namespace "") as [items|err];
    [|reflexivity].
  match goal with
  | |- context [rangeM ?body ?start items ?w'] =>
      pose proof (rangeM_filter body (attributed workloadName)
                    (fun n => (K8sResourceNode.Name n, K8sResourceNode.Component n))
                    (fun pod => (ObjectMeta.Name (Pod.Meta pod),
                                 determineComponent (ObjectMeta.Labels (Pod.Meta pod))))
                    (podNode_classified workloadName)
                    items start w') as H;
      destruct (rangeM body start items w') as [pods w'']
  end.
  exact H.
Qed.

(** The children of a StatefulSet node are what
    [discoverPodsForWorkload] returns for the set. *)
Lemma statefulSetNode_children namespace opts acc sts w :
  exists node,
    (statefulSetNode client clock namespace opts acc sts w).1 = append acc node /\
    exists w',
      K8sResourceNode.Children node =
      if IncludePods opts
      then (discoverPodsForWorkload client clock namespace
              (ObjectMeta.Name (StatefulSet.Meta sts)) w').1.1
      else [].
Proof.
  unfold statefulSetNode, bind, formatAge, Since, Now, ret, bind. simpl.
  destruct (IncludePods opts).
  - match goal with
    | |- context [discoverPodsForWorkload client clock namespace ?n ?w1] =>
        destruct (discoverPodsForWorkload client clock namespace n w1)
          as [[pods ws] w'] eqn:E;
        eexists; split; [reflexivity|]; exists w1; rewrite E; reflexivity
    end.
  - eexists. split; [reflexivity|]. exists w. reflexivity.
Qed.

Lemma discoverStatefulSets_children namespace labelSelector opts w items :
  Client.ListStatefulSets client (calls w) namespace labelSelector = Ok items ->
  Forall2
    (fun sts node =>
       exists w',
         K8sResourceNode.Children node =
         if IncludePods opts
         then (discoverPodsForWorkload client clock namespace
                 (ObjectMeta.Name (StatefulSet.Meta sts)) w').1.1
         else [])
    items (discoverStatefulSets client clock namespace labelSelector opts w).1.1.
Proof.
  intros Hlist. unfold discoverStatefulSets, bind, request. rewrite Hlist. simpl.
  match goal with |- context [rangeM ?b ?a ?i ?w0] =>
    destruct (rangeM_Forall2 b _ (statefulSetNode_children namespace opts) i a w0)
      as (nodes & Hr & Hall);
    destruct (rangeM b a i w0) as [rs w'] end.
  simpl in *. subst rs. exact Hall.
Qed.

Lemma daemonSetNode_appends acc ds w :
  exists node,
    (daemonSetNode clock acc ds w).1 = append acc node /\
    (K8sResourceNode.Name node, K8sResourceNode.Component node) =
    (ObjectMeta.Name (DaemonSet.Meta ds), ComponentFuse).
Proof.
  unfold daemonSetNode, bind, formatAge, Since, Now, ret, bind. simpl.
  eexists. split; reflexivity.
Qed.

(** No listed DaemonSet is dropped, and each is given the fuse
    component: its role label is not looked at. *)
Lemma discoverDaemonSets_all_fuse namespace labelSelector opts w items :
  Client.ListDaemonSets client (calls w) namespace labelSelector = Ok items ->
  List.map (fun n => (K8sResourceNode.Name n, K8sResourceNode.Component n))
    (discoverDaemonSets client clock namespace labelSelector opts w).1.1 =
  List.map (fun ds => (ObjectMeta.Name (DaemonSet.Meta ds), ComponentFuse)) items.
Proof.
  intros Hlist. unfold discoverDaemonSets, bind, request. rewrite Hlist. simpl.
  match goal with |- context [rangeM ?b ?a ?i ?w0] =>
    destruct (rangeM_appends b _ _ daemonSetNode_appends i a w0)
      as (nodes & Hr & Hm);
    destruct (rangeM b a i w0) as [rs w'] end.
  simpl in *. subst rs. exact Hm.
Qed.

Lemma storageNodes_appends acc pvc w :
  exists new,
    (storageNodes client clock acc pvc w).1 = (acc ++ new)%list /\
    (Forall (fun n => K8sResourceNode.Component n = ComponentStorage) new /\
     List.map K8sResourceNode.Name
       (List.filter (fun n => String.eqb (K8sResourceNode.Kind n) "PersistentVolumeClaim")
          new) =
     [ObjectMeta.Name (PersistentVolumeClaim.Meta pvc)]).
Proof.
  unfold storageNodes, bind, formatAge, Since, Now, ret, bind, request, append. simpl.
  destruct (negb _); simpl.
  - destruct (Client.GetPV client _ _) as [pv|err]; simpl.
    + rewrite <- app_assoc. eexists. split; [reflexivity|].
      split; [repeat constructor | reflexivity].
    + eexists. split; [reflexivity|]. split; [repeat constructor | reflexivity].
  - eexists. split; [reflexivity|]. split; [repeat constructor | reflexivity].
Qed.

(** No listed claim is dropped; the nodes of the claims and of their
    volumes all have the storage component. *)
Lemma discoverStorage_all_storage namespace labelSelector w items :
  Client.ListPVCs client (calls w) namespace labelSelector = Ok items ->
  let nodes := (discoverStorage client clock namespace labelSelector w).1.1 in
  Forall (fun n => K8sResourceNode.Component n = ComponentStorage) nodes /\
  List.map K8sResourceNode.Name
    (List.filter (fun n => String.eqb (K8sResourceNode.Kind n) "PersistentVolumeClaim")
       nodes) =
  List.map (fun pvc => ObjectMeta.Name (PersistentVolumeClaim.Meta pvc)) items.
Proof.
  intros Hlist. unfold discoverStorage, bind, request. rewrite Hlist. simpl.
  match goal with |- context [rangeM ?b ?a ?i ?w0] =>
    destruct (rangeM_concat b _ storageNodes_appends i a w0)
      as (news & Hr & Hall);
    destruct (rangeM b a i w0) as [rs w'] end.
  simpl in *. subst rs. clear Hlist.
  induction Hall as [|pvc new items news [Hst Hname] _ [IH1 IH2]]; simpl.
  - split; [constructor | reflexivity].
  - split; [apply Forall_app; now split|].
    rewrite List.filter_app, List.map_app, Hname, IH2. reflexivity.
Qed.

Lemma configMapNode_appends acc cm w :
  exists node,
    (configMapNode clock acc cm w).1 = append acc node /\
    (K8sResourceNode.Kind node, K8sResourceNode.Name node, K8sResourceNode.Component node) =
    ("ConfigMap", ObjectMeta.Name (ConfigMap.Meta cm), ComponentConfig).
Proof.
  unfold configMapNode, bind, formatAge, Since, Now, ret, bind. simpl.
  eexists. split; reflexivity.
Qed.

Lemma secretNode_appends acc secret w :
  exists node,
    (secretNode clock acc secret w).1 = append acc node /\
    (K8sResourceNode.Kind node, K8sResourceNode.Name node, K8sResourceNode.Component node) =
    ("Secret", ObjectMeta.Name (Secret.Meta secret), ComponentConfig).
Proof.
  unfold secretNode, bind, formatAge, Since, Now, ret, bind. simpl.
  eexists. split; reflexivity.
Qed.

(** No listed ConfigMap or Secret is dropped, and each is given the
    config component. *)
Lemma discoverConfigs_all_config namespace labelSelector w :
  List.map (fun n => (K8sResourceNode.Kind n, K8sResourceNode.Name n,
                      K8sResourceNode.Component n))
    (discoverConfigs client clock namespace labelSelector w).1.1 =
  (match Client.ListConfigMaps client (calls w) namespace labelSelector with
   | Ok items =>
       List.map (fun cm => ("ConfigMap", ObjectMeta.Name (ConfigMap.Meta cm),
                            ComponentConfig)) items
   | Err _ => []
   end ++
   match Client.ListSecrets client
           (calls w ++ [Call.ListConfigMaps namespace labelSelector])
           namespace labelSelector with
   | Ok items =>
       List.map (fun secret => ("Secret", ObjectMeta.Name (Secret.Meta secret),
                                ComponentConfig)) items
   | Err _ => []
   end)%list.
Proof.
  unfold discoverConfigs, bind at 1, request at 1. cbn [fst snd].
  set (w1 := mkWorld (ticks w) (append (calls w) (Call.ListConfigMaps namespace labelSelector))).
  assert (Hquiet : forall acc cm w0, calls (configMapNode clock acc cm w0).2 = calls w0)
    by reflexivity.
  unfold bind at 1.
  destruct (Client.ListConfigMaps client (calls w) namespace labelSelector)
    as [cms|err].
  - unfold bind at 1.
    destruct (rangeM_appends (configMapNode clock) _ _ configMapNode_appends cms [] w1)
      as (nodes & Hr & Hm).
    pose proof (rangeM_calls (configMapNode clock) Hquiet cms [] w1) as Hc.
    destruct (rangeM (configMapNode clock) [] cms w1) as [rs w2].
    simpl in Hr, Hc. subst rs. cbn [ret fst snd].
    unfold bind at 1, request at 1. cbn [fst snd]. rewrite Hc. unfold w1. cbn [calls].
    fold (append (calls w) (Call.ListConfigMaps namespace labelSelector)).
    unfold append at 1.
    destruct (Client.ListSecrets client _ namespace labelSelector) as [ss|err].
    + unfold bind.
      match goal with |- context [rangeM ?b ?a ?i ?w0] =>
        destruct (rangeM_appends b _ _ secretNode_appends i a w0)
          as (nodes' & Hr' & Hm');
        destruct (rangeM b a i w0) as [rs' w3] end.
      simpl in Hr' |- *. subst rs'. rewrite ?List.map_app, ?Hm, ?Hm'. reflexivity.
    + simpl. now rewrite app_nil_r.
  - cbn [ret fst snd].
    unfold bind at 1, request at 1. cbn [fst snd]. unfold w1. cbn [calls].
    unfold append at 1.
    destruct (Client.ListSecrets client _ namespace labelSelector) as [ss|err'].
    + unfold bind.
      match goal with |- context [rangeM ?b ?a ?i ?w0] =>
        destruct (rangeM_appends b _ _ secretNode_appends i a w0)
          as (nodes' & Hr' & Hm');
        destruct (rangeM b a i w0) as [rs' w3] end.
      simpl in Hr' |- *. subst rs'. rewrite ?List.map_app, ?Hm'. reflexivity.
    + reflexivity.
Qed.

End Classification.

(** C8 (as amended). The structural role is decided by occurrence, not by
    the vocabulary, and for StatefulSets and pods only. Every vocabulary
    entry is classified as its component; a role label is master, worker
    or fuse according to the first of these words that occurs in it, and
    the unknown (empty) component when none occurs. Every listed
    StatefulSet yields a node, in order, classified by its role label;
    the children of that node are the pods [discoverPodsForWorkload]
    returns for the set, which are the pods attached to it, in order,
    each classified by its role label and none dropped for it. The role
    label of the other kinds is not looked at: every listed DaemonSet
    yields a node with the fuse component, every listed claim a node, the
    nodes of claims and volumes having the storage component, and every
    listed ConfigMap and Secret a node with the config component. *)
Theorem role_classification_by_occurrence :
  (forall (c : ComponentType) (r : string) (labels : gmap string string),
      In r (ComponentRoles c) -> labels !! "role" = Some r ->
      determineComponent labels = c) /\
  (forall labels : gmap string string,
      let role := default "" (labels !! "role") in
      (Substring "master" role -> determineComponent labels = ComponentMaster) /\
      (~ Substring "master" role -> Substring "worker" role ->
       determineComponent labels = ComponentWorker) /\
      (~ Substring "master" role -> ~ Substring "worker" role ->
       Substring "fuse" role -> determineComponent labels = ComponentFuse) /\
      (~ Substring "master" role -> ~ Substring "worker" role ->
       ~ Substring "fuse" role -> determineComponent labels = ComponentUnknown)) /\
  (forall (client : Client.t) (clock : nat -> gostd.Time)
          (namespace labelSelector : string) (opts : Options) (w : World)
          (items : list StatefulSet.t),
      Client.ListStatefulSets client (calls w) namespace labelSelector = Ok items ->
      List.map (fun n => (K8sResourceNode.Name n, K8sResourceNode.Component n))
        (discoverStatefulSets client clock namespace labelSelector opts w).1.1 =
      List.map (fun sts => (ObjectMeta.Name (StatefulSet.Meta sts),
                            determineComponent (ObjectMeta.Labels (StatefulSet.Meta sts))))
        items) /\
  (forall (client : Client.t) (clock : nat -> gostd.Time)
          (namespace labelSelector : string) (opts : Options) (w : World)
          (items : list StatefulSet.t),
      Client.ListStatefulSets client (calls w) namespace labelSelector = Ok items ->
      Forall2
        (fun sts node =>
           exists w',
             K8sResourceNode.Children node =
             if IncludePods opts
             then (discoverPodsForWorkload client clock namespace
                     (ObjectMeta.Name (StatefulSet.Meta sts)) w').1.1
             else [])
        items (discoverStatefulSets client clock namespace labelSelector opts w).1.1) /\
  (forall (client : Client.t) (clock : nat -> gostd.Time)
          (namespace workloadName : string) (w : World),
      List.map (fun n => (K8sResourceNode.Name n, K8sResourceNode.Component n))
        (discoverPodsForWorkload client clock namespace workloadName w).1.1 =
      match Client.ListPods client (calls w) namespace "" with
      | Ok items =>
          List.map (fun pod => (ObjectMeta.Name (Pod.Meta pod),
                                determineComponent (ObjectMeta.Labels (Pod.Meta pod))))
            (List.filter (attributed workloadName) items)
      | Err _ => []
      end) /\
  (forall (client : Client.t) (clock : nat -> gostd.Time)
          (namespace labelSelector : string) (opts : Options) (w : World)
          (items : list DaemonSet.t),
      Client.ListDaemonSets client (calls w) namespace labelSelector = Ok items ->
      List.map (fun n => (K8sResourceNode.Name n, K8sResourceNode.Component n))
        (discoverDaemonSets client clock namespace labelSelector opts w).1.1 =
      List.map (fun ds => (ObjectMeta.Name (DaemonSet.Meta ds), ComponentFuse)) items) /\
  (forall (client : Client.t) (clock : nat -> gostd.Time)
          (namespace labelSelector : string) (w : World)
          (items : list PersistentVolumeClaim.t),
      Client.ListPVCs client (calls w) namespace labelSelector = Ok items ->
      let nodes := (discoverStorage client clock namespace labelSelector w).1.1 in
      Forall (fun n => K8sResourceNode.Component n = ComponentStorage) nodes /\
      List.map K8sResourceNode.Name
        (List.filter
           (fun n => String.eqb (K8sResourceNode.Kind n) "PersistentVolumeClaim") nodes) =
      List.map (fun pvc => ObjectMeta.Name (PersistentVolumeClaim.Meta pvc)) items) /\
  (forall (client : Client.t) (clock : nat -> gostd.Time)
          (namespace labelSelector : string) (w : World),
      List.map (fun n => (K8sResourceNode.Kind n, K8sResourceNode.Name n,
                          K8sResourceNode.Component n))
        (discoverConfigs client clock namespace labelSelector w).1.1 =
      (match Client.ListConfigMaps client (calls w) namespace labelSelector with
       | Ok items =>
           List.map (fun cm => ("ConfigMap", ObjectMeta.Name (ConfigMap.Meta cm),
                                ComponentConfig)) items
       | Err _ => []
       end ++
       match Client.ListSecrets client
               (calls w ++ [Call.ListConfigMaps namespace labelSelector])
               namespace labelSelector with
       | Ok items =>
           List.map (fun secret => ("Secret", ObjectMeta.Name (Secret.Meta secret),
                                    ComponentConfig)) items
       | Err _ => []
       end)%list).
Proof.
  repeat apply conj.
  - exact determineComponent_known_role.
  - exact determineComponent_by_occurrence.
  - exact discoverStatefulSets_keeps_all.
  - exact discoverStatefulSets_children.
  - exact discoverPodsForWorkload_classified.
  - exact discoverDaemonSets_all_fuse.
  - exact discoverStorage_all_storage.
  - exact discoverConfigs_all_config.
Qed.

(** The amended statement at the JuiceFS worker role, at the sample
    cluster with an orphaned worker set, and at the pods and DaemonSets
    of the sample deployment in the older layout. *)
Lemma role_classification_by_occurrence_witness :
  determineComponent (sample.labels "demo" "juicefs-worker") = ComponentWorker /\
  determineComponent {[ "role" := "webmaster" ]} = ComponentMaster /\
  List.map (fun n => (K8sResourceNode.Name n, K8sResourceNode.Component n))
    (discoverStatefulSets sample.orphanCluster (sample.clockFrom 0)
       "default" "release=demo" DefaultOptions World0).1.1 =
  [("demo-master", ComponentMaster); ("demo-worker", ComponentWorker)] /\
  List.map (fun n => (K8sResourceNode.Name n, K8sResourceNode.Component n))
    (discoverPodsForWorkload sample.legacyCluster (sample.clockFrom 0)
       "default" "demo-master" World0).1.1 =
  [("demo-master-0", ComponentMaster); ("demo-master-metrics", ComponentUnknown)] /\
  List.map (fun n => (K8sResourceNode.Name n, K8sResourceNode.Component n))
    (discoverDaemonSets sample.legacyCluster (sample.clockFrom 0)
       "default" "release=demo" DefaultOptions World0).1.1 =
  [("demo-worker", ComponentFuse); ("demo-fuse", ComponentFuse)].
Proof.
  destruct role_classification_by_occurrence
    as (Hknown & Hocc & Hkeep & _ & Hpods & Hds & _ & _).
  repeat apply conj.
  - apply (Hknown ComponentWorker "juicefs-worker").
    + simpl. tauto.
    + reflexivity.
  - apply (proj1 (Hocc {[ "role" := "webmaster" ]})).
    exists "web", "". reflexivity.
  - rewrite (Hkeep sample.orphanCluster (sample.clockFrom 0) "default" "release=demo"
               DefaultOptions World0 _ eq_refl).
    reflexivity.
  - rewrite (Hpods sample.legacyCluster (sample.clockFrom 0) "default" "demo-master"
               World0).
    reflexivity.
  - rewrite (Hds sample.legacyCluster (sample.clockFrom 0) "default" "release=demo"
               DefaultOptions World0 _ eq_refl).
    reflexivity.
Defined.

(** C8 (as stated) fails. The role labels [thin-fuse] and [webmaster] are
    no entries of the vocabulary, yet they are classified as fuse and as
    master, not as the unknown component. And not every discovered object
    is classified by its role label: in the sample deployment in the
    older layout the worker DaemonSet carries the worker entry
    [alluxio-worker] of the vocabulary and is classified as fuse, and the
    claim and the ConfigMap, which carry no role label, are classified as
    storage and config, not as the unknown component. *)
Lemma unlisted_role_is_classified :
  (~ In "thin-fuse" knownRoles /\
   determineComponent {[ "role" := "thin-fuse" ]} = ComponentFuse /\
   ~ In "webmaster" knownRoles /\
   determineComponent {[ "role" := "webmaster" ]} = ComponentMaster /\
   ComponentFuse <> ComponentUnknown /\ ComponentMaster <> ComponentUnknown) /\
  In "alluxio-worker" (ComponentRoles ComponentWorker) /\
  List.map (fun n => (K8sResourceNode.Kind n, K8sResourceNode.Name n,
                      K8sResourceNode.Labels n !! "role",
                      K8sResourceNode.Component n))
    (ResourceGraph.Resources (sample.run sample.legacyCluster (sample.clockFrom 0)).1.1) =
  [("StatefulSet", "demo-master", Some "alluxio-master", ComponentMaster);
   ("DaemonSet", "demo-worker", Some "alluxio-worker", ComponentFuse);
   ("DaemonSet", "demo-fuse", Some "alluxio-fuse", ComponentFuse);
   ("PersistentVolumeClaim", "demo", None, ComponentStorage);
   ("ConfigMap", "demo-config", None, ComponentConfig)] /\
  ComponentFuse <> ComponentWorker /\
  ComponentStorage <> ComponentUnknown /\ ComponentConfig <> ComponentUnknown.
Proof.
  split; [|split; [|split; [|split; [|split]]]].
  - repeat split; try reflexivity; try discriminate;
      intros H; simpl in H; intuition discriminate.
  - simpl. tauto.
  - vm_compute. reflexivity.
  - discriminate.
  - discriminate.
  - discriminate.
Qed.
